(* Shallow embedding of the El Chicho Shop backend (src/server.js and the two
   earlier snapshots src/unnamed/part_000, src/unnamed/part_001): the route
   handlers of the specification, over a small model of JavaScript values, of
   the node-postgres driver and of the PostgreSQL tables they touch. *)

From Stdlib Require Import String Ascii List ZArith QArith Bool Lia.
Import ListNotations.

Set Warnings "-register-all".

Local Open Scope string_scope.

(* ------------------------------------------------------------------------- *)
(** * JavaScript values *)

Module Js.

(** A JavaScript number: a finite value or NaN (infinities are not needed by
    the handlers modelled here). *)
Inductive num := Num (q : Q) | NaN.

(** JSON-like values as they arrive in [req.body] / [req.query], plus
    [undefined] for absent properties. *)
Inductive jsval :=
| JUndef
| JNull
| JBool (b : bool)
| JNum (n : num)
| JStr (s : string)
| JArr (l : list jsval)
| JObj (kvs : list (string * jsval)).

(** JavaScript truthiness ([!v] is [negb (truthy v)]). *)
Definition truthy (v : jsval) : bool :=
  match v with
  | JUndef | JNull => false
  | JBool b => b
  | JNum (Num q) => negb (Qeq_bool q 0)
  | JNum NaN => false
  | JStr s => negb (String.eqb s "")
  | JArr _ | JObj _ => true
  end.

Definition num_truthy (n : num) : bool := truthy (JNum n).

(** Property lookup on a parsed JSON object: with duplicate keys the last
    one wins, as with [JSON.parse]. *)
Fixpoint lookup_last (kvs : list (string * jsval)) (k : string) : option jsval :=
  match kvs with
  | [] => None
  | (k', v) :: t =>
      match lookup_last t k with
      | Some r => Some r
      | None => if String.eqb k k' then Some v else None
      end
  end.

Definition prop (o : list (string * jsval)) (k : string) : jsval :=
  match lookup_last o k with Some v => v | None => JUndef end.

(** [v === undefined] *)
Definition is_undef (v : jsval) : bool :=
  match v with JUndef => true | _ => false end.

(** [Array.isArray v] *)
Definition is_array (v : jsval) : bool :=
  match v with JArr _ => true | _ => false end.

(** ASCII [toLowerCase]. *)
Definition lower_ascii (c : ascii) : ascii :=
  let n := nat_of_ascii c in
  if (65 <=? n)%nat && (n <=? 90)%nat then ascii_of_nat (n + 32) else c.

Fixpoint to_lower (s : string) : string :=
  match s with
  | EmptyString => EmptyString
  | String c t => String (lower_ascii c) (to_lower t)
  end.

(** [s.split(' ')] *)
Fixpoint split_space (s : string) : list string :=
  match s with
  | EmptyString => [EmptyString]
  | String c t =>
      match split_space t with
      | [] => [] (* unreachable *)
      | w :: ws =>
          if Ascii.eqb c " "%char then EmptyString :: w :: ws
          else String c w :: ws
      end
  end.

(** Is [q] an integral rational. *)
Definition is_integral (q : Q) : bool := Z.eqb (Z.rem (Qnum q) (Zpos (Qden q))) 0.

End Js.
Import Js.

(* ------------------------------------------------------------------------- *)
(** * The runtime: library primitives the handlers call *)

(** Column types of the PostgreSQL schema ([DECIMAL(10,2)] is [TNumeric]). *)
Inductive coltype :=
| TText
| TVarchar (n : nat)
| TNumeric
| TInt
| TBool
| TJsonb.

(** Values as node-postgres hands them to the server / gets them back. *)
Inductive sqlval :=
| SNull
| SStr (s : string)
| SNum (n : num)
| SBool (b : bool)
| SJson (v : jsval).

(** Errors a query can raise. *)
Inductive pg_error :=
| EInvalidInput (* a parameter does not parse as the column type *)
| ENotNull      (* NULL into a NOT NULL column *)
| EForeignKey   (* referenced row missing *)
| EUnique       (* duplicate key value violates unique constraint *)
| EBind         (* parameter count / placeholders mismatch *)
| EOther.       (* any other server-side failure *)

(** Exceptions a handler's [try] block can raise. *)
Inductive exn :=
| PgErr (e : pg_error)
| JsErr (msg : string).

(** The library functions and runtime facts the handlers depend on but that
    are not code of this repository. *)
Record Runtime := {
  rt_js_String : jsval -> string;          (* String(v) of an array/object *)
  rt_parseFloat_str : string -> num;       (* parseFloat on a string *)
  rt_ToNumber_str : string -> num;         (* Number(s) on a string *)
  rt_parseInt_other : jsval -> num;        (* parseInt(String(v)), except on
                                              integral numbers below 1e21 *)
  rt_pg_coerce_other : coltype -> sqlval -> option sqlval;
    (* PostgreSQL's parse of the text form of a parameter whose JavaScript
       type differs from the column type *)
  rt_pg_text : sqlval -> string;           (* text form node-postgres sends
                                              for a non-string parameter *)
  rt_pg_message : pg_error -> string;      (* error.message of a pg error *)
  rt_bcrypt_hash : string -> string -> string;  (* salt, password *)
  rt_bcrypt_compare : string -> string -> bool; (* password, hash *)
  rt_numeric_text : num -> string;  (* node-postgres returns NUMERIC as text *)
  rt_jwt_sign : jsval -> string;
  rt_jwt_verify : string -> string -> Z -> option jsval
    (* secret, token, current time: the payload when the signature checks
       and the token has not expired *)
}.

Definition exn_message (rt : Runtime) (e : exn) : string :=
  match e with
  | PgErr p => rt_pg_message rt p
  | JsErr m => m
  end.

(** [parseFloat(v)] *)
Definition parseFloat (rt : Runtime) (v : jsval) : num :=
  match v with
  | JNum n => n
  | JStr s => rt_parseFloat_str rt s
  | JUndef | JNull | JBool _ => NaN   (* "undefined", "null", "true", "false" *)
  | JArr _ | JObj _ => rt_parseFloat_str rt (rt_js_String rt v)
  end.

(** [parseInt(v)]: exact on integral numbers below 1e21, whose [String] is
    their decimal digits. *)
Definition parseInt (rt : Runtime) (v : jsval) : num :=
  match v with
  | JNum (Num q) =>
      if is_integral q && (Z.abs (Qnum q / Zpos (Qden q)) <? 10 ^ 21)%Z
      then Num (Qnum q / Zpos (Qden q) # 1) else rt_parseInt_other rt v
  | JUndef | JNull | JBool _ => NaN
  | _ => rt_parseInt_other rt v
  end.

(* ------------------------------------------------------------------------- *)
(** * The node-postgres driver and PostgreSQL *)

(** How node-postgres serialises a JavaScript parameter. *)
Definition to_param (v : jsval) : sqlval :=
  match v with
  | JUndef | JNull => SNull
  | JBool b => SBool b
  | JNum n => SNum n
  | JStr s => SStr s
  | JArr _ | JObj _ => SJson v
  end.

Definition num_param (n : num) : sqlval := SNum n.

(** [DECIMAL(10,2)]: round half away from zero to two decimals; at most 8
    integer digits. *)
Definition round2 (q : Q) : Z :=
  let n := (Qnum q * 100)%Z in
  let d := Zpos (Qden q) in
  if (0 <=? n)%Z then ((2 * n + d) / (2 * d))%Z
  else (- ((2 * (- n) + d) / (2 * d)))%Z.

Definition text_of (rt : Runtime) (v : sqlval) : string :=
  match v with SStr s => s | _ => rt_pg_text rt v end.

(** Strings are the UTF-8 bytes node-postgres sends: a byte [10xxxxxx]
    continues the character begun before it. *)
Definition utf8_cont (c : ascii) : bool :=
  (128 <=? nat_of_ascii c)%nat && (nat_of_ascii c <? 192)%nat.

(** [char_length(s)] *)
Fixpoint char_length (s : string) : nat :=
  match s with
  | EmptyString => 0
  | String c t => if utf8_cont c then char_length t else S (char_length t)
  end.

(** The first [n] characters of [s] (bytes) and the bytes after them. *)
Fixpoint split_chars (n : nat) (s : string) : string * string :=
  match s with
  | EmptyString => (EmptyString, EmptyString)
  | String c t =>
      if utf8_cont c then let '(a, r) := split_chars n t in (String c a, r)
      else match n with
           | O => (EmptyString, s)
           | S m => let '(a, r) := split_chars m t in (String c a, r)
           end
  end.

Fixpoint all_spaces (s : string) : bool :=
  match s with
  | EmptyString => true
  | String c t => Ascii.eqb c " "%char && all_spaces t
  end.

(** Assignment to [VARCHAR(n)]: a value of more than [n] characters is
    refused ("value too long"), unless the characters past the [n]th are all
    spaces, which are cut off. *)
Definition varchar_fit (n : nat) (s : string) : option string :=
  if (char_length s <=? n)%nat then Some s
  else let '(a, r) := split_chars n s in
       if all_spaces r then Some a else None.

Fixpoint has_nul (s : string) : bool :=
  match s with
  | EmptyString => false
  | String c t => Ascii.eqb c (ascii_of_nat 0) || has_nul t
  end.

(** A string or key holding the character U+0000, which [JSON.stringify]
    writes as the escape [\u0000] and jsonb refuses. *)
Fixpoint json_has_nul (v : jsval) : bool :=
  match v with
  | JStr s => has_nul s
  | JArr l => existsb json_has_nul l
  | JObj kvs => existsb (fun kv => has_nul (fst kv) || json_has_nul (snd kv)) kvs
  | _ => false
  end.

(** An INTEGER parameter, e.g. the [id] of [WHERE id = $1]: PostgreSQL
    refuses a value below -2^31 or above 2^31 - 1 (out of range for type
    integer). *)
Definition int4_ok (z : Z) : bool := (- 2 ^ 31 <=? z)%Z && (z <? 2 ^ 31)%Z.

(** Assignment of a parameter to a column of the given type. *)
Definition pg_coerce (rt : Runtime) (ty : coltype) (v : sqlval) : option sqlval :=
  match ty, v with
  | _, SNull => Some SNull
  | TText, _ => Some (SStr (text_of rt v))
  | TVarchar n, _ => option_map SStr (varchar_fit n (text_of rt v))
  | TNumeric, SNum (Num q) =>
      let r := round2 q in
      if (Z.abs r <? 10 ^ 10)%Z then Some (SNum (Num (r # 100))) else None
  | TNumeric, SNum NaN => Some (SNum NaN)
  | TInt, SNum (Num q) =>
      let z := (Qnum q / Zpos (Qden q))%Z in
      if is_integral q && (- 2 ^ 31 <=? z)%Z && (z <? 2 ^ 31)%Z
      then Some (SNum (Num (z # 1))) else None
  | TInt, SNum NaN => None
  | TBool, SBool b => Some (SBool b)
  | TJsonb, SJson j => if json_has_nul j then None else Some (SJson j)
  | _, _ => rt_pg_coerce_other rt ty v
  end.

(** [COALESCE($k, col)] assigned to a column. *)
Definition coalesce (rt : Runtime) (ty : coltype) (p old : sqlval) : option sqlval :=
  match p with
  | SNull => Some old
  | _ => pg_coerce rt ty p
  end.

(** Foreign key check for a nullable integer reference. *)
Definition fk_ok (ids : list Z) (v : sqlval) : bool :=
  match v with
  | SNull => true
  | SNum (Num q) => existsb (Z.eqb (Qnum q)) ids
  | _ => false
  end.

(* ------------------------------------------------------------------------- *)
(** * Responses *)

(** Key names of the response envelope: [exito]/[mensaje]/[datos] in the
    Spanish files, [success]/[message]/[data] in part_001. *)
Record envelope := { k_ok : string; k_msg : string; k_data : string }.
Definition es : envelope := {| k_ok := "exito"; k_msg := "mensaje"; k_data := "datos" |}.
Definition en : envelope := {| k_ok := "success"; k_msg := "message"; k_data := "data" |}.

Record response := { status : Z; body : list (string * jsval) }.

Definition fail_msg (e : envelope) (st : Z) (msg : string) : response :=
  {| status := st; body := [(k_ok e, JBool false); (k_msg e, JStr msg)] |}.

(** The [catch] blocks' 500 response, echoing [error.message]. *)
Definition fail_500 (e : envelope) (msg err : string) : response :=
  {| status := 500;
     body := [(k_ok e, JBool false); (k_msg e, JStr msg); ("error", JStr err)] |}.

Definition ok_data (e : envelope) (st : Z) (msg : option string) (d : jsval) : response :=
  {| status := st;
     body := (k_ok e, JBool true)
             :: match msg with Some m => [(k_msg e, JStr m)] | None => [] end
             ++ [(k_data e, d)] |}.

(* ------------------------------------------------------------------------- *)
(** * Authentication middleware ([autenticarToken], [authenticateToken]) *)

Module Auth.

Inductive outcome :=
| Reject (r : response)
| Next (user : jsval).    (* [req.usuario = usuario; next()] *)

(** [cabeceraAuth && cabeceraAuth.split(' ')[1]], then [!token]: the token
    when it is a non-empty string. *)
Definition token_of_header (hdr : option string) : option string :=
  match hdr with
  | None => None
  | Some h =>
      if String.eqb h "" then None
      else match nth_error (split_space h) 1 with
           | Some t => if String.eqb t "" then None else Some t
           | None => None
           end
  end.

(** src/server.js [autenticarToken] (with [e = es]) and part_001
    [authenticateToken] (with [e = en]). *)
Definition authenticate (e : envelope) (rt : Runtime) (secret : string) (now : Z)
    (hdr : option string) : outcome :=
  match token_of_header hdr with
  | None => Reject (fail_msg e 401 "Token no proporcionado")
  | Some token =>
      match rt_jwt_verify rt secret token now with
      | None => Reject (fail_msg e 403 "Token inválido o expirado")
      | Some usuario => Next usuario
      end
  end.

Definition autenticarToken := authenticate es.
Definition authenticateToken := authenticate en.

End Auth.

(* ------------------------------------------------------------------------- *)
(** * Database state *)

(** A row of [productos] (server.js, part_000) / [products] (part_001); the
    data columns hold what PostgreSQL stored, timestamps are numeric. *)
Record producto := {
  p_id : Z;
  p_nombre : sqlval;
  p_categoria_id : sqlval;
  p_subcategoria_id : sqlval;
  p_precio : sqlval;
  p_invertido : sqlval;
  p_descripcion : sqlval;
  p_imagen_base64 : sqlval;
  p_stock : sqlval;
  p_estado : sqlval;
  p_destacado : sqlval;
  p_fecha_creacion : Z;
  p_fecha_actualizacion : Z
}.

(** A row of [clientes] / [clients] (part_001 has no [activo], [direccion],
    [ciudad], [pais] columns: those stay at their defaults). *)
Record cliente := {
  c_id : Z;
  c_usuario : sqlval;
  c_contrasena_hash : sqlval;
  c_nombre : sqlval;
  c_correo : sqlval;
  c_telefono : sqlval;
  c_direccion : sqlval;
  c_ciudad : sqlval;
  c_pais : sqlval;
  c_activo : bool;
  c_rol : sqlval;
  c_fecha_creacion : Z;
  c_ultima_sesion : option Z
}.

(** A row of [ventas] / [sales]. *)
Record venta := {
  v_id : Z;
  v_numero_orden : sqlval;
  v_datos_carrito : sqlval;
  v_total : sqlval;
  v_nombre_cliente : sqlval;
  v_correo_cliente : sqlval;
  v_telefono_cliente : sqlval;
  v_estado : sqlval;
  v_fecha_creacion : Z
}.

(** The tables; each [seq_*] is the last value handed out by the SERIAL. *)
Record db := {
  categorias : list (Z * sqlval);     (* id, nombre *)
  subcategorias : list (Z * sqlval);
  productos : list producto;
  seq_productos : Z;
  clientes : list cliente;
  seq_clientes : Z;
  ventas : list venta;
  seq_ventas : Z
}.

Definition set_productos (s : db) (ps : list producto) (seq : Z) : db :=
  {| categorias := categorias s; subcategorias := subcategorias s;
     productos := ps; seq_productos := seq;
     clientes := clientes s; seq_clientes := seq_clientes s;
     ventas := ventas s; seq_ventas := seq_ventas s |}.

Definition set_clientes (s : db) (cs : list cliente) (seq : Z) : db :=
  {| categorias := categorias s; subcategorias := subcategorias s;
     productos := productos s; seq_productos := seq_productos s;
     clientes := cs; seq_clientes := seq;
     ventas := ventas s; seq_ventas := seq_ventas s |}.

Definition set_ventas (s : db) (vs : list venta) (seq : Z) : db :=
  {| categorias := categorias s; subcategorias := subcategorias s;
     productos := productos s; seq_productos := seq_productos s;
     clientes := clientes s; seq_clientes := seq_clientes s;
     ventas := vs; seq_ventas := seq |}.

(* ------------------------------------------------------------------------- *)
(** * The handlers' effect: database state and exceptions *)

(** A handler body runs against the database; statements are autocommitted,
    so the state reached before an exception is kept. *)
Definition M (A : Type) : Type := db -> (exn + A) * db.

Definition ret {A} (a : A) : M A := fun s => (inr a, s).
Definition bind {A B} (m : M A) (k : A -> M B) : M B :=
  fun s => match m s with
           | (inl e, s') => (inl e, s')
           | (inr a, s') => k a s'
           end.
Definition raise {A} (e : exn) : M A := fun s => (inl e, s).
Definition get_db : M db := fun s => (inr s, s).
Definition put_db (s' : db) : M unit := fun _ => (inr tt, s').

Notation "'let*' x ':=' m 'in' k" := (bind m (fun x => k))
  (at level 200, x name, m at level 100, k at level 200).

(** [try { body } catch (error) { handler }] *)
Definition try_catch (m : M response) (h : exn -> response) : M response :=
  fun s => match m s with
           | (inl e, s') => (inr (h e), s')
           | (inr r, s') => (inr r, s')
           end.

(** Run a handler whose body catches everything. *)
Definition run (m : M response) (s : db) : response * db :=
  match m s with
  | (inr r, s') => (r, s')
  | (inl _, s') => (fail_500 en "Error interno del servidor" "", s') (* unreachable *)
  end.

Definition lift_opt {A} (e : pg_error) (o : option A) : M A :=
  match o with Some a => ret a | None => raise (PgErr e) end.

(** The path parameter [id] bound to an INTEGER placeholder. *)
Definition bind_id (id : Z) : M unit :=
  if int4_ok id then ret tt else raise (PgErr EInvalidInput).

(** [x || d] on JavaScript values / numbers. *)
Definition or_else (v d : jsval) : jsval := if truthy v then v else d.
Definition num_or (n d : num) : num := if num_truthy n then n else d.

(** A returned row as node-postgres gives it to JavaScript (NUMERIC as
    text, timestamps shown as their numeric value). *)
Definition of_sql (rt : Runtime) (ty : coltype) (v : sqlval) : jsval :=
  match v with
  | SNull => JNull
  | SStr s => JStr s
  | SNum n => match ty with TNumeric => JStr (rt_numeric_text rt n) | _ => JNum n end
  | SBool b => JBool b
  | SJson j => j
  end.

Definition ts (t : Z) : jsval := JNum (Num (inject_Z t)).

(** Parameters parsed by PostgreSQL at bind time, one per column type. *)
Fixpoint coerce_list (rt : Runtime) (tys : list coltype) (ps : list sqlval)
  : option (list sqlval) :=
  match tys, ps with
  | [], [] => Some []
  | t :: ts, p :: ps' =>
      match pg_coerce rt t p, coerce_list rt ts ps' with
      | Some v, Some vs => Some (v :: vs)
      | _, _ => None
      end
  | _, _ => None
  end.

Definition is_null (v : sqlval) : bool := match v with SNull => true | _ => false end.

(* ------------------------------------------------------------------------- *)
(** * Products *)

Module Productos.

(** Column types of [productos] / [products] in INSERT order: nombre,
    categoria_id, subcategoria_id, precio, invertido, descripcion,
    imagen_base64, stock, estado, destacado. *)
Definition insert_tys : list coltype :=
  [TVarchar 255; TInt; TInt; TNumeric; TNumeric; TText; TText; TInt; TVarchar 20; TBool].

Definition fk_row (s : db) (q : producto) : bool :=
  fk_ok (map fst (categorias s)) (p_categoria_id q)
  && fk_ok (map fst (subcategorias s)) (p_subcategoria_id q).

(** [INSERT INTO productos (...10 columns...) VALUES ($1..$10) RETURNING *] *)
Definition insert_producto (rt : Runtime) (now : Z) (ps : list sqlval) : M producto :=
  let* vs := lift_opt EInvalidInput (coerce_list rt insert_tys ps) in
  match vs with
  | [n; c; sc; pr; inv; d; img; st; es; de] =>
      let* s := get_db in
      let id := (seq_productos s + 1)%Z in
      if negb (int4_ok id) then raise (PgErr EOther) (* nextval past the SERIAL's maximum *)
      else
      let row := {| p_id := id; p_nombre := n; p_categoria_id := c;
                    p_subcategoria_id := sc; p_precio := pr; p_invertido := inv;
                    p_descripcion := d; p_imagen_base64 := img; p_stock := st;
                    p_estado := es; p_destacado := de;
                    p_fecha_creacion := now; p_fecha_actualizacion := now |} in
      let s1 := set_productos s (productos s) id in
      let* _ := put_db s1 in                       (* nextval() is not rolled back *)
      if is_null n || is_null pr then raise (PgErr ENotNull)
      else if negb (fk_row s1 row) then raise (PgErr EForeignKey)
      else let* _ := put_db (set_productos s1 (productos s1 ++ [row]) id) in
           ret row
  | _ => raise (PgErr EBind)
  end.

(** Column names of the JSON a row is returned as. *)
Record cols := {
  col_id : string; col_nombre : string; col_categoria_id : string;
  col_subcategoria_id : string; col_precio : string; col_invertido : string;
  col_descripcion : string; col_imagen : string; col_stock : string;
  col_estado : string; col_destacado : string; col_creacion : string;
  col_actualizacion : string }.

Definition cols_es : cols :=
  {| col_id := "id"; col_nombre := "nombre"; col_categoria_id := "categoria_id";
     col_subcategoria_id := "subcategoria_id"; col_precio := "precio";
     col_invertido := "invertido"; col_descripcion := "descripcion";
     col_imagen := "imagen_base64"; col_stock := "stock"; col_estado := "estado";
     col_destacado := "destacado"; col_creacion := "fecha_creacion";
     col_actualizacion := "fecha_actualizacion" |}.

Definition cols_en : cols :=
  {| col_id := "id"; col_nombre := "name"; col_categoria_id := "category_id";
     col_subcategoria_id := "subcategory_id"; col_precio := "price";
     col_invertido := "invertido"; col_descripcion := "description";
     col_imagen := "image_base64"; col_stock := "stock"; col_estado := "status";
     col_destacado := "featured"; col_creacion := "created_at";
     col_actualizacion := "updated_at" |}.

(** [RETURNING *] / [SELECT p.*] as a JavaScript object. *)
Definition row_fields (rt : Runtime) (k : cols) (q : producto) : list (string * jsval) :=
  [(col_id k, JNum (Num (inject_Z (p_id q))));
   (col_nombre k, of_sql rt TText (p_nombre q));
   (col_categoria_id k, of_sql rt TInt (p_categoria_id q));
   (col_subcategoria_id k, of_sql rt TInt (p_subcategoria_id q));
   (col_precio k, of_sql rt TNumeric (p_precio q));
   (col_invertido k, of_sql rt TNumeric (p_invertido q));
   (col_descripcion k, of_sql rt TText (p_descripcion q));
   (col_imagen k, of_sql rt TText (p_imagen_base64 q));
   (col_stock k, of_sql rt TInt (p_stock q));
   (col_estado k, of_sql rt TText (p_estado q));
   (col_destacado k, of_sql rt TBool (p_destacado q));
   (col_creacion k, ts (p_fecha_creacion q));
   (col_actualizacion k, ts (p_fecha_actualizacion q))].

Definition row_json (rt : Runtime) (k : cols) (q : producto) : jsval :=
  JObj (row_fields rt k q).

(** src/server.js [POST /api/admin/productos] (after [autenticarToken]). *)
Definition crear_producto (rt : Runtime) (now : Z) (b : list (string * jsval))
  : M response :=
  try_catch
    (let nombre := prop b "nombre" in
     let categoria_id := prop b "categoria_id" in
     let subcategoria_id := prop b "subcategoria_id" in
     let precio := prop b "precio" in
     let invertido := prop b "invertido" in
     let descripcion := prop b "descripcion" in
     let imagen_base64 := prop b "imagen_base64" in
     let stock := prop b "stock" in
     let estado := prop b "estado" in
     let destacado := prop b "destacado" in
     if negb (truthy nombre) || negb (truthy precio) then
       ret (fail_msg es 400 "Nombre y precio son requeridos")
     else
       let* row := insert_producto rt now
         [to_param nombre;
          to_param (or_else categoria_id JNull);
          to_param (or_else subcategoria_id JNull);
          num_param (parseFloat rt precio);
          num_param (num_or (parseFloat rt invertido) (Num 0));
          to_param (or_else descripcion (JStr ""));
          to_param (or_else imagen_base64 JNull);
          num_param (num_or (parseInt rt stock) (Num 0));
          to_param (or_else estado (JStr "ACTIVO"));
          to_param (or_else destacado (JBool false))] in
       ret (ok_data es 201 (Some "Producto creado exitosamente") (row_json rt cols_es row)))
    (fun e => fail_500 es "Error creando producto" (exn_message rt e)).

(** part_001: [status?.toLowerCase() === 'inactivo' || ... === 'inactive'
    ? 'inactive' : 'ACTIVO']; [?.] on [undefined]/[null] yields [undefined],
    on a non-string it calls a missing method. *)
Definition status_norm (status : jsval) : exn + jsval :=
  match status with
  | JUndef | JNull => inr (JStr "ACTIVO")
  | JStr s =>
      if String.eqb (to_lower s) "inactivo" || String.eqb (to_lower s) "inactive"
      then inr (JStr "inactive") else inr (JStr "ACTIVO")
  | _ => inl (JsErr "status?.toLowerCase is not a function")
  end.


End Productos.

(* ------------------------------------------------------------------------- *)
(** * Product update and lookup *)

Module ProductUpdate.
Import Productos.

(** [COALESCE($k, col)]: the bound parameter unless it is NULL. *)
Definition pick (p old : sqlval) : sqlval := match p with SNull => old | _ => p end.

(** Types of [$1..$9] in server.js's UPDATE: nombre, categoria_id,
    subcategoria_id, precio, invertido, descripcion, stock, estado, destacado. *)
Definition update_tys : list coltype :=
  [TVarchar 255; TInt; TInt; TNumeric; TNumeric; TText; TInt; TVarchar 20; TBool].

(** The row after [SET nombre = COALESCE($1, nombre), ..., destacado =
    COALESCE($9, destacado), fecha_actualizacion = CURRENT_TIMESTAMP
    [, imagen_base64 = $10]]. *)
Definition upd_row (now : Z) (vs : list sqlval) (img : option sqlval) (q : producto)
  : producto :=
  match vs with
  | [n; c; sc; pr; inv; d; st; es; de] =>
      {| p_id := p_id q;
         p_nombre := pick n (p_nombre q);
         p_categoria_id := pick c (p_categoria_id q);
         p_subcategoria_id := pick sc (p_subcategoria_id q);
         p_precio := pick pr (p_precio q);
         p_invertido := pick inv (p_invertido q);
         p_descripcion := pick d (p_descripcion q);
         p_imagen_base64 := match img with Some i => i | None => p_imagen_base64 q end;
         p_stock := pick st (p_stock q);
         p_estado := pick es (p_estado q);
         p_destacado := pick de (p_destacado q);
         p_fecha_creacion := p_fecha_creacion q;
         p_fecha_actualizacion := now |}
  | _ => q
  end.

(** PostgreSQL checks a foreign key on UPDATE only when the referencing
    column is assigned a new value (here: its parameter is not NULL). *)
Definition fk_assigned (s : db) (vs : list sqlval) (q : producto) : bool :=
  (is_null (nth 1 vs SNull) || fk_ok (map fst (categorias s)) (p_categoria_id q))
  && (is_null (nth 2 vs SNull) || fk_ok (map fst (subcategorias s)) (p_subcategoria_id q)).

(** The UPDATE statement ... [WHERE id = $k RETURNING *]. *)
Definition update_productos (rt : Runtime) (now : Z) (id : Z) (ps : list sqlval)
    (img : option sqlval) : M (list producto) :=
  let* _ := bind_id id in
  let* vs := lift_opt EInvalidInput (coerce_list rt update_tys ps) in
  let* im := match img with
             | Some i => let* v := lift_opt EInvalidInput (pg_coerce rt TText i) in
                         ret (Some v)
             | None => ret None
             end in
  let* s := get_db in
  let hit := map (upd_row now vs im) (filter (fun q => Z.eqb (p_id q) id) (productos s)) in
  if forallb (fk_assigned s vs) hit then
    let* _ := put_db (set_productos s
                (map (fun q => if Z.eqb (p_id q) id then upd_row now vs im q else q)
                     (productos s))
                (seq_productos s)) in
    ret hit
  else raise (PgErr EForeignKey).

(** src/server.js [PUT /api/admin/productos/:id]: the parameters [$1..$9]
    built from the body. *)
Definition actualizar_params (rt : Runtime) (b : list (string * jsval)) : list sqlval :=
  let nombre := prop b "nombre" in
  let categoria_id := prop b "categoria_id" in
  let subcategoria_id := prop b "subcategoria_id" in
  let precio := prop b "precio" in
  let invertido := prop b "invertido" in
  let descripcion := prop b "descripcion" in
  let stock := prop b "stock" in
  let estado := prop b "estado" in
  let destacado := prop b "destacado" in
  [to_param nombre;
   to_param categoria_id;
   to_param subcategoria_id;
   (if truthy precio then num_param (parseFloat rt precio) else SNull);
   (if negb (is_undef invertido) then num_param (parseFloat rt invertido) else SNull);
   to_param descripcion;
   (let n := parseInt rt stock in if num_truthy n then num_param n else SNull);
   to_param estado;
   to_param destacado].

(** [if (imagen_base64) { query += `, imagen_base64 = $10 ...` }] *)
Definition actualizar_img (b : list (string * jsval)) : option sqlval :=
  let imagen_base64 := prop b "imagen_base64" in
  if truthy imagen_base64 then Some (to_param imagen_base64) else None.

(** src/server.js [PUT /api/admin/productos/:id] (after [autenticarToken]);
    [id] is the path parameter read as an integer. *)
Definition actualizar_producto (rt : Runtime) (now : Z) (id : Z)
    (b : list (string * jsval)) : M response :=
  try_catch
    (let* rows := update_productos rt now id (actualizar_params rt b) (actualizar_img b) in
     match rows with
     | [] => ret (fail_msg es 404 "Producto no encontrado")
     | r :: _ => ret (ok_data es 200 (Some "Producto actualizado exitosamente")
                              (row_json rt cols_es r))
     end)
    (fun e => fail_500 es "Error actualizando producto" (exn_message rt e)).

(** ** part_001 [PUT /api/admin/products/:id] *)

(** Decimal digits of a natural number. *)
Fixpoint dec_aux (fuel n : nat) (acc : string) : string :=
  match fuel with
  | O => acc
  | S f =>
      let acc' := String (ascii_of_nat (48 + n mod 10)) acc in
      if (n <? 10)%nat then acc' else dec_aux f (n / 10) acc'
  end.
Definition nat_to_dec (n : nat) : string := dec_aux (S n) n "".

Fixpoint join (sep : string) (l : list string) : string :=
  match l with
  | [] => ""
  | [x] => x
  | x :: t => x ++ sep ++ join sep t
  end.

(** [allowedFields], in the object's insertion order. *)
Definition allowed_fields (b : list (string * jsval)) (st : jsval)
  : list (string * jsval) :=
  [("name", prop b "name"); ("category_id", prop b "category_id");
   ("subcategory_id", prop b "subcategory_id"); ("price", prop b "price");
   ("invertido", prop b "invertido"); ("description", prop b "description");
   ("image_base64", prop b "image_base64"); ("stock", prop b "stock");
   ("featured", prop b "featured"); ("status", st)].

(** The loop over [Object.entries(allowedFields)]: entries that are not
    [undefined], numbered from 1. *)
Fixpoint number_fields (es : list (string * jsval)) (k : nat)
  : list (string * nat * jsval) :=
  match es with
  | [] => []
  | (f, v) :: t =>
      if is_undef v then number_fields t k
      else (f, k, v) :: number_fields t (S k)
  end.

(** [fields.push(`${field} = ${paramCount}`)]: the SET items as written. *)
Definition set_items (nf : list (string * nat * jsval)) : list string :=
  map (fun '(f, k, _) => f ++ " = " ++ nat_to_dec k) nf.

Definition update_text (nf : list (string * nat * jsval)) : string :=
  "UPDATE products SET "
  ++ join ", " (set_items nf ++ ["updated_at = CURRENT_TIMESTAMP"])%list
  ++ " WHERE id = " ++ nat_to_dec (S (length nf)) ++ " RETURNING *".

(** Placeholders [$n] occurring in a query text. *)
Definition is_digit (c : ascii) : bool :=
  (48 <=? nat_of_ascii c)%nat && (nat_of_ascii c <=? 57)%nat.
Definition digit (c : ascii) : nat := (nat_of_ascii c - 48)%nat.
Definition scan_start (c : ascii) : option (option nat) :=
  if Ascii.eqb c "$"%char then Some None else None.

Fixpoint scan (s : string) (st : option (option nat)) : list nat :=
  match s with
  | EmptyString => match st with Some (Some n) => [n] | _ => [] end
  | String c t =>
      match st with
      | Some (Some n) =>
          if is_digit c then scan t (Some (Some (n * 10 + digit c)%nat))
          else n :: scan t (scan_start c)
      | Some None =>
          if is_digit c then scan t (Some (Some (digit c))) else scan t (scan_start c)
      | None => scan t (scan_start c)
      end
  end.

Definition placeholders (s : string) : list nat := scan s None.

(** PostgreSQL accepts a bind of [n] values iff the text refers to exactly
    the parameters [$1..$n]. *)
Definition bind_ok (text : string) (n : nat) : bool :=
  let ph := placeholders text in
  forallb (fun k => existsb (Nat.eqb k) ph) (seq 1 n)
  && forallb (fun k => (1 <=? k)%nat && (k <=? n)%nat) ph.

(** Column types of part_001's [products] by name. *)
Definition col_ty (f : string) : coltype :=
  if String.eqb f "name" then TVarchar 255
  else if String.eqb f "category_id" then TInt
  else if String.eqb f "subcategory_id" then TInt
  else if String.eqb f "price" then TNumeric
  else if String.eqb f "invertido" then TNumeric
  else if String.eqb f "description" then TText
  else if String.eqb f "image_base64" then TText
  else if String.eqb f "stock" then TInt
  else if String.eqb f "featured" then TBool
  else TVarchar 20 (* status *).

Definition set_col (q : producto) (f : string) (v : sqlval) : producto :=
  {| p_id := p_id q;
     p_nombre := if String.eqb f "name" then v else p_nombre q;
     p_categoria_id := if String.eqb f "category_id" then v else p_categoria_id q;
     p_subcategoria_id := if String.eqb f "subcategory_id" then v else p_subcategoria_id q;
     p_precio := if String.eqb f "price" then v else p_precio q;
     p_invertido := if String.eqb f "invertido" then v else p_invertido q;
     p_descripcion := if String.eqb f "description" then v else p_descripcion q;
     p_imagen_base64 := if String.eqb f "image_base64" then v else p_imagen_base64 q;
     p_stock := if String.eqb f "stock" then v else p_stock q;
     p_estado := if String.eqb f "status" then v else p_estado q;
     p_destacado := if String.eqb f "featured" then v else p_destacado q;
     p_fecha_creacion := p_fecha_creacion q;
     p_fecha_actualizacion := p_fecha_actualizacion q |}.

Fixpoint coerce_assign (rt : Runtime) (asg : list (string * sqlval))
  : option (list (string * sqlval)) :=
  match asg with
  | [] => Some []
  | (f, v) :: t =>
      match pg_coerce rt (col_ty f) v, coerce_assign rt t with
      | Some v', Some t' => Some ((f, v') :: t')
      | _, _ => None
      end
  end.

(** Executing [UPDATE products SET f1 = k1, ..., updated_at = CURRENT_TIMESTAMP
    WHERE id = k] once the bind is accepted: with no placeholder in the text
    each [fi] is set to the literal number [ki] and the row is [id = k]. *)
Definition exec_literal_update (rt : Runtime) (now : Z) (nf : list (string * nat * jsval))
  : M (list producto) :=
  let asg := map (fun '(f, k, _) => (f, SNum (Num (Z.of_nat k # 1)))) nf in
  let id := Z.of_nat (S (length nf)) in
  let* asg' := lift_opt EInvalidInput (coerce_assign rt asg) in
  let upd q := let q' := fold_left (fun r '(f, v) => set_col r f v) asg' q in
               {| p_id := p_id q'; p_nombre := p_nombre q'; p_categoria_id := p_categoria_id q';
                  p_subcategoria_id := p_subcategoria_id q'; p_precio := p_precio q';
                  p_invertido := p_invertido q'; p_descripcion := p_descripcion q';
                  p_imagen_base64 := p_imagen_base64 q'; p_stock := p_stock q';
                  p_estado := p_estado q'; p_destacado := p_destacado q';
                  p_fecha_creacion := p_fecha_creacion q'; p_fecha_actualizacion := now |} in
  let* s := get_db in
  let hit := map upd (filter (fun q => Z.eqb (p_id q) id) (productos s)) in
  if forallb (fk_row s) hit then
    let* _ := put_db (set_productos s
                (map (fun q => if Z.eqb (p_id q) id then upd q else q) (productos s))
                (seq_productos s)) in
    ret hit
  else raise (PgErr EForeignKey).

(** part_001 [PUT /api/admin/products/:id] (after [authenticateToken]). *)
Definition update_product (rt : Runtime) (now : Z) (id : Z) (b : list (string * jsval))
  : M response :=
  try_catch
    (match status_norm (prop b "status") with
     | inl ex => raise ex
     | inr st =>
         let nf := number_fields (allowed_fields b st) 1 in
         match nf with
         | [] => ret (fail_msg en 400 "No hay campos para actualizar")
         | _ =>
             let values := (map (fun '(_, _, v) => to_param v) nf
                            ++ [SNum (Num (inject_Z id))])%list in
             let text := update_text nf in
             if negb (bind_ok text (length values)) then raise (PgErr EBind)
             else
               let* rows := exec_literal_update rt now nf in
               match rows with
               | [] => ret (fail_msg en 404 "Producto no encontrado")
               | r :: _ => ret (ok_data en 200 None (row_json rt cols_en r))
               end
         end
     end)
    (fun e => fail_500 en "Error actualizando producto" (exn_message rt e)).

(** ** Get product by id *)

(** [LOWER(p.estado) = 'activo'] *)
Definition estado_activo (v : sqlval) : bool :=
  match v with SStr x => String.eqb (to_lower x) "activo" | _ => false end.

(** [SELECT p.*, ... FROM productos p ... WHERE p.id = $1
    [AND LOWER(p.estado) = 'activo']] *)
Definition select_by_id (s : db) (only_active : bool) (id : Z) : list producto :=
  filter (fun q => Z.eqb (p_id q) id && (negb only_active || estado_activo (p_estado q)))
         (productos s).

Definition name_of (tbl : list (Z * sqlval)) (v : sqlval) : jsval :=
  match v with
  | SNum (Num q) =>
      match find (fun '(i, _) => Z.eqb i (Qnum q)) tbl with
      | Some (_, n) => match n with SStr x => JStr x | _ => JNull end
      | None => JNull
      end
  | _ => JNull
  end.

Definition joined_json (rt : Runtime) (k : cols) (cat_key sub_key : string)
    (s : db) (q : producto) : jsval :=
  JObj (row_fields rt k q
        ++ [(cat_key, name_of (categorias s) (p_categoria_id q));
            (sub_key, name_of (subcategorias s) (p_subcategoria_id q))])%list.

Definition get_by_id (e : envelope) (k : cols) (cat_key sub_key : string)
    (only_active : bool) (errmsg : string) (rt : Runtime) (id : Z) : M response :=
  try_catch
    (let* _ := bind_id id in
     let* s := get_db in
     match select_by_id s only_active id with
     | [] => ret (fail_msg e 404 "Producto no encontrado")
     | r :: _ => ret (ok_data e 200 None (joined_json rt k cat_key sub_key s r))
     end)
    (fun ex => fail_500 e errmsg (exn_message rt ex)).

(** src/server.js [GET /api/productos/:id] (public): no status condition. *)
Definition server_get_producto :=
  get_by_id es cols_es "nombre_categoria" "nombre_subcategoria" false
            "Error obteniendo producto".
(** src/server.js [GET /api/admin/productos/:id]. *)
Definition server_admin_get_producto :=
  get_by_id es cols_es "nombre_categoria" "nombre_subcategoria" false
            "Error obteniendo producto".
(** part_000 [GET /api/productos/:id] (public). *)
Definition p000_get_producto :=
  get_by_id es cols_es "nombre_categoria" "nombre_subcategoria" true
            "Error obteniendo producto".
(** part_000 [GET /api/admin/productos/:id]. *)
Definition p000_admin_get_producto :=
  get_by_id es cols_es "nombre_categoria" "nombre_subcategoria" false
            "Error obteniendo producto".
(** part_001 [GET /api/products/:id] (public; the first of the three
    identical registrations is the one Express dispatches to). *)
Definition p001_get_product :=
  get_by_id en cols_en "category_name" "subcategory_name" true
            "Error obteniendo producto".
(** part_001 [GET /api/admin/products/:id]. *)
Definition p001_admin_get_product :=
  get_by_id en cols_en "category_name" "subcategory_name" false
            "Error obteniendo producto por ID".

End ProductUpdate.

(* ------------------------------------------------------------------------- *)
(** * Customers: registration and login *)

Module Clientes.

(** [WHERE usuario = $1 OR correo = $2]: a parameter compared with a text
    column (NULL compares as unknown). *)
Definition sql_eq (p col : sqlval) : bool :=
  match p, col with
  | SStr a, SStr b => String.eqb a b
  | _, _ => false
  end.

(** [bcrypt.hash(contrasena, 10)] with the random salt [salt]: bcryptjs
    throws on a non-string password. *)
Definition bcrypt_hash (rt : Runtime) (salt : string) (pw : jsval) : M string :=
  match pw with
  | JStr p => ret (rt_bcrypt_hash rt salt p)
  | _ => raise (JsErr "Illegal arguments")
  end.

(** [bcrypt.compare(password, hash)] *)
Definition bcrypt_compare (rt : Runtime) (pw : jsval) (h : sqlval) : M bool :=
  match pw, h with
  | JStr p, SStr hs => ret (rt_bcrypt_compare rt p hs)
  | _, _ => raise (JsErr "Illegal arguments")
  end.

(** [INSERT INTO clientes (...) VALUES (...)]: the SERIAL advances, then the
    NOT NULL and UNIQUE(usuario), UNIQUE(correo) constraints are checked. *)
Definition insert_cliente (rt : Runtime) (now : Z) (tys : list coltype)
    (ps : list sqlval) (rol : sqlval) : M cliente :=
  let* vs := lift_opt EInvalidInput (coerce_list rt tys ps) in
  match vs with
  | u :: h :: n :: c :: rest =>
      let* s := get_db in
      let id := (seq_clientes s + 1)%Z in
      if negb (int4_ok id) then raise (PgErr EOther) (* nextval past the SERIAL's maximum *)
      else
      let row := {| c_id := id; c_usuario := u; c_contrasena_hash := h;
                    c_nombre := n; c_correo := c;
                    c_telefono := nth 0 rest SNull; c_direccion := nth 1 rest SNull;
                    c_ciudad := nth 2 rest SNull; c_pais := nth 3 rest SNull;
                    c_activo := true; c_rol := rol;
                    c_fecha_creacion := now; c_ultima_sesion := None |} in
      let s1 := set_clientes s (clientes s) id in
      let* _ := put_db s1 in
      if is_null u || is_null h || is_null n || is_null c then raise (PgErr ENotNull)
      else if existsb (fun q => sql_eq u (c_usuario q) || sql_eq c (c_correo q)) (clientes s1)
      then raise (PgErr EUnique)
      else let* _ := put_db (set_clientes s1 (clientes s1 ++ [row]) id) in ret row
  | _ => raise (PgErr EBind)
  end.

(** src/server.js [RETURNING id, usuario, nombre, correo, telefono, direccion,
    ciudad, pais, rol, fecha_creacion]. *)
Definition cliente_publico (rt : Runtime) (q : cliente) : jsval :=
  JObj [("id", JNum (Num (inject_Z (c_id q))));
        ("usuario", of_sql rt TText (c_usuario q));
        ("nombre", of_sql rt TText (c_nombre q));
        ("correo", of_sql rt TText (c_correo q));
        ("telefono", of_sql rt TText (c_telefono q));
        ("direccion", of_sql rt TText (c_direccion q));
        ("ciudad", of_sql rt TText (c_ciudad q));
        ("pais", of_sql rt TText (c_pais q));
        ("rol", of_sql rt TText (c_rol q));
        ("fecha_creacion", ts (c_fecha_creacion q))].

(** src/server.js [POST /api/clientes/registro]; [salt] is bcrypt's random
    salt for this call. *)
Definition registro (rt : Runtime) (now : Z) (salt : string) (b : list (string * jsval))
  : M response :=
  try_catch
    (let usuario := prop b "usuario" in
     let contrasena := prop b "contrasena" in
     let nombre := prop b "nombre" in
     let correo := prop b "correo" in
     let telefono := prop b "telefono" in
     let direccion := prop b "direccion" in
     let ciudad := prop b "ciudad" in
     let pais := prop b "pais" in
     if negb (truthy usuario) || negb (truthy contrasena) || negb (truthy nombre)
        || negb (truthy correo) then
       ret (fail_msg es 400 "Usuario, contraseña, nombre y correo son requeridos")
     else
       let* s := get_db in
       let* pu := lift_opt EInvalidInput (pg_coerce rt TText (to_param usuario)) in
       let* pc := lift_opt EInvalidInput (pg_coerce rt TText (to_param correo)) in
       if existsb (fun q => sql_eq pu (c_usuario q) || sql_eq pc (c_correo q)) (clientes s)
       then ret (fail_msg es 400 "El usuario o correo ya están registrados")
       else
         let* contrasenaHash := bcrypt_hash rt salt contrasena in
         let* row := insert_cliente rt now
           [TVarchar 100; TVarchar 255; TVarchar 255; TVarchar 255; TVarchar 20;
            TText; TVarchar 100; TVarchar 100]
           [to_param usuario; SStr contrasenaHash; to_param nombre; to_param correo;
            to_param (or_else telefono JNull); to_param (or_else direccion JNull);
            to_param (or_else ciudad JNull); to_param (or_else pais JNull)]
           (SStr "cliente") in
         let token := rt_jwt_sign rt (JObj [("idUsuario", JNum (Num (inject_Z (c_id row))));
                                            ("usuario", of_sql rt TText (c_usuario row));
                                            ("rol", JStr "cliente")]) in
         ret (ok_data es 201 (Some "Cliente registrado exitosamente")
                (JObj [("token", JStr token); ("cliente", cliente_publico rt row)])))
    (fun e => fail_500 es "Error en el registro" (exn_message rt e)).


(** part_001 [SELECT * FROM clients] without [password_hash]. *)
Definition client_data (rt : Runtime) (q : cliente) : jsval :=
  JObj [("id", JNum (Num (inject_Z (c_id q))));
        ("username", of_sql rt TText (c_usuario q));
        ("name", of_sql rt TText (c_nombre q));
        ("email", of_sql rt TText (c_correo q));
        ("phone", of_sql rt TText (c_telefono q));
        ("role", of_sql rt TText (c_rol q));
        ("created_at", ts (c_fecha_creacion q))].


(** src/server.js [SELECT * FROM clientes], read before the
    [ultima_sesion] update, without [contrasena_hash]. *)
Definition datos_cliente (rt : Runtime) (q : cliente) : jsval :=
  JObj [("id", JNum (Num (inject_Z (c_id q))));
        ("usuario", of_sql rt TText (c_usuario q));
        ("nombre", of_sql rt TText (c_nombre q));
        ("correo", of_sql rt TText (c_correo q));
        ("telefono", of_sql rt TText (c_telefono q));
        ("direccion", of_sql rt TText (c_direccion q));
        ("ciudad", of_sql rt TText (c_ciudad q));
        ("pais", of_sql rt TText (c_pais q));
        ("activo", JBool (c_activo q));
        ("rol", of_sql rt TText (c_rol q));
        ("fecha_creacion", ts (c_fecha_creacion q));
        ("ultima_sesion", match c_ultima_sesion q with Some t => ts t | None => JNull end)].

(** src/server.js [POST /api/clientes/login]. *)
Definition login_cliente (rt : Runtime) (now : Z) (b : list (string * jsval))
  : M response :=
  try_catch
    (let usuario := prop b "usuario" in
     let contrasena := prop b "contrasena" in
     if negb (truthy usuario) || negb (truthy contrasena) then
       ret (fail_msg es 400 "Usuario y contraseña requeridos")
     else
       let* s := get_db in
       let* pu := lift_opt EInvalidInput (pg_coerce rt TText (to_param usuario)) in
       match filter (fun q => sql_eq pu (c_usuario q) && c_activo q) (clientes s) with
       | [] => ret (fail_msg es 401 "Credenciales inválidas")
       | cliente :: _ =>
           let* ok := bcrypt_compare rt contrasena (c_contrasena_hash cliente) in
           if negb ok then ret (fail_msg es 401 "Credenciales inválidas")
           else
             let* s1 := get_db in
             let* _ := put_db (set_clientes s1
                         (map (fun q => if Z.eqb (c_id q) (c_id cliente)
                                        then {| c_id := c_id q; c_usuario := c_usuario q;
                                                c_contrasena_hash := c_contrasena_hash q;
                                                c_nombre := c_nombre q; c_correo := c_correo q;
                                                c_telefono := c_telefono q;
                                                c_direccion := c_direccion q;
                                                c_ciudad := c_ciudad q; c_pais := c_pais q;
                                                c_activo := c_activo q; c_rol := c_rol q;
                                                c_fecha_creacion := c_fecha_creacion q;
                                                c_ultima_sesion := Some now |}
                                        else q) (clientes s1))
                         (seq_clientes s1)) in
             let token := rt_jwt_sign rt
               (JObj [("idUsuario", JNum (Num (inject_Z (c_id cliente))));
                      ("usuario", of_sql rt TText (c_usuario cliente));
                      ("nombre", of_sql rt TText (c_nombre cliente));
                      ("rol", JStr "cliente")]) in
             ret (ok_data es 200 (Some "Login exitoso")
                    (JObj [("token", JStr token);
                           ("cliente", datos_cliente rt cliente)]))
       end)
    (fun e => fail_500 es "Error en el servidor" (exn_message rt e)).

(** part_001 [POST /api/clients/login]. *)
Definition login_client (rt : Runtime) (b : list (string * jsval)) : M response :=
  try_catch
    (let identifier := prop b "identifier" in
     let password := prop b "password" in
     if negb (truthy identifier) || negb (truthy password) then
       ret (fail_msg en 400 "Usuario/email y contraseña requeridos")
     else
       let* s := get_db in
       let* pi := lift_opt EInvalidInput (pg_coerce rt TText (to_param identifier)) in
       match filter (fun q => sql_eq pi (c_usuario q) || sql_eq pi (c_correo q))
                    (clientes s) with
       | [] => ret (fail_msg en 401 "Usuario no encontrado")
       | client :: _ =>
           let* validPassword := bcrypt_compare rt password (c_contrasena_hash client) in
           if negb validPassword then ret (fail_msg en 401 "Contraseña incorrecta")
           else
             let token := rt_jwt_sign rt
               (JObj [("userId", JNum (Num (inject_Z (c_id client))));
                      ("username", of_sql rt TText (c_usuario client));
                      ("name", of_sql rt TText (c_nombre client));
                      ("role", of_sql rt TText (c_rol client))]) in
             ret (ok_data en 200 (Some "Login exitoso")
                    (JObj [("token", JStr token);
                           ("user", client_data rt client)]))
       end)
    (fun e => fail_500 en "Error en el servidor" (exn_message rt e)).

End Clientes.

(* ------------------------------------------------------------------------- *)
(** * Sales *)

Module Ventas.
Import ProductUpdate.

(** [Number(v)], as used by the relational comparison [total <= 0]. *)
Definition to_number (rt : Runtime) (v : jsval) : num :=
  match v with
  | JUndef => NaN
  | JNull => Num 0
  | JBool b => Num (if b then 1 else 0)
  | JNum n => n
  | JStr s => rt_ToNumber_str rt s
  | JArr _ | JObj _ => rt_ToNumber_str rt (rt_js_String rt v)
  end.

(** [total <= 0] *)
Definition le_zero (rt : Runtime) (v : jsval) : bool :=
  match to_number rt v with Num q => Qle_bool q 0 | NaN => false end.

(** [`ORD-${Date.now()}-${Math.floor(Math.random() * 1000)}`] for the clock
    reading [now_ms] and the drawn [rnd]. *)
Definition numero_orden (now_ms rnd : nat) : string :=
  "ORD-" ++ nat_to_dec now_ms ++ "-" ++ nat_to_dec rnd.

Definition sql_str_eq (a b : sqlval) : bool :=
  match a, b with SStr x, SStr y => String.eqb x y | _, _ => false end.

(** [INSERT INTO ventas (numero_orden, datos_carrito, total, nombre_cliente,
    correo_cliente, telefono_cliente, estado) VALUES ($1..$7) RETURNING *];
    [JSON.stringify(datos_carrito)] is parsed back by the jsonb column, so
    it is passed here as the array itself. *)
Definition insert_venta (rt : Runtime) (now : Z) (ps : list sqlval) : M venta :=
  let* vs := lift_opt EInvalidInput
    (coerce_list rt [TVarchar 100; TJsonb; TNumeric; TVarchar 255; TVarchar 255;
                     TVarchar 20; TVarchar 50] ps) in
  match vs with
  | [o; c; t; n; m; ph; e] =>
      let* s := get_db in
      let id := (seq_ventas s + 1)%Z in
      if negb (int4_ok id) then raise (PgErr EOther) (* nextval past the SERIAL's maximum *)
      else
      let row := {| v_id := id; v_numero_orden := o; v_datos_carrito := c;
                    v_total := t; v_nombre_cliente := n; v_correo_cliente := m;
                    v_telefono_cliente := ph; v_estado := e; v_fecha_creacion := now |} in
      let s1 := set_ventas s (ventas s) id in
      let* _ := put_db s1 in
      if is_null o || is_null c || is_null t then raise (PgErr ENotNull)
      else if existsb (fun r => sql_str_eq o (v_numero_orden r)) (ventas s1)
      then raise (PgErr EUnique)
      else let* _ := put_db (set_ventas s1 (ventas s1 ++ [row]) id) in ret row
  | _ => raise (PgErr EBind)
  end.

(** Field names of one variant of the sale route. *)
Record sale_keys := {
  sk_env : envelope;
  sk_cart : string; sk_total : string; sk_name : string; sk_mail : string;
  sk_phone : string; sk_status : string;  (* initial status value *)
  sk_id : string; sk_order : string; sk_err : string }.

Definition keys_es : sale_keys :=
  {| sk_env := es; sk_cart := "datos_carrito"; sk_total := "total";
     sk_name := "nombre_cliente"; sk_mail := "correo_cliente";
     sk_phone := "telefono_cliente"; sk_status := "pendiente";
     sk_id := "idVenta"; sk_order := "numeroOrden"; sk_err := "Error registrando venta" |}.

Definition keys_en : sale_keys :=
  {| sk_env := en; sk_cart := "cart_data"; sk_total := "total";
     sk_name := "client_name"; sk_mail := "client_email";
     sk_phone := "client_phone"; sk_status := "pending";
     sk_id := "saleId"; sk_order := "orderNumber"; sk_err := "Error registrando venta" |}.

(** [POST /api/ventas] (src/server.js, part_000: [keys_es]) and
    [POST /api/sales] (part_001: [keys_en]). *)
Definition crear_venta (k : sale_keys) (rt : Runtime) (now : Z) (now_ms rnd : nat)
    (b : list (string * jsval)) : M response :=
  let e := sk_env k in
  try_catch
    (let datos_carrito := prop b (sk_cart k) in
     let total := prop b (sk_total k) in
     let nombre_cliente := prop b (sk_name k) in
     let correo_cliente := prop b (sk_mail k) in
     let telefono_cliente := prop b (sk_phone k) in
     if negb (truthy datos_carrito) || negb (is_array datos_carrito)
        || match datos_carrito with JArr [] => true | _ => false end then
       ret (fail_msg e 400 "Carrito vacío")
     else if negb (truthy total) || le_zero rt total then
       ret (fail_msg e 400 "Total inválido")
     else
       let numeroOrden := numero_orden now_ms rnd in
       let* row := insert_venta rt now
         [SStr numeroOrden; SJson datos_carrito; num_param (parseFloat rt total);
          to_param (or_else nombre_cliente (JStr "Cliente"));
          to_param (or_else correo_cliente (JStr ""));
          to_param (or_else telefono_cliente (JStr ""));
          SStr (sk_status k)] in
       ret (ok_data e 201 (Some "Venta registrada")
              (JObj [(sk_id k, JNum (Num (inject_Z (v_id row))));
                     (sk_order k, JStr numeroOrden);
                     ("total", JNum (parseFloat rt total))])))
    (fun ex => fail_500 e (sk_err k) (exn_message rt ex)).

Definition p000_crear_venta := crear_venta keys_es.

(** ** Admin list of sales *)

(** [ORDER BY created_at DESC]: stable insertion by creation time. *)
Fixpoint insert_desc (r : venta) (l : list venta) : list venta :=
  match l with
  | [] => [r]
  | x :: t => if (v_fecha_creacion x <? v_fecha_creacion r)%Z then r :: x :: t
              else x :: insert_desc r t
  end.

Fixpoint sort_desc (l : list venta) : list venta :=
  match l with [] => [] | x :: t => insert_desc x (sort_desc t) end.

(** [LIMIT $n] with a JavaScript number: a non-negative integer, else the
    server rejects it. *)
Definition limit_of (n : num) : option nat :=
  match n with
  | Num q => if is_integral q && (0 <=? Qnum q)%Z
             then Some (Z.to_nat (Qnum q / Zpos (Qden q))) else None
  | NaN => None
  end.

Definition venta_json (rt : Runtime) (k : sale_keys) (r : venta) : jsval :=
  JObj [("id", JNum (Num (inject_Z (v_id r))));
        (if String.eqb (sk_status k) "pending" then "order_number" else "numero_orden",
         of_sql rt TText (v_numero_orden r));
        (sk_cart k, of_sql rt TJsonb (v_datos_carrito r));
        ("total", of_sql rt TNumeric (v_total r));
        (sk_name k, of_sql rt TText (v_nombre_cliente r));
        (sk_mail k, of_sql rt TText (v_correo_cliente r));
        (sk_phone k, of_sql rt TText (v_telefono_cliente r));
        (if String.eqb (sk_status k) "pending" then "status" else "estado",
         of_sql rt TText (v_estado r));
        (if String.eqb (sk_status k) "pending" then "created_at" else "fecha_creacion",
         ts (v_fecha_creacion r))].

(** part_001 [GET /api/admin/sales] (after [authenticateToken]): reads only
    [limit] (default 50) from the query string. *)
Definition list_sales (rt : Runtime) (q : list (string * jsval)) : M response :=
  try_catch
    (let limit := match prop q "limit" with JUndef => JNum (Num 50) | v => v end in
     let* n := lift_opt EInvalidInput (limit_of (parseInt rt limit)) in
     let* s := get_db in
     let rows := firstn n (sort_desc (ventas s)) in
     ret {| status := 200;
            body := [("success", JBool true);
                     ("data", JArr (map (venta_json rt keys_en) rows));
                     ("count", JNum (Num (inject_Z (Z.of_nat (length rows)))))] |})
    (fun e => fail_500 en "Error obteniendo ventas" (exn_message rt e)).

(** part_000 [GET /api/admin/ventas]: the query text it sends. *)
Definition consulta_ventas (estado : jsval) : string * nat :=
  if truthy estado && negb (match estado with JStr "all" => true | _ => false end)
  then ("SELECT * FROM ventas WHERE 1=1 AND estado = " ++ nat_to_dec 1
        ++ " ORDER BY fecha_creacion DESC LIMIT $" ++ nat_to_dec 2, 2%nat)
  else ("SELECT * FROM ventas WHERE 1=1 ORDER BY fecha_creacion DESC LIMIT $"
        ++ nat_to_dec 1, 1%nat).

(** part_000 [GET /api/admin/ventas] (after [autenticarToken]): the text and
    its parameters [[estado,] parseInt(limite)] go to PostgreSQL, which
    refuses a statement that does not reference each parameter as [$k];
    otherwise [estado = $1] keeps the sales with that status. *)
Definition admin_ventas (rt : Runtime) (q : list (string * jsval)) : M response :=
  try_catch
    (let estado := prop q "estado" in
     let limite := match prop q "limite" with JUndef => JNum (Num 50) | v => v end in
     let filtra := truthy estado && negb (match estado with JStr "all" => true | _ => false end) in
     let '(consulta, np) := consulta_ventas estado in
     if negb (bind_ok consulta np) then raise (PgErr EBind)
     else
       let* n := lift_opt EInvalidInput (limit_of (parseInt rt limite)) in
       let* s := get_db in
       let rows := firstn n (filter (fun r => negb filtra || sql_str_eq (to_param estado) (v_estado r))
                                    (sort_desc (ventas s))) in
       ret {| status := 200;
              body := [("exito", JBool true);
                       ("datos", JArr (map (venta_json rt keys_es) rows));
                       ("cantidad", JNum (Num (inject_Z (Z.of_nat (length rows)))))] |})
    (fun e => fail_500 es "Error obteniendo ventas" (exn_message rt e)).

End Ventas.

(* ------------------------------------------------------------------------- *)
(** * Catch blocks of the list and dashboard routes *)

Module Dashboard.

(** The routes' [try] blocks, with the database call [query] they make
    (its SQL is not modelled: only what happens when it returns or throws). *)

(** src/server.js [GET /api/productos]. *)
Definition server_get_productos (rt : Runtime) (query : M (list jsval)) : M response :=
  try_catch (let* rows := query in ret (ok_data es 200 None (JArr rows)))
            (fun e => fail_500 es "Error obteniendo productos" (exn_message rt e)).





End Dashboard.

(* ------------------------------------------------------------------------- *)
(** * Administration routes: deletion, customers, sales, logins, listings *)

Module Admin.
Import Productos ProductUpdate Clientes Ventas.

(** A 200 answer [{exito: true, mensaje}] that carries no data. *)
Definition ok_msg (e : envelope) (msg : string) : response :=
  {| status := 200; body := [(k_ok e, JBool true); (k_msg e, JStr msg)] |}.

(** [rows.map(f)] when every row maps to a value, [None] as soon as one
    statement-level check fails. *)
Fixpoint map_opt {A B} (f : A -> option B) (l : list A) : option (list B) :=
  match l with
  | [] => Some []
  | x :: t =>
      match f x, map_opt f t with
      | Some y, Some t' => Some (y :: t')
      | _, _ => None
      end
  end.

(** ** Deleting a product ([req.params.id] read as an integer) *)

(** [DELETE FROM productos WHERE id = $1 RETURNING ...]: the deleted rows;
    no table references [productos]. *)
Definition delete_productos (id : Z) : M (list producto) :=
  let* _ := bind_id id in
  let* s := get_db in
  let* _ := put_db (set_productos s (filter (fun q => negb (Z.eqb (p_id q) id)) (productos s))
                      (seq_productos s)) in
  ret (filter (fun q => Z.eqb (p_id q) id) (productos s)).

(** src/server.js [DELETE /api/admin/productos/:id] (after [autenticarToken]). *)
Definition eliminar_producto (rt : Runtime) (id : Z) : M response :=
  try_catch
    (let* resultado := delete_productos id in
     match resultado with
     | [] => ret (fail_msg es 404 "Producto no encontrado")
     | _ :: _ => ret (ok_msg es "Producto eliminado exitosamente")
     end)
    (fun e => fail_500 es "Error eliminando producto" (exn_message rt e)).

(** part_000 [DELETE /api/admin/productos/:id] (after [autenticarToken]). *)
Definition p000_eliminar_producto (rt : Runtime) (id : Z) : M response :=
  try_catch
    (let* resultado := delete_productos id in
     match resultado with
     | [] => ret (fail_msg es 404 "Producto no encontrado")
     | _ :: _ => ret (ok_msg es "Producto eliminado")
     end)
    (fun e => fail_500 es "Error eliminando producto" (exn_message rt e)).

(** part_001 [DELETE /api/admin/products/:id] (after [authenticateToken]):
    answers with the deleted row, [result.rows[0]]. *)
Definition delete_product (rt : Runtime) (id : Z) : M response :=
  try_catch
    (let* result := delete_productos id in
     match result with
     | [] => ret (fail_msg en 404 "Producto no encontrado")
     | r :: _ => ret (ok_data en 200 (Some "Producto eliminado") (row_json rt cols_en r))
     end)
    (fun e => fail_500 en "Error eliminando producto" (exn_message rt e)).

(** ** Customer administration (src/server.js) *)

(** [SELECT ... FROM clientes WHERE id = $1] *)
Definition select_cliente (s : db) (id : Z) : list cliente :=
  filter (fun q => Z.eqb (c_id q) id) (clientes s).

(** [GET /api/admin/clientes/:id] (after [autenticarToken]): the columns it
    selects are those of [datos_cliente], in the same order. *)
Definition obtener_cliente (rt : Runtime) (id : Z) : M response :=
  try_catch
    (let* _ := bind_id id in
     let* s := get_db in
     match select_cliente s id with
     | [] => ret (fail_msg es 404 "Cliente no encontrado")
     | r :: _ => ret (ok_data es 200 None (datos_cliente rt r))
     end)
    (fun e => fail_500 es "Error obteniendo cliente" (exn_message rt e)).

(** [RETURNING id, usuario, nombre, correo, telefono, direccion, ciudad, pais,
    activo, rol, fecha_creacion] *)
Definition cliente_actualizado (rt : Runtime) (q : cliente) : jsval :=
  JObj [("id", JNum (Num (inject_Z (c_id q))));
        ("usuario", of_sql rt TText (c_usuario q));
        ("nombre", of_sql rt TText (c_nombre q));
        ("correo", of_sql rt TText (c_correo q));
        ("telefono", of_sql rt TText (c_telefono q));
        ("direccion", of_sql rt TText (c_direccion q));
        ("ciudad", of_sql rt TText (c_ciudad q));
        ("pais", of_sql rt TText (c_pais q));
        ("activo", JBool (c_activo q));
        ("rol", of_sql rt TText (c_rol q));
        ("fecha_creacion", ts (c_fecha_creacion q))].

(** A row after [SET nombre = COALESCE($1, nombre), correo = COALESCE($2,
    correo), telefono = COALESCE($3, telefono), direccion = COALESCE($4,
    direccion), ciudad = COALESCE($5, ciudad), pais = COALESCE($6, pais),
    activo = COALESCE($7, activo)] with the bound values [vs]: each value is
    checked against its column (VARCHAR(255), VARCHAR(255), VARCHAR(20),
    TEXT, VARCHAR(100), VARCHAR(100), BOOLEAN); [None] when one does not fit. *)
Definition upd_cliente (rt : Runtime) (vs : list sqlval) (q : cliente) : option cliente :=
  match vs with
  | [n; c; t; d; ci; pa; ac] =>
      match coalesce rt (TVarchar 255) n (c_nombre q), coalesce rt (TVarchar 255) c (c_correo q),
            coalesce rt (TVarchar 20) t (c_telefono q), coalesce rt TText d (c_direccion q),
            coalesce rt (TVarchar 100) ci (c_ciudad q), coalesce rt (TVarchar 100) pa (c_pais q),
            ac with
      | Some n', Some c', Some t', Some d', Some ci', Some pa', (SNull | SBool _) =>
          Some {| c_id := c_id q; c_usuario := c_usuario q;
                  c_contrasena_hash := c_contrasena_hash q;
                  c_nombre := n'; c_correo := c'; c_telefono := t'; c_direccion := d';
                  c_ciudad := ci'; c_pais := pa';
                  c_activo := match ac with SBool a => a | _ => c_activo q end;
                  c_rol := c_rol q; c_fecha_creacion := c_fecha_creacion q;
                  c_ultima_sesion := c_ultima_sesion q |}
      | _, _, _, _, _, _, _ => None
      end
  | _ => None
  end.

(** The UPDATE statement ... [WHERE id = $8 RETURNING ...]: [$1..$6] are
    parsed as the character types of their columns and [$7] as a boolean
    when the statement is bound; the rows with that id are rewritten, unless
    the new [correo] is that of another customer (UNIQUE), in which case the
    statement changes nothing. *)
Definition update_clientes (rt : Runtime) (id : Z) (ps : list sqlval) : M (list cliente) :=
  let* _ := bind_id id in
  let* vs := lift_opt EInvalidInput
    (coerce_list rt [TText; TText; TText; TText; TText; TText; TBool] ps) in
  let* s := get_db in
  let* hit := lift_opt EInvalidInput (map_opt (upd_cliente rt vs) (select_cliente s id)) in
  if existsb (fun r => existsb (fun q => negb (Z.eqb (c_id q) id)
                                         && sql_str_eq (c_correo r) (c_correo q))
                               (clientes s)) hit
  then raise (PgErr EUnique)
  else
    let* _ := put_db (set_clientes s
                (map (fun q => if Z.eqb (c_id q) id
                               then match upd_cliente rt vs q with Some q' => q' | None => q end
                               else q) (clientes s))
                (seq_clientes s)) in
    ret hit.

(** [PUT /api/admin/clientes/:id] (after [autenticarToken]). *)
Definition actualizar_cliente (rt : Runtime) (id : Z) (b : list (string * jsval))
  : M response :=
  try_catch
    (let nombre := prop b "nombre" in
     let correo := prop b "correo" in
     let telefono := prop b "telefono" in
     let direccion := prop b "direccion" in
     let ciudad := prop b "ciudad" in
     let pais := prop b "pais" in
     let activo := prop b "activo" in
     let* resultado := update_clientes rt id
       [to_param nombre; to_param correo; to_param telefono; to_param direccion;
        to_param ciudad; to_param pais; to_param activo] in
     match resultado with
     | [] => ret (fail_msg es 404 "Cliente no encontrado")
     | r :: _ => ret (ok_data es 200 None (cliente_actualizado rt r))
     end)
    (fun e => fail_500 es "Error actualizando cliente" (exn_message rt e)).

(** [DELETE FROM clientes WHERE id = $1 RETURNING id, nombre]; the foreign
    key [ventas.cliente_id] (ON DELETE SET NULL) is a column the sale rows of
    this model do not carry. *)
Definition delete_clientes (id : Z) : M (list cliente) :=
  let* _ := bind_id id in
  let* s := get_db in
  let* _ := put_db (set_clientes s (filter (fun q => negb (Z.eqb (c_id q) id)) (clientes s))
                      (seq_clientes s)) in
  ret (select_cliente s id).

(** [DELETE /api/admin/clientes/:id] (after [autenticarToken]). *)
Definition eliminar_cliente (rt : Runtime) (id : Z) : M response :=
  try_catch
    (let* resultado := delete_clientes id in
     match resultado with
     | [] => ret (fail_msg es 404 "Cliente no encontrado")
     | _ :: _ => ret (ok_msg es "Cliente eliminado exitosamente")
     end)
    (fun e => fail_500 es "Error eliminando cliente" (exn_message rt e)).

(** ** Sale administration (part_000) *)

(** [SELECT * FROM ventas WHERE id = $1] *)
Definition select_venta (s : db) (id : Z) : list venta :=
  filter (fun r => Z.eqb (v_id r) id) (ventas s).

(** [GET /api/admin/ventas/:id] (after [autenticarToken]). *)
Definition obtener_venta (rt : Runtime) (id : Z) : M response :=
  try_catch
    (let* _ := bind_id id in
     let* s := get_db in
     match select_venta s id with
     | [] => ret (fail_msg es 404 "Venta no encontrada")
     | r :: _ => ret (ok_data es 200 None (venta_json rt keys_es r))
     end)
    (fun e => fail_500 es "Error obteniendo venta" (exn_message rt e)).

Definition set_estado (r : venta) (e : sqlval) : venta :=
  {| v_id := v_id r; v_numero_orden := v_numero_orden r; v_datos_carrito := v_datos_carrito r;
     v_total := v_total r; v_nombre_cliente := v_nombre_cliente r;
     v_correo_cliente := v_correo_cliente r; v_telefono_cliente := v_telefono_cliente r;
     v_estado := e; v_fecha_creacion := v_fecha_creacion r |}.

(** [UPDATE ventas SET estado = $1 WHERE id = $2 RETURNING *]: [$1] is
    parsed as the column's character type, and checked against VARCHAR(50)
    for each row the statement rewrites. *)
Definition update_ventas (rt : Runtime) (id : Z) (p : sqlval) : M (list venta) :=
  let* _ := bind_id id in
  let* v := lift_opt EInvalidInput (pg_coerce rt TText p) in
  let* s := get_db in
  let* hit := lift_opt EInvalidInput
    (map_opt (fun r => option_map (set_estado r) (pg_coerce rt (TVarchar 50) v))
             (select_venta s id)) in
  let* _ := put_db (set_ventas s
              (map (fun r => if Z.eqb (v_id r) id
                             then match pg_coerce rt (TVarchar 50) v with
                                  | Some e => set_estado r e
                                  | None => r
                                  end
                             else r) (ventas s))
              (seq_ventas s)) in
  ret hit.

(** [PUT /api/admin/ventas/:id] (after [autenticarToken]). *)
Definition actualizar_venta (rt : Runtime) (id : Z) (b : list (string * jsval))
  : M response :=
  try_catch
    (let estado := prop b "estado" in
     if negb (truthy estado) then ret (fail_msg es 400 "Estado requerido")
     else
       let* resultado := update_ventas rt id (to_param estado) in
       match resultado with
       | [] => ret (fail_msg es 404 "Venta no encontrada")
       | r :: _ => ret (ok_data es 200 None (venta_json rt keys_es r))
       end)
    (fun e => fail_500 es "Error actualizando venta" (exn_message rt e)).

(** ** Administrator login *)

(** A row of [administradores] (src/server.js, part_000) / [admins]
    (part_001), in column order. *)
Record administrador := {
  a_id : Z;
  a_usuario : sqlval;
  a_contrasena_hash : sqlval;
  a_nombre : sqlval;
  a_correo : sqlval;
  a_rol : sqlval;
  a_fecha_creacion : Z
}.

(** [const { contrasena_hash, ...datosAdmin } = admin] *)
Definition datos_admin (rt : Runtime) (a : administrador) : jsval :=
  JObj [("id", JNum (Num (inject_Z (a_id a))));
        ("usuario", of_sql rt TText (a_usuario a));
        ("nombre", of_sql rt TText (a_nombre a));
        ("correo", of_sql rt TText (a_correo a));
        ("rol", of_sql rt TText (a_rol a));
        ("fecha_creacion", ts (a_fecha_creacion a))].


(** [SELECT * FROM administradores WHERE usuario = $1] over the table's rows
    [admins] (no route writes that table). *)
Definition select_admin (admins : list administrador) (pu : sqlval) : list administrador :=
  filter (fun a => sql_eq pu (a_usuario a)) admins.

(** src/server.js [POST /api/admin/login]. *)
Definition login_admin (rt : Runtime) (admins : list administrador)
    (b : list (string * jsval)) : M response :=
  try_catch
    (let usuario := prop b "usuario" in
     let contrasena := prop b "contrasena" in
     if negb (truthy usuario) || negb (truthy contrasena) then
       ret (fail_msg es 400 "Usuario y contraseña requeridos")
     else
       let* pu := lift_opt EInvalidInput (pg_coerce rt TText (to_param usuario)) in
       match select_admin admins pu with
       | [] => ret (fail_msg es 401 "Credenciales inválidas")
       | admin :: _ =>
           let* contrasenaValida := bcrypt_compare rt contrasena (a_contrasena_hash admin) in
           if negb contrasenaValida then ret (fail_msg es 401 "Credenciales inválidas")
           else
             let token := rt_jwt_sign rt
               (JObj [("idUsuario", JNum (Num (inject_Z (a_id admin))));
                      ("usuario", of_sql rt TText (a_usuario admin));
                      ("nombre", of_sql rt TText (a_nombre admin));
                      ("rol", of_sql rt TText (a_rol admin))]) in
             ret (ok_data es 200 (Some "Login exitoso")
                    (JObj [("token", JStr token); ("usuario", datos_admin rt admin)]))
       end)
    (fun e => fail_500 es "Error en el servidor" (exn_message rt e)).



(** ** List queries: the text and parameters the routes send *)

(** [`%${buscar}%`] on a query-string value (a string, an array or an object). *)
Definition like_param (rt : Runtime) (v : jsval) : sqlval :=
  SStr ("%" ++ match v with JStr s => s | _ => rt_js_String rt v end ++ "%").

Definition is_str (v : jsval) (x : string) : bool :=
  match v with JStr y => String.eqb y x | _ => false end.

(** [pool.query(text, params)]: PostgreSQL refuses the bind unless the text
    refers to exactly [$1..$n]; [exec] is the statement's execution. *)
Definition pg_query (exec : string -> list sqlval -> M (list jsval))
    (text : string) (ps : list sqlval) : M (list jsval) :=
  if bind_ok text (length ps) then exec text ps else raise (PgErr EBind).

Definition productos_select : string := "
      SELECT 
        p.id,
        p.nombre,
        p.precio,
        p.descripcion,
        p.imagen_base64,
        p.stock,
        p.estado,
        p.destacado,
        c.nombre AS nombre_categoria
      FROM productos p
      LEFT JOIN categorias c ON p.categoria_id = c.id
      WHERE p.estado = 'ACTIVO'
    ".

(** src/server.js [GET /api/productos]: the query it builds. *)
Definition consulta_productos (rt : Runtime) (q : list (string * jsval))
  : string * list sqlval :=
  let categoria_id := prop q "categoria_id" in
  let buscar := prop q "buscar" in
  let limite := match prop q "limite" with JUndef => JNum (Num 100) | v => v end in
  let destacado := prop q "destacado" in
  let '(query, params, paramIndex) :=
    if truthy categoria_id
    then (productos_select ++ " AND p.categoria_id = $" ++ nat_to_dec 1, [to_param categoria_id], 2%nat)
    else (productos_select, [], 1%nat) in
  let query := if is_str destacado "true" then query ++ " AND p.destacado = true" else query in
  let '(query, params, paramIndex) :=
    if truthy buscar
    then (query ++ " AND LOWER(p.nombre) LIKE LOWER($" ++ nat_to_dec paramIndex ++ ")",
          (params ++ [like_param rt buscar])%list, S paramIndex)
    else (query, params, paramIndex) in
  (query ++ " ORDER BY p.fecha_creacion DESC LIMIT $" ++ nat_to_dec paramIndex,
   (params ++ [num_param (parseInt rt limite)])%list).

(** src/server.js [GET /api/productos]; the route's [try] block is
    [Dashboard.server_get_productos]. *)
Definition listar_productos (rt : Runtime) (exec : string -> list sqlval -> M (list jsval))
    (q : list (string * jsval)) : M response :=
  let '(query, params) := consulta_productos rt q in
  Dashboard.server_get_productos rt (pg_query exec query params).

Definition productos_admin_select : string := "
      SELECT 
        p.id,
        p.nombre,
        p.categoria_id,
        p.subcategoria_id,
        p.precio,
        p.invertido,
        p.descripcion,
        p.imagen_base64,
        p.stock,
        p.estado,
        p.destacado,
        p.fecha_creacion,
        c.nombre AS nombre_categoria,
        s.nombre AS nombre_subcategoria
      FROM productos p
      LEFT JOIN categorias c ON p.categoria_id = c.id
      LEFT JOIN subcategorias s ON p.subcategoria_id = s.id
      WHERE 1=1
    ".

(** src/server.js [GET /api/admin/productos]: the query it builds, or the
    TypeError of [estado.toLowerCase()] on a value that is not a string. *)
Definition consulta_productos_admin (rt : Runtime) (q : list (string * jsval))
  : exn + (string * list sqlval) :=
  let categoria_id := prop q "categoria_id" in
  let estado := prop q "estado" in
  let buscar := prop q "buscar" in
  let limite := match prop q "limite" with JUndef => JNum (Num 500) | v => v end in
  let '(query, params, paramIndex) :=
    if truthy categoria_id && negb (is_str categoria_id "all")
    then (productos_admin_select ++ " AND p.categoria_id = $" ++ nat_to_dec 1,
          [to_param categoria_id], 2%nat)
    else (productos_admin_select, [], 1%nat) in
  let filtro :=
    if truthy estado && negb (is_str estado "all") then
      match estado with
      | JStr e =>
          if String.eqb (to_lower e) "active" then inr " AND UPPER(p.estado) = 'ACTIVO'"
          else if String.eqb (to_lower e) "inactive" then inr " AND UPPER(p.estado) = 'INACTIVO'"
          else inr ""
      | _ => inl (JsErr "estado.toLowerCase is not a function")
      end
    else inr "" in
  match filtro with
  | inl ex => inl ex
  | inr f =>
      let query := query ++ f in
      let '(query, params, paramIndex) :=
        if truthy buscar
        then (query ++ " AND LOWER(p.nombre) LIKE LOWER($" ++ nat_to_dec paramIndex ++ ")",
              (params ++ [like_param rt buscar])%list, S paramIndex)
        else (query, params, paramIndex) in
      inr (query ++ " ORDER BY p.fecha_creacion DESC LIMIT $" ++ nat_to_dec paramIndex,
           (params ++ [num_param (parseInt rt limite)])%list)
  end.

(** src/server.js [GET /api/admin/productos] (after [autenticarToken]). *)
Definition listar_productos_admin (rt : Runtime)
    (exec : string -> list sqlval -> M (list jsval)) (q : list (string * jsval))
  : M response :=
  try_catch
    (let* c := match consulta_productos_admin rt q with
               | inl ex => raise ex
               | inr c => ret c
               end in
     let '(query, params) := c in
     let* rows := pg_query exec query params in
     ret (ok_data es 200 None (JArr rows)))
    (fun e => fail_500 es "Error obteniendo productos" (exn_message rt e)).

Definition clientes_select : string := "
      SELECT 
        id, usuario, nombre, correo, telefono, direccion, 
        ciudad, pais, activo, rol, fecha_creacion, ultima_sesion
      FROM clientes
      WHERE 1=1
    ".

(** src/server.js [GET /api/admin/clientes]: the query it builds. *)
Definition consulta_clientes (rt : Runtime) (q : list (string * jsval))
  : string * list sqlval :=
  let buscar := prop q "buscar" in
  let limite := match prop q "limite" with JUndef => JNum (Num 100) | v => v end in
  let activo := prop q "activo" in
  let '(query, params, paramIndex) :=
    if negb (is_undef activo)
    then (clientes_select ++ " AND activo = $" ++ nat_to_dec 1,
          [SBool (is_str activo "true")], 2%nat)
    else (clientes_select, [], 1%nat) in
  let '(query, params, paramIndex) :=
    if truthy buscar
    then (query ++ " AND (
        LOWER(nombre) LIKE LOWER($" ++ nat_to_dec paramIndex ++ ") OR 
        LOWER(usuario) LIKE LOWER($" ++ nat_to_dec paramIndex ++ ") OR 
        LOWER(correo) LIKE LOWER($" ++ nat_to_dec paramIndex ++ ")
      )",
          (params ++ [like_param rt buscar])%list, S paramIndex)
    else (query, params, paramIndex) in
  (query ++ " ORDER BY fecha_creacion DESC LIMIT $" ++ nat_to_dec paramIndex,
   (params ++ [num_param (parseInt rt limite)])%list).

Definition p000_productos_select : string := "
      SELECT 
        p.id,
        p.nombre,
        p.categoria_id,
        p.subcategoria_id,
        p.precio,
        p.invertido,
        p.descripcion,
        p.imagen_base64,
        p.stock,
        p.estado,
        p.destacado,
        p.fecha_creacion,
        p.fecha_actualizacion,
        c.nombre AS nombre_categoria, 
        s.nombre AS nombre_subcategoria
      FROM productos p
      LEFT JOIN categorias c ON c.id = p.categoria_id
      LEFT JOIN subcategorias s ON s.id = p.subcategoria_id
      WHERE p.estado = 'ACTIVO'
    ".

(** part_000 [GET /api/productos]: the query it builds; each placeholder is
    numbered by [parametros.length] after the push. *)
Definition p000_consulta_productos (rt : Runtime) (q : list (string * jsval))
  : string * list sqlval :=
  let categoria_id := prop q "categoria_id" in
  let buscar := prop q "buscar" in
  let limite := match prop q "limite" with JUndef => JNum (Num 50) | v => v end in
  let '(consulta, parametros) :=
    if truthy categoria_id
    then let parametros := [to_param categoria_id] in
         (p000_productos_select ++ " AND p.categoria_id = $" ++ nat_to_dec (length parametros),
          parametros)
    else (p000_productos_select, []) in
  let '(consulta, parametros) :=
    if truthy buscar
    then let parametros := (parametros ++ [like_param rt buscar])%list in
         (consulta ++ " AND (p.nombre ILIKE $" ++ nat_to_dec (length parametros)
                   ++ " OR p.descripcion ILIKE $" ++ nat_to_dec (length parametros) ++ ")",
          parametros)
    else (consulta, parametros) in
  (consulta ++ " ORDER BY p.fecha_creacion DESC LIMIT $" ++ nat_to_dec (length parametros + 1),
   (parametros ++ [num_param (parseInt rt limite)])%list).

Definition p000_productos_admin_select : string := "
      SELECT p.*, c.nombre AS nombre_categoria, s.nombre AS nombre_subcategoria
      FROM productos p
      LEFT JOIN categorias c ON c.id = p.categoria_id
      LEFT JOIN subcategorias s ON s.id = p.subcategoria_id
      WHERE 1=1
    ".

(** part_000 [GET /api/admin/productos]: the query it builds. *)
Definition p000_consulta_productos_admin (rt : Runtime) (q : list (string * jsval))
  : string * list sqlval :=
  let categoria_id := prop q "categoria_id" in
  let estado := prop q "estado" in
  let buscar := prop q "buscar" in
  let limite := match prop q "limite" with JUndef => JNum (Num 100) | v => v end in
  let '(consulta, parametros) :=
    if truthy categoria_id && negb (is_str categoria_id "all")
    then let parametros := [to_param categoria_id] in
         (p000_productos_admin_select ++ " AND p.categoria_id = $"
            ++ nat_to_dec (length parametros), parametros)
    else (p000_productos_admin_select, []) in
  let '(consulta, parametros) :=
    if truthy estado && negb (is_str estado "all")
    then let parametros := (parametros ++ [to_param estado])%list in
         (consulta ++ " AND p.estado = $" ++ nat_to_dec (length parametros), parametros)
    else (consulta, parametros) in
  let '(consulta, parametros) :=
    if truthy buscar
    then let parametros := (parametros ++ [like_param rt buscar])%list in
         (consulta ++ " AND (p.nombre ILIKE $" ++ nat_to_dec (length parametros)
                   ++ " OR p.descripcion ILIKE $" ++ nat_to_dec (length parametros) ++ ")",
          parametros)
    else (consulta, parametros) in
  (consulta ++ " ORDER BY p.fecha_creacion DESC LIMIT $" ++ nat_to_dec (length parametros + 1),
   (parametros ++ [num_param (parseInt rt limite)])%list).

End Admin.

(* ------------------------------------------------------------------------- *)
(** * Concrete runtime and database used by the witnesses *)

Module Demo.

Definition rt_demo : Runtime := {|
  rt_js_String := fun _ => "";
  rt_parseFloat_str := fun _ => NaN;
  rt_ToNumber_str := fun _ => NaN;
  rt_parseInt_other := fun _ => NaN;
  rt_pg_coerce_other := fun _ _ => None;
  rt_pg_text := fun _ => "x";
  rt_pg_message := fun _ => "db error";
  rt_bcrypt_hash := fun salt p => "$2a$10$" ++ salt ++ p;
  rt_bcrypt_compare := fun p h => String.eqb h ("$2a$10$salt" ++ p);
  rt_numeric_text := fun _ => "0.00";
  rt_jwt_sign := fun _ => "signed";
  rt_jwt_verify := fun _ tok _ =>
    if String.eqb tok "good" then Some (JObj [("rol", JStr "admin")]) else None
|}.

Definition producto_inactivo : producto := {|
  p_id := 1; p_nombre := SStr "Widget"; p_categoria_id := SNum (Num 1);
  p_subcategoria_id := SNull; p_precio := SNum (Num 10); p_invertido := SNum (Num 0);
  p_descripcion := SStr "azul"; p_imagen_base64 := SNull; p_stock := SNum (Num 0);
  p_estado := SStr "INACTIVO"; p_destacado := SBool false;
  p_fecha_creacion := 5; p_fecha_actualizacion := 5 |}.

Definition cliente_ana : cliente := {|
  c_id := 1; c_usuario := SStr "ana"; c_contrasena_hash := SStr "$2a$10$saltsecret";
  c_nombre := SStr "Ana"; c_correo := SStr "ana@example.com"; c_telefono := SNull;
  c_direccion := SNull; c_ciudad := SNull; c_pais := SNull; c_activo := true;
  c_rol := SStr "client"; c_fecha_creacion := 1; c_ultima_sesion := None |}.

Definition venta_pendiente : venta := {|
  v_id := 1; v_numero_orden := SStr "ORD-1000-7"; v_datos_carrito := SJson (JArr [JNum (Num 1)]);
  v_total := SNum (Num 10); v_nombre_cliente := SStr "Cliente"; v_correo_cliente := SStr "";
  v_telefono_cliente := SStr ""; v_estado := SStr "pending"; v_fecha_creacion := 10 |}.

Definition venta_pagada : venta := {|
  v_id := 2; v_numero_orden := SStr "ORD-1001-3"; v_datos_carrito := SJson (JArr [JNum (Num 2)]);
  v_total := SNum (Num 20); v_nombre_cliente := SStr "Cliente"; v_correo_cliente := SStr "";
  v_telefono_cliente := SStr ""; v_estado := SStr "paid"; v_fecha_creacion := 11 |}.

Definition db_demo : db := {|
  categorias := [(1%Z, SStr "Ropa")]; subcategorias := [];
  productos := [producto_inactivo]; seq_productos := 1;
  clientes := [cliente_ana]; seq_clientes := 1;
  ventas := [venta_pendiente; venta_pagada]; seq_ventas := 2 |}.

End Demo.

(** Further concrete data: an administrator account, a second customer and
    a database holding both customers. *)
Module Demo2.
Import Clientes Admin.

Definition admin_root : administrador := {|
  a_id := 1; a_usuario := SStr "root"; a_contrasena_hash := SStr "$2a$10$saltclave";
  a_nombre := SStr "Root"; a_correo := SStr "root@example.com"; a_rol := SStr "admin";
  a_fecha_creacion := 1 |}.

Definition cliente_beto : cliente := {|
  c_id := 2; c_usuario := SStr "beto"; c_contrasena_hash := SStr "$2a$10$saltclave";
  c_nombre := SStr "Beto"; c_correo := SStr "beto@example.com"; c_telefono := SNull;
  c_direccion := SNull; c_ciudad := SNull; c_pais := SNull; c_activo := true;
  c_rol := SStr "cliente"; c_fecha_creacion := 2; c_ultima_sesion := None |}.

Definition db_dos_clientes : db :=
  set_clientes Demo.db_demo [Demo.cliente_ana; cliente_beto] 2.

Definition sin_filas (_ : string) (_ : list sqlval) : M (list jsval) := ret [].

Definition gorra : list (string * jsval) := [("nombre", JStr "Gorra"); ("precio", JNum (Num 10))].

Definition telefono_555 : list (string * jsval) := [("telefono", JStr "555")].

Definition estado_paid : list (string * jsval) := [("estado", JStr "paid")].

Definition registro_beto : list (string * jsval) :=
  [("usuario", JStr "beto"); ("contrasena", JStr "clave"); ("nombre", JStr "Beto");
   ("correo", JStr "beto@example.com")].

Definition root_clave : list (string * jsval) := [("usuario", JStr "root"); ("contrasena", JStr "clave")].





End Demo2.

(* ------------------------------------------------------------------------- *)
(** * Notions used by the statements *)

Module Spec.
Import Productos ProductUpdate.

(** A token with no space is its own [split(' ')]. *)
Fixpoint no_space (t : string) : bool :=
  match t with
  | EmptyString => true
  | String c r => negb (Ascii.eqb c " "%char) && no_space r
  end.

(** What an update leaves in place for a row [q] it rewrites to [q']. *)
Definition frame_es (b : list (string * jsval)) (now : Z) (q q' : producto) : Prop :=
  p_id q' = p_id q /\ p_fecha_creacion q' = p_fecha_creacion q /\
  p_fecha_actualizacion q' = now /\
  (prop b "nombre" = JUndef -> p_nombre q' = p_nombre q) /\
  (prop b "categoria_id" = JUndef -> p_categoria_id q' = p_categoria_id q) /\
  (prop b "subcategoria_id" = JUndef -> p_subcategoria_id q' = p_subcategoria_id q) /\
  (prop b "precio" = JUndef -> p_precio q' = p_precio q) /\
  (prop b "invertido" = JUndef -> p_invertido q' = p_invertido q) /\
  (prop b "descripcion" = JUndef -> p_descripcion q' = p_descripcion q) /\
  (prop b "imagen_base64" = JUndef -> p_imagen_base64 q' = p_imagen_base64 q) /\
  (prop b "stock" = JUndef -> p_stock q' = p_stock q) /\
  (prop b "estado" = JUndef -> p_estado q' = p_estado q) /\
  (prop b "destacado" = JUndef -> p_destacado q' = p_destacado q).

(** The row after an update that assigns only the stock [v]. *)
Definition with_stock (v : sqlval) (now : Z) (q : producto) : producto :=
  {| p_id := p_id q; p_nombre := p_nombre q; p_categoria_id := p_categoria_id q;
     p_subcategoria_id := p_subcategoria_id q; p_precio := p_precio q;
     p_invertido := p_invertido q; p_descripcion := p_descripcion q;
     p_imagen_base64 := p_imagen_base64 q; p_stock := v; p_estado := p_estado q;
     p_destacado := p_destacado q; p_fecha_creacion := p_fecha_creacion q;
     p_fecha_actualizacion := now |}.

(** The body fields part_001's update can assign, besides [status]. *)
Definition p001_fields : list string :=
  ["name"; "category_id"; "subcategory_id"; "price"; "invertido"; "description";
   "image_base64"; "stock"; "featured"].


End Spec.

(** Notions used by the statements about the administration routes. *)
Module AdminSpec.
Import Clientes Admin.

(** The keys of a JSON object. *)
Definition keys (v : jsval) : list string :=
  match v with JObj kvs => map fst kvs | _ => [] end.

(** A text without the placeholder sign [$]. *)
Fixpoint no_dollar (t : string) : bool :=
  match t with
  | EmptyString => true
  | String c r => negb (Ascii.eqb c "$"%char) && no_dollar r
  end.

(** A customer row after [SET ultima_sesion = CURRENT_TIMESTAMP]. *)
Definition with_sesion (now : Z) (q : cliente) : cliente :=
  {| c_id := c_id q; c_usuario := c_usuario q; c_contrasena_hash := c_contrasena_hash q;
     c_nombre := c_nombre q; c_correo := c_correo q; c_telefono := c_telefono q;
     c_direccion := c_direccion q; c_ciudad := c_ciudad q; c_pais := c_pais q;
     c_activo := c_activo q; c_rol := c_rol q; c_fecha_creacion := c_fecha_creacion q;
     c_ultima_sesion := Some now |}.

(** A body field left out of an update: [undefined] or [null], both bound
    as NULL, which [COALESCE] replaces by the stored value. *)
Definition omitted (v : jsval) : Prop := v = JUndef \/ v = JNull.

(** Column types of the parameters of server.js's customer UPDATE
    ([nombre, correo, telefono, direccion, ciudad, pais] as text, [activo] as boolean). *)
Definition cliente_tys : list coltype := [TText; TText; TText; TText; TText; TText; TBool].

(** The seven bound values of server.js's customer UPDATE, in order. *)
Definition cliente_params (b : list (string * jsval)) : list sqlval :=
  [to_param (prop b "nombre"); to_param (prop b "correo");
   to_param (prop b "telefono"); to_param (prop b "direccion");
   to_param (prop b "ciudad"); to_param (prop b "pais");
   to_param (prop b "activo")].

End AdminSpec.

(* ========================================================================= *)
(** * Properties *)

Local Open Scope Z_scope.

Module DriverProofs.
Import Spec.


Lemma varchar_fit_short : forall n s, (char_length s <= n)%nat -> varchar_fit n s = Some s.
Proof.
  intros n s H. unfold varchar_fit. apply Nat.leb_le in H. rewrite H. reflexivity.
Qed.



Lemma pg_coerce_varchar_fits : forall rt n x,
  (char_length x <= n)%nat -> pg_coerce rt (TVarchar n) (SStr x) = Some (SStr x).
Proof. intros rt n x H. simpl. rewrite (varchar_fit_short n x H). reflexivity. Qed.



Lemma bind_id_ok : forall id s, int4_ok id = true -> bind_id id s = (inr tt, s).
Proof. intros id s H. unfold bind_id. rewrite H. reflexivity. Qed.

Lemma bind_id_fail : forall id s, int4_ok id = false -> bind_id id s = (inl (PgErr EInvalidInput), s).
Proof. intros id s H. unfold bind_id. rewrite H. reflexivity. Qed.

End DriverProofs.

Module AuthProofs.
Import Auth Spec.

Lemma split_space_no_space : forall t, no_space t = true -> split_space t = [t].
Proof.
  induction t as [| c r IH]; simpl; intros H; [reflexivity |].
  apply andb_prop in H as [Hc Hr]. rewrite (IH Hr).
  apply negb_true_iff in Hc. rewrite Hc. reflexivity.
Qed.

(** A header [Bearer <t>], with [t] a non-empty word, carries the token [t]. *)
Lemma token_of_header_bearer : forall t,
  t <> "" -> no_space t = true -> token_of_header (Some ("Bearer " ++ t)) = Some t.
Proof.
  intros t Hne Hns. unfold token_of_header. simpl.
  rewrite (split_space_no_space t Hns). simpl.
  destruct t as [| c r]; [congruence | reflexivity].
Qed.

(** An absent [Authorization] header carries no token. *)
Lemma token_of_header_none : token_of_header None = None.
Proof. reflexivity. Qed.

(** C1: the authentication middleware ([autenticarToken] in server.js,
    [authenticateToken] in part_001) answers 401 when the request carries no
    bearer token, 403 when the token does not verify (bad signature or
    expired), and admits the request handing the verified payload on to the
    route when it does. *)
Theorem authenticate_outcomes :
  forall (e : envelope) (rt : Runtime) (secret : string) (now : Z) (hdr : option string),
    (token_of_header hdr = None ->
       exists r, authenticate e rt secret now hdr = Reject r /\ status r = 401) /\
    (forall t, token_of_header hdr = Some t -> rt_jwt_verify rt secret t now = None ->
       exists r, authenticate e rt secret now hdr = Reject r /\ status r = 403) /\
    (forall t u, token_of_header hdr = Some t -> rt_jwt_verify rt secret t now = Some u ->
       authenticate e rt secret now hdr = Next u).
Proof.
  intros e rt secret now hdr. unfold authenticate.
  split; [| split].
  - intros H. rewrite H. eexists; split; reflexivity.
  - intros t H1 H2. rewrite H1, H2. eexists; split; reflexivity.
  - intros t u H1 H2. rewrite H1, H2. reflexivity.
Qed.

Lemma authenticate_outcomes_witness :
  token_of_header (Some "Bearer good") = Some "good" /\
  rt_jwt_verify Demo.rt_demo "secret" "good" 0 = Some (JObj [("rol", JStr "admin")]) /\
  authenticate es Demo.rt_demo "secret" 0 (Some "Bearer good")
    = Next (JObj [("rol", JStr "admin")]) /\
  (exists r, authenticate en Demo.rt_demo "secret" 0 None = Reject r /\ status r = 401) /\
  (exists r, authenticate en Demo.rt_demo "secret" 0 (Some "Bearer bad") = Reject r
             /\ status r = 403).
Proof.
  split; [reflexivity |]. split; [reflexivity |]. split.
  - apply (proj2 (proj2 (authenticate_outcomes es Demo.rt_demo "secret" 0
             (Some "Bearer good"))) "good"); reflexivity.
  - split.
    + apply (proj1 (authenticate_outcomes en Demo.rt_demo "secret" 0 None)). reflexivity.
    + apply (proj1 (proj2 (authenticate_outcomes en Demo.rt_demo "secret" 0
               (Some "Bearer bad"))) "bad"); reflexivity.
Defined.

End AuthProofs.

Module UpdateProofs.
Import Productos ProductUpdate Spec.

Lemma coerce_list_length : forall rt tys ps vs,
  coerce_list rt tys ps = Some vs -> length vs = length ps.
Proof.
  induction tys as [| t ts IH]; intros [| p ps] vs H; simpl in H; try discriminate.
  - injection H as <-. reflexivity.
  - destruct (pg_coerce rt t p) eqn:E1; [| discriminate].
    destruct (coerce_list rt ts ps) eqn:E2; [| discriminate].
    injection H as <-. simpl. f_equal. apply (IH _ _ E2).
Qed.

Lemma coerce_list_nth_null : forall rt tys ps vs,
  coerce_list rt tys ps = Some vs ->
  forall i, nth i ps SNull = SNull -> nth i vs SNull = SNull.
Proof.
  induction tys as [| t ts IH]; intros [| p ps] vs H; simpl in H; try discriminate.
  - injection H as <-. intros [|i]; reflexivity.
  - destruct (pg_coerce rt t p) eqn:E1; [| discriminate].
    destruct (coerce_list rt ts ps) eqn:E2; [| discriminate].
    injection H as <-. intros [| i] Hi; simpl in *.
    + subst p. simpl in E1. destruct t; injection E1 as <-; reflexivity.
    + apply (IH _ _ E2 i Hi).
Qed.

Lemma set_productos_same : forall s, set_productos s (productos s) (seq_productos s) = s.
Proof. intros []; reflexivity. Qed.

(** The UPDATE either fails leaving the tables as they were, or rewrites
    exactly the rows with the given id through [upd_row]. *)
Lemma update_productos_cases : forall rt now id ps img s,
  match update_productos rt now id ps img s with
  | (inl _, s') => s' = s
  | (inr hit, s') =>
      exists vs im,
        int4_ok id = true /\
        coerce_list rt update_tys ps = Some vs /\
        (img = None -> im = None) /\
        hit = map (upd_row now vs im) (filter (fun q => Z.eqb (p_id q) id) (productos s)) /\
        s' = set_productos s
               (map (fun q => if Z.eqb (p_id q) id then upd_row now vs im q else q)
                    (productos s)) (seq_productos s)
  end.
Proof.
  intros rt now id ps img s.
  unfold update_productos, bind_id, bind, lift_opt, ret, raise, get_db, put_db.
  destruct (int4_ok id) eqn:Hid; [| reflexivity].
  destruct (coerce_list rt update_tys ps) as [vs |] eqn:Ec; [| reflexivity].
  destruct img as [i |].
  - destruct (pg_coerce rt TText i) as [v |] eqn:Ei; [| reflexivity].
    destruct (forallb _ _); [| reflexivity].
    exists vs, (Some v). repeat split; congruence.
  - destruct (forallb _ _); [| reflexivity].
    exists vs, None. repeat split; congruence.
Qed.

Lemma run_actualizar_producto : forall rt now id b s,
  run (actualizar_producto rt now id b) s =
  match update_productos rt now id (actualizar_params rt b) (actualizar_img b) s with
  | (inl e, s') => (fail_500 es "Error actualizando producto" (exn_message rt e), s')
  | (inr [], s') => (fail_msg es 404 "Producto no encontrado", s')
  | (inr (r :: _), s') =>
      (ok_data es 200 (Some "Producto actualizado exitosamente") (row_json rt cols_es r), s')
  end.
Proof.
  intros. unfold run, actualizar_producto, try_catch, bind, ret.
  destruct (update_productos _ _ _ _ _ s) as [[e | [| r rs]] s']; reflexivity.
Qed.

Lemma pick_null : forall old, pick SNull old = old.
Proof. reflexivity. Qed.

Lemma upd_row_frame : forall rt b now vs im q,
  coerce_list rt update_tys (actualizar_params rt b) = Some vs ->
  (actualizar_img b = None -> im = None) ->
  frame_es b now q (upd_row now vs im q).
Proof.
  intros rt b now vs im q Hc Him.
  pose proof (coerce_list_length _ _ _ _ Hc) as Hl.
  pose proof (coerce_list_nth_null _ _ _ _ Hc) as Hn.
  unfold actualizar_params in Hn.
  destruct vs as [| n [| c [| sc [| pr [| inv [| d [| st [| es' [| de [| x vs]]]]]]]]]];
    simpl in Hl; try discriminate.
  unfold frame_es, upd_row; simpl.
  split; [reflexivity |]. split; [reflexivity |]. split; [reflexivity |].
  repeat split; intros Hk.
  - assert (n = SNull) as -> by (apply (Hn 0%nat); simpl; rewrite Hk; reflexivity).
    reflexivity.
  - assert (c = SNull) as -> by (apply (Hn 1%nat); simpl; rewrite Hk; reflexivity).
    reflexivity.
  - assert (sc = SNull) as -> by (apply (Hn 2%nat); simpl; rewrite Hk; reflexivity).
    reflexivity.
  - assert (pr = SNull) as -> by (apply (Hn 3%nat); simpl; rewrite Hk; reflexivity).
    reflexivity.
  - assert (inv = SNull) as -> by (apply (Hn 4%nat); simpl; rewrite Hk; reflexivity).
    reflexivity.
  - assert (d = SNull) as -> by (apply (Hn 5%nat); simpl; rewrite Hk; reflexivity).
    reflexivity.
  - unfold actualizar_img in Him. rewrite Hk in Him. simpl in Him.
    rewrite (Him eq_refl). reflexivity.
  - assert (st = SNull) as -> by (apply (Hn 6%nat); simpl; rewrite Hk; reflexivity).
    reflexivity.
  - assert (es' = SNull) as -> by (apply (Hn 7%nat); simpl; rewrite Hk; reflexivity).
    reflexivity.
  - assert (de = SNull) as -> by (apply (Hn 8%nat); simpl; rewrite Hk; reflexivity).
    reflexivity.
Qed.

(** The route's outcome on an existing product: a database rejection (500)
    that changes nothing, or 200 with every row of that id rewritten so that
    omitted fields keep their values and the modification time is [now]. *)
Lemma actualizar_producto_frame : forall rt now id b s p,
  In p (productos s) -> p_id p = id ->
  let '(r, s') := run (actualizar_producto rt now id b) s in
  (status r = 500 /\ s' = s) \/
  (status r = 200 /\
   exists f, productos s' = map (fun q => if Z.eqb (p_id q) id then f q else q) (productos s)
             /\ (forall q, frame_es b now q (f q))).
Proof.
  intros rt now id b s p Hin Hid. rewrite run_actualizar_producto.
  pose proof (update_productos_cases rt now id (actualizar_params rt b) (actualizar_img b) s)
    as Hc.
  destruct (update_productos _ _ _ _ _ s) as [[e | hit] s'].
  - left. split; [reflexivity | exact Hc].
  - destruct Hc as (vs & im & _ & Hvs & Him & Hhit & Hs').
    assert (Hne : hit <> []).
    { rewrite Hhit. intros Hnil. apply map_eq_nil in Hnil.
      assert (In p (filter (fun q => Z.eqb (p_id q) id) (productos s))) as Hp.
      { apply filter_In. split; [exact Hin | apply Z.eqb_eq; exact Hid]. }
      rewrite Hnil in Hp. destruct Hp. }
    destruct hit as [| r rs]; [congruence |].
    right. split; [reflexivity |].
    exists (upd_row now vs im). split.
    + rewrite Hs'. reflexivity.
    + intros q. apply (upd_row_frame rt); assumption.
Qed.

(** [{stock: 5}] on an existing product: 200, and only the stock and the
    modification time of that product change. *)
Lemma actualizar_producto_stock5 : forall rt now id s p,
  In p (productos s) -> p_id p = id -> int4_ok id = true ->
  let '(r, s') := run (actualizar_producto rt now id [("stock", JNum (Num 5))]) s in
  status r = 200 /\
  s' = set_productos s
         (map (fun q => if Z.eqb (p_id q) id then with_stock (SNum (Num 5)) now q else q)
              (productos s)) (seq_productos s).
Proof.
  intros rt now id s p Hin Hid Hint. rewrite run_actualizar_producto.
  assert (Hf : In p (filter (fun q => Z.eqb (p_id q) id) (productos s))).
  { apply filter_In. split; [exact Hin | apply Z.eqb_eq; exact Hid]. }
  assert (Hp : actualizar_params rt [("stock", JNum (Num 5))]
               = [SNull; SNull; SNull; SNull; SNull; SNull; SNum (Num 5); SNull; SNull])
    by reflexivity.
  assert (Hi : actualizar_img [("stock", JNum (Num 5))] = None) by reflexivity.
  assert (Hc : coerce_list rt update_tys
                 [SNull; SNull; SNull; SNull; SNull; SNull; SNum (Num 5); SNull; SNull]
               = Some [SNull; SNull; SNull; SNull; SNull; SNull; SNum (Num 5); SNull; SNull])
    by reflexivity.
  rewrite Hp, Hi. unfold update_productos, bind_id, bind, lift_opt, ret, raise, get_db, put_db.
  rewrite Hint, Hc.
  replace (forallb _ _) with true
    by (symmetry; apply forallb_forall; intros x _; reflexivity).
  destruct (filter (fun q => Z.eqb (p_id q) id) (productos s)) as [| x xs] eqn:Ef;
    [destruct Hf |].
  simpl. split; reflexivity.
Qed.

Lemma status_norm_values : forall v st,
  status_norm v = inr st -> st = JStr "ACTIVO" \/ st = JStr "inactive".
Proof.
  intros v st H. destruct v; simpl in H; try discriminate;
    try (injection H as <-; left; reflexivity).
  destruct (_ || _); injection H as <-; [right | left]; reflexivity.
Qed.

(** C10: in server.js, an update whose body gives [stock: 0] leaves the
    stock of every product as it was: [parseInt(0) || null] is [null] and
    [COALESCE(NULL, stock)] keeps the stored value. *)
Theorem actualizar_producto_stock_zero_kept : forall rt now id b s,
  prop b "stock" = JNum (Num 0) ->
  map p_stock (productos (snd (run (actualizar_producto rt now id b) s)))
    = map p_stock (productos s).
Proof.
  intros rt now id b s Hs. rewrite run_actualizar_producto.
  pose proof (update_productos_cases rt now id (actualizar_params rt b) (actualizar_img b) s)
    as Hc.
  destruct (update_productos _ _ _ _ _ s) as [[e | hit] s'].
  - simpl. rewrite Hc. reflexivity.
  - destruct Hc as (vs & im & _ & Hvs & _ & _ & Hs').
    assert (H6 : nth 6 vs SNull = SNull).
    { apply (coerce_list_nth_null _ _ _ _ Hvs 6). unfold actualizar_params. simpl.
      rewrite Hs. reflexivity. }
    pose proof (coerce_list_length _ _ _ _ Hvs) as Hl.
    assert (Hst : forall q, p_stock (upd_row now vs im q) = p_stock q).
    { intros q. unfold actualizar_params in Hl.
      destruct vs as [| n [| c [| sc [| pr [| inv [| d [| st [| es' [| de [| x vs]]]]]]]]]];
        simpl in Hl; try discriminate.
      simpl in H6. subst st. reflexivity. }
    assert (Hm : map p_stock (productos s') = map p_stock (productos s)).
    { rewrite Hs'. simpl. rewrite map_map. apply map_ext. intros q.
      destruct (Z.eqb (p_id q) id); auto. }
    destruct hit as [| r rs]; exact Hm.
Qed.

Lemma actualizar_producto_stock_zero_kept_witness :
  prop [("stock", JNum (Num 0)); ("nombre", JStr "Nuevo")] "stock" = JNum (Num 0) /\
  map p_stock (productos (snd (run (actualizar_producto Demo.rt_demo 9 1
                                 [("stock", JNum (Num 0)); ("nombre", JStr "Nuevo")])
                              Demo.db_demo)))
    = map p_stock (productos Demo.db_demo).
Proof.
  split; [reflexivity |].
  apply actualizar_producto_stock_zero_kept. reflexivity.
Defined.

End UpdateProofs.

Module CreateProofs.
Import Productos.









End CreateProofs.

Module RegisterProofs.
Import Clientes DriverProofs.

Lemma coerce_list_cons : forall rt t ts p ps v vs,
  coerce_list rt (t :: ts) (p :: ps) = Some (v :: vs) ->
  pg_coerce rt t p = Some v /\ coerce_list rt ts ps = Some vs.
Proof.
  intros rt t ts p ps v vs H. simpl in H.
  destruct (pg_coerce rt t p), (coerce_list rt ts ps); try discriminate.
  injection H as -> ->. auto.
Qed.

Lemma insert_cliente_cases : forall rt now tys ps rol s,
  match insert_cliente rt now tys ps rol s with
  | (inl _, s') => clientes s' = clientes s
  | (inr row, s') =>
      clientes s' = (clientes s ++ [row])%list /\
      exists u h n c rest, coerce_list rt tys ps = Some (u :: h :: n :: c :: rest) /\
        c_usuario row = u /\ c_contrasena_hash row = h /\ c_correo row = c
  end.
Proof.
  intros rt now tys ps rol s. unfold insert_cliente, bind, lift_opt, ret, raise, get_db, put_db.
  destruct (coerce_list rt tys ps) as [vs |] eqn:Hc; [| reflexivity].
  destruct vs as [| u [| h [| n [| c rest]]]]; try reflexivity.
  destruct (negb (int4_ok (seq_clientes s + 1))); [reflexivity |].
  cbn [fst snd].
  destruct (is_null u || is_null h || is_null n || is_null c); [reflexivity |].
  destruct (existsb _ _); [reflexivity |].
  split; [reflexivity |]. exists u, h, n, c, rest. auto.
Qed.


Lemma pg_coerce_text : forall rt v,
  pg_coerce rt TText v = Some (match v with SNull => SNull | _ => SStr (text_of rt v) end).
Proof. intros rt v. destruct v; reflexivity. Qed.






End RegisterProofs.

Module SaleProofs.
Import ProductUpdate Ventas RegisterProofs Spec DriverProofs.












End SaleProofs.

Module LoginProofs.
Import Clientes.

(** server.js answers every 401 of its login with the same body. *)
Lemma login_cliente_401_uniform : forall rt now b s,
  status (fst (run (login_cliente rt now b) s)) = 401 ->
  fst (run (login_cliente rt now b) s) = fail_msg es 401 "Credenciales inválidas".
Proof.
  intros rt now b s H. revert H.
  unfold run, login_cliente, try_catch, bind, ret, get_db, put_db, lift_opt, raise.
  destruct (_ || _); [discriminate |].
  destruct (pg_coerce _ _ _) as [pu |]; [| discriminate].
  unfold ret.
  destruct (filter _ (clientes s)) as [| c cs]; [reflexivity |].
  unfold bcrypt_compare, ret, raise.
  destruct (prop b "contrasena"), (c_contrasena_hash c); try discriminate.
  destruct (rt_bcrypt_compare _ _ _); [discriminate | reflexivity].
Qed.

(** C5: part_001's login tells a wrong password ("Contraseña incorrecta")
    from an unknown account ("Usuario no encontrado") for the same password,
    both with 401, so the response reveals whether the account exists;
    server.js answers both with "Credenciales inválidas". *)
Theorem login_client_reveals_account :
  run (login_client Demo.rt_demo [("identifier", JStr "ana"); ("password", JStr "wrong")])
      Demo.db_demo = (fail_msg en 401 "Contraseña incorrecta", Demo.db_demo) /\
  run (login_client Demo.rt_demo [("identifier", JStr "nobody"); ("password", JStr "wrong")])
      Demo.db_demo = (fail_msg en 401 "Usuario no encontrado", Demo.db_demo) /\
  "Contraseña incorrecta" <> "Usuario no encontrado" /\
  run (login_cliente Demo.rt_demo 9 [("usuario", JStr "ana"); ("contrasena", JStr "wrong")])
      Demo.db_demo = (fail_msg es 401 "Credenciales inválidas", Demo.db_demo) /\
  run (login_cliente Demo.rt_demo 9 [("usuario", JStr "nobody"); ("contrasena", JStr "wrong")])
      Demo.db_demo = (fail_msg es 401 "Credenciales inválidas", Demo.db_demo).
Proof.
  split; [vm_compute; reflexivity |]. split; [vm_compute; reflexivity |].
  split; [discriminate |]. split; vm_compute; reflexivity.
Qed.
End LoginProofs.

Module LookupProofs.
Import Productos ProductUpdate.

Lemma filter_nil_iff : forall {A} (f : A -> bool) l,
  filter f l = [] <-> forall x, In x l -> f x = false.
Proof.
  intros A f l; induction l as [| x t IH]; simpl; [tauto |].
  destruct (f x) eqn:E; split; intros H.
  - discriminate.
  - rewrite (H x (or_introl eq_refl)) in E. discriminate.
  - intros y [<- | Hy]; [exact E | apply IH; assumption].
  - apply IH. intros y Hy. apply H. right. exact Hy.
Qed.

(** A get-by-id route: the id is refused as an INTEGER (500, echoing the
    driver's message), or no row is selected (404), or one is (200). *)
Lemma get_by_id_cases : forall e k ck sk oa msg rt id s,
  (int4_ok id = false /\
   run (get_by_id e k ck sk oa msg rt id) s
     = (fail_500 e msg (rt_pg_message rt EInvalidInput), s)) \/
  (int4_ok id = true /\
   fst (run (get_by_id e k ck sk oa msg rt id) s) = fail_msg e 404 "Producto no encontrado" /\
   select_by_id s oa id = []) \/
  (int4_ok id = true /\
   status (fst (run (get_by_id e k ck sk oa msg rt id) s)) = 200 /\
   select_by_id s oa id <> []).
Proof.
  intros. unfold run, get_by_id, try_catch, bind_id, bind, get_db, ret, raise.
  destruct (int4_ok id) eqn:Hi; [right | left; auto].
  destruct (select_by_id s oa id); [left | right]; repeat split; try reflexivity; discriminate.
Qed.

Lemma get_by_id_status_404 : forall e k ck sk oa msg rt id s,
  status (fst (run (get_by_id e k ck sk oa msg rt id) s)) = 404 <->
  int4_ok id = true /\ select_by_id s oa id = [].
Proof.
  intros. destruct (get_by_id_cases e k ck sk oa msg rt id s)
    as [[Hi H1] | [[Hi [H1 H2]] | [Hi [H1 H2]]]]; rewrite ?H1.
  - simpl. split; [discriminate | intros [H _]; congruence].
  - split; [intros _; split; assumption | reflexivity].
  - split; [discriminate | intros [_ H]; contradiction].
Qed.

Lemma get_by_id_status_500 : forall e k ck sk oa msg rt id s,
  status (fst (run (get_by_id e k ck sk oa msg rt id) s)) = 500 <-> int4_ok id = false.
Proof.
  intros. destruct (get_by_id_cases e k ck sk oa msg rt id s)
    as [[Hi H1] | [[Hi [H1 H2]] | [Hi [H1 H2]]]]; rewrite ?H1.
  - simpl. split; [intros _; exact Hi | reflexivity].
  - simpl. split; [discriminate | congruence].
  - split; [congruence | congruence].
Qed.

Lemma select_active_nil : forall s id,
  select_by_id s true id = [] <->
  forall q, In q (productos s) -> p_id q = id -> estado_activo (p_estado q) = false.
Proof.
  intros s id. unfold select_by_id. rewrite filter_nil_iff. simpl.
  split; intros H q Hq.
  - intros Hid. specialize (H q Hq). rewrite Hid, Z.eqb_refl in H. exact H.
  - destruct (Z.eqb (p_id q) id) eqn:E; [| reflexivity].
    apply Z.eqb_eq in E. simpl. apply H; assumption.
Qed.

Lemma select_any_nil : forall s id,
  select_by_id s false id = [] <-> forall q, In q (productos s) -> p_id q <> id.
Proof.
  intros s id. unfold select_by_id. rewrite filter_nil_iff. simpl.
  split; intros H q Hq.
  - intros Hid. specialize (H q Hq). rewrite Hid, Z.eqb_refl in H. discriminate.
  - rewrite andb_true_r. apply Z.eqb_neq, H, Hq.
Qed.

(** C6 (amended): a get-by-id route answers 404 exactly when the id is a
    valid INTEGER and no product matches: for the public get-by-id of
    part_000 and part_001, no product with that id is active ([LOWER(estado)
    = 'activo']); for the public get-by-id of server.js, like every admin
    get-by-id, no product has that id, so it returns inactive products. An
    id outside the INTEGER range (e.g. 2147483648) is refused by PostgreSQL
    and every one of these routes answers 500 instead. *)
Theorem get_product_by_id_404 : forall rt id s,
  (status (fst (run (p000_get_producto rt id) s)) = 404 <->
     int4_ok id = true /\
     forall q, In q (productos s) -> p_id q = id -> estado_activo (p_estado q) = false) /\
  (status (fst (run (p001_get_product rt id) s)) = 404 <->
     int4_ok id = true /\
     forall q, In q (productos s) -> p_id q = id -> estado_activo (p_estado q) = false) /\
  (status (fst (run (server_get_producto rt id) s)) = 404 <->
     int4_ok id = true /\ forall q, In q (productos s) -> p_id q <> id) /\
  (status (fst (run (server_admin_get_producto rt id) s)) = 404 <->
     int4_ok id = true /\ forall q, In q (productos s) -> p_id q <> id) /\
  (status (fst (run (p000_admin_get_producto rt id) s)) = 404 <->
     int4_ok id = true /\ forall q, In q (productos s) -> p_id q <> id) /\
  (status (fst (run (p001_admin_get_product rt id) s)) = 404 <->
     int4_ok id = true /\ forall q, In q (productos s) -> p_id q <> id) /\
  (status (fst (run (p000_get_producto rt id) s)) = 500 <-> int4_ok id = false) /\
  (status (fst (run (p001_get_product rt id) s)) = 500 <-> int4_ok id = false) /\
  (status (fst (run (server_get_producto rt id) s)) = 500 <-> int4_ok id = false) /\
  (status (fst (run (server_admin_get_producto rt id) s)) = 500 <-> int4_ok id = false) /\
  (status (fst (run (p000_admin_get_producto rt id) s)) = 500 <-> int4_ok id = false) /\
  (status (fst (run (p001_admin_get_product rt id) s)) = 500 <-> int4_ok id = false).
Proof.
  intros rt id s.
  unfold p000_get_producto, p001_get_product, server_get_producto, server_admin_get_producto,
    p000_admin_get_producto, p001_admin_get_product.
  rewrite !get_by_id_status_404, !get_by_id_status_500, select_active_nil, select_any_nil.
  repeat split; tauto.
Qed.

(** C6 counterexample: server.js's public [GET /api/productos/1] returns the
    inactive product 1 with 200 (part_001's answers 404); and for the id
    2147483648, which no product has, every get-by-id route answers 500, not
    404. *)
Lemma server_get_producto_inactive_counterexample :
  p_estado Demo.producto_inactivo = SStr "INACTIVO" /\
  estado_activo (p_estado Demo.producto_inactivo) = false /\
  status (fst (run (server_get_producto Demo.rt_demo 1) Demo.db_demo)) = 200 /\
  status (fst (run (p001_get_product Demo.rt_demo 1) Demo.db_demo)) = 404 /\
  map p_id (productos Demo.db_demo) = [1] /\
  status (fst (run (server_get_producto Demo.rt_demo 2147483648) Demo.db_demo)) = 500 /\
  status (fst (run (p000_get_producto Demo.rt_demo 2147483648) Demo.db_demo)) = 500 /\
  status (fst (run (p001_get_product Demo.rt_demo 2147483648) Demo.db_demo)) = 500 /\
  status (fst (run (server_admin_get_producto Demo.rt_demo 2147483648) Demo.db_demo)) = 500 /\
  status (fst (run (p000_admin_get_producto Demo.rt_demo 2147483648) Demo.db_demo)) = 500 /\
  status (fst (run (p001_admin_get_product Demo.rt_demo 2147483648) Demo.db_demo)) = 500.
Proof. vm_compute. repeat split. Qed.
End LookupProofs.

Module DashboardProofs.
Import Dashboard Productos ProductUpdate Ventas Admin.





End DashboardProofs.

Module SalesListProofs.
Import ProductUpdate Ventas.

(** part_001's admin sales list reads only [limit]: any other query field,
    a status filter included, leaves it unchanged; it returns the first
    [limit] sales by creation time, newest first. *)
Lemma list_sales_ignores_status : forall rt q s,
  run (list_sales rt q) s = run (list_sales rt [("limit", prop q "limit")]) s /\
  (forall n, limit_of (parseInt rt (match prop q "limit" with JUndef => JNum (Num 50) | v => v end))
               = Some n ->
   run (list_sales rt q) s =
     ({| status := 200;
         body := [("success", JBool true);
                  ("data", JArr (map (venta_json rt keys_en) (firstn n (sort_desc (ventas s)))));
                  ("count", JNum (Num (inject_Z (Z.of_nat
                                   (length (firstn n (sort_desc (ventas s))))))))] |}, s) /\
   (length (firstn n (sort_desc (ventas s))) <= n)%nat).
Proof.
  intros rt q s. split.
  - unfold run, list_sales. simpl. destruct (prop q "limit"); reflexivity.
  - intros n Hn. split.
    + unfold run, list_sales, try_catch, bind, lift_opt, get_db, ret. rewrite Hn. reflexivity.
    + rewrite length_firstn. lia.
Qed.

(** part_000's admin sales list with a status filter sends
    [AND estado = 1] (no [$]) with two parameters, which PostgreSQL refuses. *)
Lemma admin_ventas_filtered_fails : forall rt q s,
  truthy (prop q "estado") && negb (match prop q "estado" with JStr "all" => true | _ => false end)
    = true ->
  run (admin_ventas rt q) s = (fail_500 es "Error obteniendo ventas" (rt_pg_message rt EBind), s).
Proof.
  intros rt q s H. unfold run, admin_ventas, try_catch, bind, raise. cbv zeta.
  unfold consulta_ventas. rewrite H. reflexivity.
Qed.

(** C9: no admin sales list honours a status filter: in part_000 every
    request with a filter other than "all" fails with 500, and in part_001 a
    [status=pending] request also returns the "paid" sale. *)
Theorem admin_sales_status_filter :
  (forall rt q s,
     truthy (prop q "estado") && negb (match prop q "estado" with JStr "all" => true | _ => false end)
       = true ->
     run (admin_ventas rt q) s = (fail_500 es "Error obteniendo ventas" (rt_pg_message rt EBind), s)) /\
  run (list_sales Demo.rt_demo [("status", JStr "pending")]) Demo.db_demo
    = ({| status := 200;
          body := [("success", JBool true);
                   ("data", JArr (map (venta_json Demo.rt_demo keys_en)
                                      [Demo.venta_pagada; Demo.venta_pendiente]));
                   ("count", JNum (Num (inject_Z 2)))] |}, Demo.db_demo) /\
  v_estado Demo.venta_pagada = SStr "paid".
Proof.
  split; [exact admin_ventas_filtered_fails |].
  split; [vm_compute; reflexivity | reflexivity].
Qed.

Lemma admin_sales_status_filter_witness :
  run (admin_ventas Demo.rt_demo [("estado", JStr "pendiente")]) Demo.db_demo
    = (fail_500 es "Error obteniendo ventas" "db error", Demo.db_demo).
Proof. apply (proj1 admin_sales_status_filter). reflexivity. Defined.
End SalesListProofs.

Module DeleteProofs.
Import Productos ProductUpdate Admin.

Lemma filter_negb_nil : forall {A} (f : A -> bool) l,
  filter f l = [] -> filter (fun x => negb (f x)) l = l.
Proof.
  intros A f l; induction l as [| x t IH]; simpl; [reflexivity |].
  destruct (f x); simpl; [discriminate | intros H; f_equal; apply IH, H].
Qed.

Lemma delete_productos_run : forall id s,
  int4_ok id = true ->
  delete_productos id s =
  (inr (filter (fun q => Z.eqb (p_id q) id) (productos s)),
   set_productos s (filter (fun q => negb (Z.eqb (p_id q) id)) (productos s)) (seq_productos s)).
Proof. intros id s H. unfold delete_productos, bind_id. rewrite H. reflexivity. Qed.

(** X1: The three product deletions (server.js, part_000, part_001) answer 500 and change nothing when PostgreSQL refuses the id as an INTEGER; otherwise they remove exactly the rows with the requested id and keep the sequence; with no such row they answer 404 and change nothing, otherwise they answer their success message (part_001 echoes the deleted row). *)
Theorem delete_producto_routes : forall rt id s,
  let hit := filter (fun q => Z.eqb (p_id q) id) (productos s) in
  let s' := set_productos s (filter (fun q => negb (Z.eqb (p_id q) id)) (productos s))
                          (seq_productos s) in
  (int4_ok id = false ->
   run (eliminar_producto rt id) s
     = (fail_500 es "Error eliminando producto" (rt_pg_message rt EInvalidInput), s) /\
   run (p000_eliminar_producto rt id) s
     = (fail_500 es "Error eliminando producto" (rt_pg_message rt EInvalidInput), s) /\
   run (delete_product rt id) s
     = (fail_500 en "Error eliminando producto" (rt_pg_message rt EInvalidInput), s)) /\
  (int4_ok id = true ->
   (hit = [] -> s' = s) /\
   run (eliminar_producto rt id) s =
     (match hit with
      | [] => fail_msg es 404 "Producto no encontrado"
      | _ => ok_msg es "Producto eliminado exitosamente"
      end, s') /\
   run (p000_eliminar_producto rt id) s =
     (match hit with
      | [] => fail_msg es 404 "Producto no encontrado"
      | _ => ok_msg es "Producto eliminado"
      end, s') /\
   run (delete_product rt id) s =
     (match hit with
      | [] => fail_msg en 404 "Producto no encontrado"
      | r :: _ => ok_data en 200 (Some "Producto eliminado") (row_json rt cols_en r)
      end, s')).
Proof.
  intros rt id s hit s'. split.
  - intros Hi.
    unfold run, eliminar_producto, p000_eliminar_producto, delete_product, delete_productos,
      try_catch, bind, bind_id, raise.
    rewrite Hi. repeat split.
  - intros Hi. split.
    + intros H. unfold s'. rewrite (filter_negb_nil _ _ H). destruct s; reflexivity.
    + unfold run, eliminar_producto, p000_eliminar_producto, delete_product, try_catch, bind.
      rewrite (delete_productos_run id s Hi). fold hit. fold s'.
      destruct hit; repeat split.
Qed.

Lemma delete_producto_routes_witness :
  status (fst (run (eliminar_producto Demo.rt_demo 1) Demo.db_demo)) = 200 /\
  run (delete_product Demo.rt_demo 1) Demo.db_demo
    = (ok_data en 200 (Some "Producto eliminado") (row_json Demo.rt_demo cols_en Demo.producto_inactivo),
       set_productos Demo.db_demo [] 1).
Proof.
  pose proof (delete_producto_routes Demo.rt_demo 1 Demo.db_demo) as H.
  cbv zeta in H. destruct H as [_ H]. destruct (H eq_refl) as (_ & H1 & _ & H3). split.
  - rewrite H1. reflexivity.
  - rewrite H3. reflexivity.
Defined.

End DeleteProofs.

Module RoundTripProofs.
Import Productos ProductUpdate Admin.

Lemma insert_producto_inr : forall rt now ps s row s',
  insert_producto rt now ps s = (inr row, s') ->
  p_id row = seq_productos s + 1 /\ int4_ok (seq_productos s + 1) = true /\
  s' = set_productos s (productos s ++ [row]) (seq_productos s + 1).
Proof.
  intros rt now ps s row s' H.
  unfold insert_producto, bind, lift_opt, ret, raise, get_db, put_db in H.
  destruct (coerce_list rt insert_tys ps) as [vs |]; [| discriminate].
  destruct vs as [| n [| c [| sc [| pr [| inv [| d [| img [| st [| es' [| de [| ? ?]]]]]]]]]]];
    try discriminate.
  destruct (int4_ok (seq_productos s + 1)) eqn:Hi; [| discriminate].
  cbn [negb fst snd] in H.
  destruct (is_null n || is_null pr); [discriminate |].
  destruct (negb _); [discriminate |].
  injection H as <- <-. split; [reflexivity | split; reflexivity].
Qed.

Lemma crear_producto_201 : forall rt now b s r s',
  run (crear_producto rt now b) s = (r, s') -> status r = 201 ->
  exists row, r = ok_data es 201 (Some "Producto creado exitosamente") (row_json rt cols_es row) /\
    p_id row = seq_productos s + 1 /\ int4_ok (seq_productos s + 1) = true /\
    s' = set_productos s (productos s ++ [row]) (seq_productos s + 1).
Proof.
  intros rt now b s r s' H Hs.
  unfold run, crear_producto, try_catch, bind, ret in H.
  destruct (_ || _); [injection H as <- _; discriminate |].
  destruct (insert_producto _ _ _ s) as [[e | row] s1] eqn:Hi.
  - injection H as <- _. discriminate.
  - injection H as <- <-. apply insert_producto_inr in Hi as (Hid & Hint & Hs1).
    exists row. auto.
Qed.

Lemma filter_app_last_miss : forall (f : producto -> bool) l row,
  Forall (fun q => f q = false) l -> f row = true ->
  filter f (l ++ [row]) = [row].
Proof.
  intros f l row Hl Hr. rewrite filter_app. simpl. rewrite Hr.
  replace (filter f l) with (@nil producto); [reflexivity |].
  symmetry. apply LookupProofs.filter_nil_iff. intros x Hx. rewrite Forall_forall in Hl. apply Hl, Hx.
Qed.

(** X2: After a server.js product creation that answers 201, the admin lookup of the new id (the advanced sequence value) answers 200 with the created row, provided no stored row already had that id. *)
Theorem crear_obtener_producto : forall rt now b s r s',
  run (crear_producto rt now b) s = (r, s') -> status r = 201 ->
  Forall (fun q => p_id q <> seq_productos s + 1) (productos s) ->
  exists row,
    r = ok_data es 201 (Some "Producto creado exitosamente") (row_json rt cols_es row) /\
    run (server_admin_get_producto rt (seq_productos s + 1)) s'
      = (ok_data es 200 None
           (joined_json rt cols_es "nombre_categoria" "nombre_subcategoria" s' row), s').
Proof.
  intros rt now b s r s' H Hs Hfresh.
  destruct (crear_producto_201 _ _ _ _ _ _ H Hs) as (row & Hr & Hid & Hint & Hs').
  exists row. split; [exact Hr |].
  unfold run, server_admin_get_producto, get_by_id, try_catch, bind_id, bind, get_db, ret.
  rewrite Hint. unfold select_by_id. rewrite Hs'. cbn [productos set_productos].
  rewrite (filter_app_last_miss _ (productos s) row).
  - rewrite <- Hs'. reflexivity.
  - rewrite Forall_forall in *. intros q Hq. simpl. rewrite andb_true_r.
    apply Z.eqb_neq, Hfresh, Hq.
  - simpl. rewrite Hid, Z.eqb_refl. reflexivity.
Qed.

(** X3: Creating a product in server.js and deleting it by its new id gives back the original rows; only the id sequence has advanced. *)
Theorem crear_eliminar_producto : forall rt now b s r s',
  run (crear_producto rt now b) s = (r, s') -> status r = 201 ->
  Forall (fun q => p_id q <> seq_productos s + 1) (productos s) ->
  run (eliminar_producto rt (seq_productos s + 1)) s'
    = (ok_msg es "Producto eliminado exitosamente",
       set_productos s (productos s) (seq_productos s + 1)).
Proof.
  intros rt now b s r s' H Hs Hfresh.
  destruct (crear_producto_201 _ _ _ _ _ _ H Hs) as (row & Hr & Hid & Hint & Hs').
  unfold run, eliminar_producto, delete_productos, try_catch, bind_id, bind, get_db, put_db, ret.
  rewrite Hint, Hs'. cbn [productos set_productos seq_productos].
  rewrite (filter_app_last_miss _ (productos s) row).
  - rewrite filter_app. simpl. rewrite Hid, Z.eqb_refl. simpl. rewrite app_nil_r.
    replace (filter _ (productos s)) with (productos s); [reflexivity |].
    symmetry. apply forallb_filter_id. apply forallb_forall.
    rewrite Forall_forall in Hfresh. intros q Hq.
    apply negb_true_iff, Z.eqb_neq, Hfresh, Hq.
  - rewrite Forall_forall in *. intros q Hq. apply Z.eqb_neq, Hfresh, Hq.
  - rewrite Hid. apply Z.eqb_refl.
Qed.

Lemma crear_obtener_producto_witness :
  status (fst (run (crear_producto Demo.rt_demo 9 Demo2.gorra) Demo.db_demo)) = 201 /\
  Forall (fun q => p_id q <> seq_productos Demo.db_demo + 1) (productos Demo.db_demo) /\
  exists row,
    fst (run (crear_producto Demo.rt_demo 9 Demo2.gorra) Demo.db_demo)
      = ok_data es 201 (Some "Producto creado exitosamente") (row_json Demo.rt_demo cols_es row) /\
    run (server_admin_get_producto Demo.rt_demo 2) (snd (run (crear_producto Demo.rt_demo 9 Demo2.gorra) Demo.db_demo))
      = (ok_data es 200 None
           (joined_json Demo.rt_demo cols_es "nombre_categoria" "nombre_subcategoria"
              (snd (run (crear_producto Demo.rt_demo 9 Demo2.gorra) Demo.db_demo)) row),
         snd (run (crear_producto Demo.rt_demo 9 Demo2.gorra) Demo.db_demo)).
Proof.
  assert (H201 : status (fst (run (crear_producto Demo.rt_demo 9 Demo2.gorra) Demo.db_demo)) = 201)
    by (vm_compute; reflexivity).
  assert (Hf : Forall (fun q => p_id q <> seq_productos Demo.db_demo + 1) (productos Demo.db_demo))
    by (constructor; [simpl; lia | constructor]).
  split; [exact H201 |]. split; [exact Hf |].
  exact (crear_obtener_producto Demo.rt_demo 9 Demo2.gorra Demo.db_demo _ _
           (surjective_pairing _) H201 Hf).
Defined.

Lemma crear_eliminar_producto_witness :
  run (eliminar_producto Demo.rt_demo 2) (snd (run (crear_producto Demo.rt_demo 9 Demo2.gorra) Demo.db_demo))
    = (ok_msg es "Producto eliminado exitosamente",
       set_productos Demo.db_demo (productos Demo.db_demo) 2).
Proof.
  apply (crear_eliminar_producto Demo.rt_demo 9 Demo2.gorra Demo.db_demo _ _
           (surjective_pairing _)).
  - vm_compute. reflexivity.
  - constructor; [simpl; lia | constructor].
Defined.

End RoundTripProofs.

Module ClienteAdminProofs.
Import Clientes Admin AdminSpec.

Lemma filter_negb_nil_c : forall (f : cliente -> bool) l,
  filter f l = [] -> filter (fun x => negb (f x)) l = l.
Proof.
  intros f l; induction l as [| x t IH]; simpl; [reflexivity |].
  destruct (f x); simpl; [discriminate | intros H; f_equal; apply IH, H].
Qed.

Lemma select_cliente_filter_neq : forall l id j,
  j <> id ->
  filter (fun q => Z.eqb (c_id q) j) (filter (fun q => negb (Z.eqb (c_id q) id)) l)
  = filter (fun q => Z.eqb (c_id q) j) l.
Proof.
  intros l id j Hj. induction l as [| q t IH]; simpl; [reflexivity |].
  destruct (Z.eqb (c_id q) id) eqn:E1; simpl.
  - apply Z.eqb_eq in E1. destruct (Z.eqb (c_id q) j) eqn:E2.
    + apply Z.eqb_eq in E2. congruence.
    + exact IH.
  - destruct (Z.eqb (c_id q) j); [f_equal |]; exact IH.
Qed.

Lemma select_cliente_filter_eq : forall l id,
  filter (fun q => Z.eqb (c_id q) id) (filter (fun q => negb (Z.eqb (c_id q) id)) l) = [].
Proof.
  intros l id. induction l as [| q t IH]; simpl; [reflexivity |].
  destruct (Z.eqb (c_id q) id) eqn:E; simpl; [exact IH |]. rewrite E. exact IH.
Qed.

Lemma run_eliminar_cliente : forall rt id s,
  int4_ok id = true ->
  run (eliminar_cliente rt id) s =
  (match select_cliente s id with
   | [] => fail_msg es 404 "Cliente no encontrado"
   | _ => ok_msg es "Cliente eliminado exitosamente"
   end,
   set_clientes s (filter (fun q => negb (Z.eqb (c_id q) id)) (clientes s)) (seq_clientes s)).
Proof.
  intros rt id s Hi.
  unfold run, eliminar_cliente, delete_clientes, try_catch, bind_id, bind, get_db, put_db, ret.
  rewrite Hi. destruct (select_cliente s id); reflexivity.
Qed.

Lemma run_eliminar_cliente_fail : forall rt id s,
  int4_ok id = false ->
  run (eliminar_cliente rt id) s
    = (fail_500 es "Error eliminando cliente" (rt_pg_message rt EInvalidInput), s).
Proof.
  intros rt id s Hi.
  unfold run, eliminar_cliente, delete_clientes, try_catch, bind_id, bind, raise.
  rewrite Hi. reflexivity.
Qed.

(** X4: Server.js's customer deletion answers 500 and changes nothing when PostgreSQL refuses the id as an INTEGER; otherwise it removes exactly the rows with that id (404 and no change when there is none), after which the lookup of that id answers 404, while rows with other ids stay as they were. *)
Theorem eliminar_cliente_effect : forall rt id s,
  let '(r, s') := run (eliminar_cliente rt id) s in
  (int4_ok id = false ->
   r = fail_500 es "Error eliminando cliente" (rt_pg_message rt EInvalidInput) /\ s' = s) /\
  (int4_ok id = true ->
   r = match select_cliente s id with
       | [] => fail_msg es 404 "Cliente no encontrado"
       | _ => ok_msg es "Cliente eliminado exitosamente"
       end /\
   s' = set_clientes s (filter (fun q => negb (Z.eqb (c_id q) id)) (clientes s)) (seq_clientes s) /\
   (select_cliente s id = [] -> s' = s) /\
   run (obtener_cliente rt id) s' = (fail_msg es 404 "Cliente no encontrado", s') /\
   (forall j, j <> id -> select_cliente s' j = select_cliente s j)).
Proof.
  intros rt id s. destruct (int4_ok id) eqn:Hi.
  - rewrite (run_eliminar_cliente rt id s Hi). split; [discriminate | intros _].
    split; [reflexivity |]. split; [reflexivity |]. split.
    + intros H. unfold select_cliente in H. rewrite (filter_negb_nil_c _ _ H). destruct s; reflexivity.
    + split.
      * unfold run, obtener_cliente, try_catch, bind_id, bind, get_db, ret, select_cliente.
        rewrite Hi. cbv beta iota. cbn [clientes set_clientes].
        rewrite select_cliente_filter_eq. reflexivity.
      * intros j Hj. unfold select_cliente. cbn [clientes set_clientes].
        apply select_cliente_filter_neq, Hj.
  - rewrite (run_eliminar_cliente_fail rt id s Hi). split; [auto | discriminate].
Qed.

(** X5: Server.js's customer lookup never writes; it answers 500 when PostgreSQL refuses the id as an INTEGER, 404 when no row has the id, and otherwise 200 with the twelve public fields of a row with that id, never its password hash. *)
Theorem obtener_cliente_reply : forall rt id s,
  let '(r, s') := run (obtener_cliente rt id) s in
  s' = s /\
  ((int4_ok id = false /\
    r = fail_500 es "Error obteniendo cliente" (rt_pg_message rt EInvalidInput)) \/
   (int4_ok id = true /\ select_cliente s id = [] /\ r = fail_msg es 404 "Cliente no encontrado") \/
   (int4_ok id = true /\
    exists q, In q (clientes s) /\ c_id q = id /\
      r = ok_data es 200 None (datos_cliente rt q) /\
      keys (datos_cliente rt q)
        = ["id"; "usuario"; "nombre"; "correo"; "telefono"; "direccion"; "ciudad"; "pais";
           "activo"; "rol"; "fecha_creacion"; "ultima_sesion"] /\
      ~ In "contrasena_hash" (keys (datos_cliente rt q)))).
Proof.
  intros rt id s.
  unfold run, obtener_cliente, try_catch, bind_id, bind, get_db, ret, raise.
  destruct (int4_ok id) eqn:Hi; [| split; [reflexivity | left; auto]].
  destruct (select_cliente s id) as [| q t] eqn:E.
  - split; [reflexivity |]. right. left. auto.
  - split; [reflexivity |]. right. right. split; [reflexivity |]. exists q.
    assert (Hq : In q (select_cliente s id)) by (rewrite E; left; reflexivity).
    unfold select_cliente in Hq. apply filter_In in Hq as [Hin Hid].
    apply Z.eqb_eq in Hid.
    repeat split; try assumption.
    simpl. intuition discriminate.
Qed.

Lemma eliminar_cliente_effect_witness :
  fst (run (eliminar_cliente Demo.rt_demo 1) Demo.db_demo) = ok_msg es "Cliente eliminado exitosamente" /\
  run (obtener_cliente Demo.rt_demo 1) (snd (run (eliminar_cliente Demo.rt_demo 1) Demo.db_demo))
    = (fail_msg es 404 "Cliente no encontrado",
       snd (run (eliminar_cliente Demo.rt_demo 1) Demo.db_demo)) /\
  run (eliminar_cliente Demo.rt_demo 2147483648) Demo.db_demo
    = (fail_500 es "Error eliminando cliente" "db error", Demo.db_demo).
Proof.
  split; [vm_compute; reflexivity |]. split.
  - pose proof (eliminar_cliente_effect Demo.rt_demo 1 Demo.db_demo) as H.
    destruct (run (eliminar_cliente Demo.rt_demo 1) Demo.db_demo) as [r s'].
    destruct H as [_ H]. destruct (H eq_refl) as (_ & _ & _ & H4 & _). exact H4.
  - pose proof (eliminar_cliente_effect Demo.rt_demo 2147483648 Demo.db_demo) as H.
    destruct (run (eliminar_cliente Demo.rt_demo 2147483648) Demo.db_demo) as [r s'].
    destruct H as [H _]. destruct (H eq_refl) as [-> ->]. reflexivity.
Defined.

Lemma obtener_cliente_reply_witness :
  status (fst (run (obtener_cliente Demo.rt_demo 1) Demo.db_demo)) = 200 /\
  ~ In "contrasena_hash" (keys (datos_cliente Demo.rt_demo Demo.cliente_ana)).
Proof.
  pose proof (obtener_cliente_reply Demo.rt_demo 1 Demo.db_demo) as H.
  destruct (run (obtener_cliente Demo.rt_demo 1) Demo.db_demo) as [r s'].
  destruct H as [_ [[Hi _] | [(_ & Hn & _) | (_ & q & Hin & _ & Hr & _ & Hk)]]].
  - discriminate.
  - vm_compute in Hn. discriminate.
  - simpl in Hin. destruct Hin as [<- | []]. rewrite Hr. split; [reflexivity | exact Hk].
Defined.

End ClienteAdminProofs.

Module QueryProofs.
Import ProductUpdate Admin AdminSpec.

(** X10: Every query text built by server.js's product list, admin product list (when it does not throw) and customer list refers to exactly the placeholders $1..$n of the values it binds, for every query string. *)
Theorem server_list_queries_bind : forall rt q,
  bind_ok (fst (consulta_productos rt q)) (length (snd (consulta_productos rt q))) = true /\
  bind_ok (fst (consulta_clientes rt q)) (length (snd (consulta_clientes rt q))) = true /\
  match consulta_productos_admin rt q with
  | inr (text, ps) => bind_ok text (length ps) = true
  | inl _ => True
  end.
Proof.
  intros rt q. split; [| split].
  - unfold consulta_productos. cbv zeta.
    destruct (truthy (prop q "categoria_id")), (is_str (prop q "destacado") "true"),
      (truthy (prop q "buscar")); vm_compute; reflexivity.
  - unfold consulta_clientes. cbv zeta.
    destruct (negb (is_undef (prop q "activo"))), (truthy (prop q "buscar"));
      vm_compute; reflexivity.
  - unfold consulta_productos_admin. cbv zeta.
    destruct (truthy (prop q "categoria_id") && negb (is_str (prop q "categoria_id") "all")),
      (truthy (prop q "buscar"));
    (destruct (truthy (prop q "estado") && negb (is_str (prop q "estado") "all"));
     [destruct (prop q "estado"); try exact I;
      destruct (String.eqb _ "active"); [| destruct (String.eqb _ "inactive")] |]);
    vm_compute; reflexivity.
Qed.

(** X11: Every query text built by part_000's product list and admin product list refers to exactly the placeholders $1..$n of the values it binds, for every query string. *)
Theorem p000_list_queries_bind : forall rt q,
  bind_ok (fst (p000_consulta_productos rt q)) (length (snd (p000_consulta_productos rt q))) = true /\
  bind_ok (fst (p000_consulta_productos_admin rt q))
          (length (snd (p000_consulta_productos_admin rt q))) = true.
Proof.
  intros rt q. split.
  - unfold p000_consulta_productos. cbv zeta.
    destruct (truthy (prop q "categoria_id")), (truthy (prop q "buscar"));
      vm_compute; reflexivity.
  - unfold p000_consulta_productos_admin. cbv zeta.
    destruct (truthy (prop q "categoria_id") && negb (is_str (prop q "categoria_id") "all")),
      (truthy (prop q "estado") && negb (is_str (prop q "estado") "all")),
      (truthy (prop q "buscar")); vm_compute; reflexivity.
Qed.

End QueryProofs.

Module ClienteUpdateProofs.
Import Clientes Ventas Admin AdminSpec.

Lemma coerce_list_nth : forall rt tys ps vs,
  coerce_list rt tys ps = Some vs ->
  forall i, (i < length ps)%nat ->
  pg_coerce rt (nth i tys TText) (nth i ps SNull) = Some (nth i vs SNull).
Proof.
  induction tys as [| t ts IH]; intros [| p ps] vs H; simpl in H; try discriminate.
  - intros i Hi. simpl in Hi. lia.
  - destruct (pg_coerce rt t p) eqn:E1; [| discriminate].
    destruct (coerce_list rt ts ps) eqn:E2; [| discriminate].
    injection H as <-. intros [| i] Hi; simpl; [exact E1 |].
    apply IH; [exact E2 | simpl in Hi; lia].
Qed.

Lemma map_opt_nil : forall {A B} (f : A -> option B) l,
  map_opt f l = Some [] -> l = [].
Proof.
  intros A B f [| x t] H; [reflexivity |]. simpl in H.
  destruct (f x), (map_opt f t); discriminate.
Qed.

Lemma map_opt_in : forall {A B} (f : A -> option B) l l',
  map_opt f l = Some l' -> forall y, In y l' -> exists x, In x l /\ f x = Some y.
Proof.
  intros A B f l. induction l as [| x t IH]; intros l' H y Hy; simpl in H.
  - injection H as <-. destruct Hy.
  - destruct (f x) eqn:E1; [| discriminate]. destruct (map_opt f t) eqn:E2; [| discriminate].
    injection H as <-. destruct Hy as [<- | Hy].
    + exists x. split; [left; reflexivity | exact E1].
    + destruct (IH _ eq_refl y Hy) as (x' & ? & ?). exists x'. split; [right |]; assumption.
Qed.

Lemma map_opt_all : forall {A B} (f : A -> option B) l l',
  map_opt f l = Some l' -> forall x, In x l -> exists y, f x = Some y /\ In y l'.
Proof.
  intros A B f l. induction l as [| x t IH]; intros l' H z Hz; simpl in H.
  - destruct Hz.
  - destruct (f x) eqn:E1; [| discriminate]. destruct (map_opt f t) eqn:E2; [| discriminate].
    injection H as <-. destruct Hz as [<- | Hz].
    + exists b. split; [exact E1 | left; reflexivity].
    + destruct (IH _ eq_refl z Hz) as (y & ? & ?). exists y. split; [| right]; assumption.
Qed.

Lemma map_id_when_absent : forall (f : cliente -> cliente) l id,
  filter (fun q => Z.eqb (c_id q) id) l = [] ->
  map (fun q => if Z.eqb (c_id q) id then f q else q) l = l.
Proof.
  intros f l id. induction l as [| q t IH]; simpl; [reflexivity |].
  destruct (Z.eqb (c_id q) id); [discriminate |]. intros H. f_equal. apply IH, H.
Qed.

Lemma update_clientes_cases : forall rt id ps s,
  match update_clientes rt id ps s with
  | (inl _, s') => s' = s
  | (inr hit, s') =>
      exists vs, coerce_list rt cliente_tys ps = Some vs /\
        map_opt (upd_cliente rt vs) (select_cliente s id) = Some hit /\
        existsb (fun r => existsb (fun q => negb (Z.eqb (c_id q) id)
                                            && sql_str_eq (c_correo r) (c_correo q))
                                  (clientes s)) hit = false /\
        s' = set_clientes s
               (map (fun q => if Z.eqb (c_id q) id
                              then match upd_cliente rt vs q with Some q' => q' | None => q end
                              else q) (clientes s)) (seq_clientes s)
  end.
Proof.
  intros rt id ps s. unfold update_clientes, bind_id, bind, lift_opt, ret, raise, get_db, put_db.
  destruct (int4_ok id); [| reflexivity].
  destruct (coerce_list rt _ ps) as [vs |] eqn:Hc; [| reflexivity].
  destruct (map_opt (upd_cliente rt vs) (select_cliente s id)) as [hit |] eqn:Hm; [| reflexivity].
  destruct (existsb _ hit) eqn:Hx; [reflexivity |].
  exists vs. repeat split; assumption.
Qed.

Lemma coalesce_null : forall rt ty old v, coalesce rt ty SNull old = Some v -> v = old.
Proof. intros rt ty old v H. simpl in H. congruence. Qed.

Lemma upd_cliente_frame : forall rt vs q q',
  upd_cliente rt vs q = Some q' ->
  c_id q' = c_id q /\ c_usuario q' = c_usuario q /\
  c_contrasena_hash q' = c_contrasena_hash q /\ c_rol q' = c_rol q /\
  c_fecha_creacion q' = c_fecha_creacion q /\ c_ultima_sesion q' = c_ultima_sesion q /\
  (nth 0 vs SNull = SNull -> c_nombre q' = c_nombre q) /\
  (nth 1 vs SNull = SNull -> c_correo q' = c_correo q) /\
  (nth 2 vs SNull = SNull -> c_telefono q' = c_telefono q) /\
  (nth 3 vs SNull = SNull -> c_direccion q' = c_direccion q) /\
  (nth 4 vs SNull = SNull -> c_ciudad q' = c_ciudad q) /\
  (nth 5 vs SNull = SNull -> c_pais q' = c_pais q) /\
  (nth 6 vs SNull = SNull -> c_activo q' = c_activo q) /\
  (forall a, nth 6 vs SNull = SBool a -> c_activo q' = a) /\
  (forall y, nth 1 vs SNull = SStr y -> (char_length y <= 255)%nat -> c_correo q' = SStr y).
Proof.
  intros rt vs q q' H. unfold upd_cliente in H.
  destruct vs as [| n [| c [| t [| d [| ci [| pa [| ac [| ? ?]]]]]]]]; try discriminate.
  destruct (coalesce rt (TVarchar 255) n (c_nombre q)) as [n' |] eqn:E1; [| discriminate].
  destruct (coalesce rt (TVarchar 255) c (c_correo q)) as [c' |] eqn:E2; [| discriminate].
  destruct (coalesce rt (TVarchar 20) t (c_telefono q)) as [t' |] eqn:E3; [| discriminate].
  destruct (coalesce rt TText d (c_direccion q)) as [d' |] eqn:E4; [| discriminate].
  destruct (coalesce rt (TVarchar 100) ci (c_ciudad q)) as [ci' |] eqn:E5; [| discriminate].
  destruct (coalesce rt (TVarchar 100) pa (c_pais q)) as [pa' |] eqn:E6; [| discriminate].
  assert (Hq' : q' = {| c_id := c_id q; c_usuario := c_usuario q;
                  c_contrasena_hash := c_contrasena_hash q;
                  c_nombre := n'; c_correo := c'; c_telefono := t'; c_direccion := d';
                  c_ciudad := ci'; c_pais := pa';
                  c_activo := match ac with SBool a => a | _ => c_activo q end;
                  c_rol := c_rol q; c_fecha_creacion := c_fecha_creacion q;
                  c_ultima_sesion := c_ultima_sesion q |})
    by (destruct ac; congruence).
  subst q'. simpl.
  repeat split; intros; subst;
    try (eapply coalesce_null; eassumption); try reflexivity.
  - simpl in E2. rewrite DriverProofs.varchar_fit_short in E2 by assumption. simpl in E2.
    congruence.
Qed.

Lemma run_actualizar_cliente : forall rt id b s,
  run (actualizar_cliente rt id b) s =
  match update_clientes rt id (cliente_params b) s with
  | (inl e, s') => (fail_500 es "Error actualizando cliente" (exn_message rt e), s')
  | (inr [], s') => (fail_msg es 404 "Cliente no encontrado", s')
  | (inr (r :: _), s') => (ok_data es 200 None (cliente_actualizado rt r), s')
  end.
Proof.
  intros. unfold run, actualizar_cliente, try_catch, bind, ret. fold (cliente_params b).
  destruct (update_clientes rt id (cliente_params b) s) as [[e | [| r t]] s']; reflexivity.
Qed.

(** X6: Server.js's customer update either answers 500 or 404 and changes nothing, or answers 200 and rewrites only the rows with that id: id, usuario, password hash, rol, creation time and last session are kept, every omitted field keeps its stored value (COALESCE), a supplied activo flag is stored as given, and so is a supplied email of at most 255 characters (VARCHAR(255) cuts trailing spaces off a longer one). *)
Theorem actualizar_cliente_frame : forall rt id b s,
  let '(r, s') := run (actualizar_cliente rt id b) s in
  (status r = 500 /\ s' = s) \/
  (r = fail_msg es 404 "Cliente no encontrado" /\ s' = s /\ select_cliente s id = []) \/
  (status r = 200 /\ exists f,
     s' = set_clientes s (map (fun q => if Z.eqb (c_id q) id then f q else q) (clientes s))
                       (seq_clientes s) /\
     forall q, c_id (f q) = c_id q /\ c_usuario (f q) = c_usuario q /\
       c_contrasena_hash (f q) = c_contrasena_hash q /\ c_rol (f q) = c_rol q /\
       c_fecha_creacion (f q) = c_fecha_creacion q /\ c_ultima_sesion (f q) = c_ultima_sesion q /\
       (omitted (prop b "nombre") -> c_nombre (f q) = c_nombre q) /\
       (omitted (prop b "correo") -> c_correo (f q) = c_correo q) /\
       (omitted (prop b "telefono") -> c_telefono (f q) = c_telefono q) /\
       (omitted (prop b "direccion") -> c_direccion (f q) = c_direccion q) /\
       (omitted (prop b "ciudad") -> c_ciudad (f q) = c_ciudad q) /\
       (omitted (prop b "pais") -> c_pais (f q) = c_pais q) /\
       (omitted (prop b "activo") -> c_activo (f q) = c_activo q) /\
       (In q (clientes s) -> c_id q = id ->
          (forall a, prop b "activo" = JBool a -> c_activo (f q) = a) /\
          (forall y, prop b "correo" = JStr y -> (char_length y <= 255)%nat ->
             c_correo (f q) = SStr y))).
Proof.
  intros rt id b s.
  rewrite run_actualizar_cliente. set (ps := cliente_params b).
  pose proof (update_clientes_cases rt id ps s) as Hc.
  destruct (update_clientes rt id ps s) as [[e | hit] s'].
  - left. split; [reflexivity | exact Hc].
  - destruct Hc as (vs & Hvs & Hm & _ & Hs').
    destruct hit as [| r t].
    + right; left. apply map_opt_nil in Hm. split; [reflexivity |]. split; [| exact Hm].
      rewrite Hs'. rewrite map_id_when_absent by exact Hm. destruct s; reflexivity.
    + right; right. split; [reflexivity |].
      exists (fun q => match upd_cliente rt vs q with Some q' => q' | None => q end).
      split; [exact Hs' |].
      assert (Hnull : forall i, nth i ps SNull = SNull -> nth i vs SNull = SNull)
        by (apply (UpdateProofs.coerce_list_nth_null _ _ _ _ Hvs)).
      assert (Homit : forall k i, nth i ps SNull = to_param (prop b k) ->
                 omitted (prop b k) -> nth i vs SNull = SNull).
      { intros k i Hi [Ho | Ho]; apply Hnull; rewrite Hi, Ho; reflexivity. }
      intros q.
      destruct (upd_cliente rt vs q) as [q' |] eqn:Hu.
      * pose proof (upd_cliente_frame _ _ _ _ Hu) as
          (H1 & H2 & H3 & H4 & H5 & H6 & Hn & Hco & Ht & Hd & Hci & Hpa & Hac & Hab & Hcs).
        repeat split; try assumption;
          try (intros Ho; first [apply Hn | apply Hco | apply Ht | apply Hd | apply Hci
                                 | apply Hpa | apply Hac];
               eapply Homit; [| exact Ho]; reflexivity).
        -- intros a Ha. apply Hab.
           pose proof (coerce_list_nth _ _ _ _ Hvs 6 ltac:(simpl; lia)) as E.
           simpl in E. rewrite Ha in E. simpl in E. congruence.
        -- intros y Hy Hl. apply Hcs; [| exact Hl].
           pose proof (coerce_list_nth _ _ _ _ Hvs 1 ltac:(simpl; lia)) as E.
           simpl in E. rewrite Hy in E. simpl in E. congruence.
      * assert (Hno : In q (clientes s) -> c_id q = id -> False).
        { intros Hin Hid.
          assert (Hsel : In q (select_cliente s id))
            by (apply filter_In; split; [exact Hin | apply Z.eqb_eq, Hid]).
          destruct (map_opt_all _ _ _ Hm q Hsel) as (y & Hy & _). congruence. }
        repeat split; try reflexivity; try (intros; reflexivity);
          intros; exfalso; apply Hno; assumption.
Qed.

(** X7: A server.js customer update that gives another customer's email (stored in VARCHAR(255), so at most 255 characters) answers 500 and changes nothing (UNIQUE on correo). *)
Theorem actualizar_cliente_correo_duplicado : forall rt id b s q0 q1 y,
  In q0 (clientes s) -> c_id q0 = id ->
  In q1 (clientes s) -> c_id q1 <> id -> c_correo q1 = SStr y -> (char_length y <= 255)%nat ->
  prop b "correo" = JStr y ->
  let '(r, s') := run (actualizar_cliente rt id b) s in status r = 500 /\ s' = s.
Proof.
  intros rt id b s q0 q1 y H0 Hid0 H1 Hid1 Hc1 Hl Hy.
  rewrite run_actualizar_cliente.
  pose proof (update_clientes_cases rt id (cliente_params b) s) as Hc.
  destruct (update_clientes rt id (cliente_params b) s) as [[e | hit] s'].
  - split; [reflexivity | exact Hc].
  - exfalso. destruct Hc as (vs & Hvs & Hm & Hx & _).
    assert (Hsel : In q0 (select_cliente s id))
      by (apply filter_In; split; [exact H0 | apply Z.eqb_eq, Hid0]).
    destruct (map_opt_all _ _ _ Hm q0 Hsel) as (r0 & Hu & Hr0).
    pose proof (upd_cliente_frame _ _ _ _ Hu) as (_ & _ & _ & _ & _ & _ & _ & _ & _ & _ & _ & _ & _ & _ & Hcs).
    assert (Hv1 : nth 1 vs SNull = SStr y).
    { pose proof (coerce_list_nth _ _ _ _ Hvs 1 ltac:(simpl; lia)) as E.
      simpl in E. unfold cliente_params in E. simpl in E. rewrite Hy in E. simpl in E. congruence. }
    specialize (Hcs y Hv1 Hl).
    assert (Htrue : existsb (fun r => existsb (fun q => negb (Z.eqb (c_id q) id)
                                            && sql_str_eq (c_correo r) (c_correo q))
                                  (clientes s)) hit = true).
    { apply existsb_exists. exists r0. split; [exact Hr0 |].
      apply existsb_exists. exists q1. split; [exact H1 |].
      rewrite Hcs, Hc1. apply Z.eqb_neq in Hid1. rewrite Hid1. simpl. apply String.eqb_refl. }
    congruence.
Qed.

Lemma actualizar_cliente_frame_witness :
  status (fst (run (actualizar_cliente Demo.rt_demo 1 Demo2.telefono_555) Demo.db_demo)) = 200 /\
  map c_nombre (clientes (snd (run (actualizar_cliente Demo.rt_demo 1 Demo2.telefono_555) Demo.db_demo)))
    = [SStr "Ana"].
Proof.
  pose proof (actualizar_cliente_frame Demo.rt_demo 1 Demo2.telefono_555 Demo.db_demo) as H.
  assert (E : status (fst (run (actualizar_cliente Demo.rt_demo 1 Demo2.telefono_555) Demo.db_demo)) = 200)
    by (vm_compute; reflexivity).
  split; [exact E |].
  destruct (run (actualizar_cliente Demo.rt_demo 1 Demo2.telefono_555) Demo.db_demo) as [r s'].
  simpl in E |- *.
  destruct H as [[H _] | [(H & _) | (_ & f & Hs & Hf)]].
  - rewrite E in H. discriminate.
  - rewrite H in E. discriminate.
  - rewrite Hs. simpl. destruct (Hf Demo.cliente_ana) as (_ & _ & _ & _ & _ & _ & Hn & _).
    rewrite Hn by (left; reflexivity). reflexivity.
Defined.

Lemma actualizar_cliente_correo_duplicado_witness :
  let '(r, s') := run (actualizar_cliente Demo.rt_demo 1 [("correo", JStr "beto@example.com")])
                      Demo2.db_dos_clientes in status r = 500 /\ s' = Demo2.db_dos_clientes.
Proof.
  apply (actualizar_cliente_correo_duplicado Demo.rt_demo 1 _ Demo2.db_dos_clientes
           Demo.cliente_ana Demo2.cliente_beto "beto@example.com").
  - left; reflexivity.
  - reflexivity.
  - right; left; reflexivity.
  - discriminate.
  - reflexivity.
  - apply Nat.leb_le. reflexivity.
  - reflexivity.
Defined.

End ClienteUpdateProofs.

Module VentaAdminProofs.
Import Ventas Admin AdminSpec.

Lemma map_id_when_absent_v : forall (f : venta -> venta) l id,
  filter (fun r => Z.eqb (v_id r) id) l = [] ->
  map (fun r => if Z.eqb (v_id r) id then f r else r) l = l.
Proof.
  intros f l id. induction l as [| q t IH]; simpl; [reflexivity |].
  destruct (Z.eqb (v_id q) id); [discriminate |]. intros H. f_equal. apply IH, H.
Qed.

Lemma map_opt_const : forall (l : list venta) (o : option sqlval),
  map_opt (fun r => option_map (set_estado r) o) l =
  match l, o with
  | [], _ => Some []
  | _, Some e => Some (map (fun r => set_estado r e) l)
  | _, None => None
  end.
Proof.
  intros l o. induction l as [| x t IH]; [reflexivity |].
  simpl. rewrite IH. destruct o as [e |]; [| reflexivity]. destruct t; reflexivity.
Qed.

Lemma update_ventas_cases : forall rt id p s,
  match update_ventas rt id p s with
  | (inl _, s') => s' = s
  | (inr hit, s') =>
      int4_ok id = true /\
      ((select_venta s id = [] /\ hit = [] /\ s' = s) \/
      (exists e, pg_coerce rt (TVarchar 50) (match p with SNull => SNull | _ => SStr (text_of rt p) end) = Some e /\
         hit = map (fun r => set_estado r e) (select_venta s id) /\ hit <> [] /\
         s' = set_ventas s (map (fun r => if Z.eqb (v_id r) id then set_estado r e else r)
                                (ventas s)) (seq_ventas s)))
  end.
Proof.
  intros rt id p s. unfold update_ventas, bind_id, bind, lift_opt, ret, raise, get_db, put_db.
  destruct (int4_ok id) eqn:Hi; [| reflexivity]. cbv beta iota.
  rewrite RegisterProofs.pg_coerce_text. cbv beta iota.
  set (v := match p with SNull => SNull | _ => SStr (text_of rt p) end).
  rewrite map_opt_const.
  destruct (select_venta s id) as [| r0 t] eqn:Hsel.
  - split; [reflexivity |]. left. split; [reflexivity |]. split; [reflexivity |].
    rewrite map_id_when_absent_v by exact Hsel. destruct s; reflexivity.
  - destruct (pg_coerce rt (TVarchar 50) v) as [e |] eqn:He; [| reflexivity].
    split; [reflexivity |]. right. exists e. split; [reflexivity |]. split; [reflexivity |]. split; [discriminate |].
    reflexivity.
Qed.

Lemma run_actualizar_venta : forall rt id b s,
  run (actualizar_venta rt id b) s =
  if negb (truthy (prop b "estado")) then (fail_msg es 400 "Estado requerido", s)
  else match update_ventas rt id (to_param (prop b "estado")) s with
       | (inl e, s') => (fail_500 es "Error actualizando venta" (exn_message rt e), s')
       | (inr [], s') => (fail_msg es 404 "Venta no encontrada", s')
       | (inr (r :: _), s') => (ok_data es 200 None (venta_json rt keys_es r), s')
       end.
Proof.
  intros. unfold run, actualizar_venta, try_catch, bind, ret.
  destruct (negb _); [reflexivity |].
  destruct (update_ventas _ _ _ s) as [[e | [| r t]] s']; reflexivity.
Qed.

(** X8: Part_000's sale status update answers 400 (falsy estado), 500 or 404 without changing anything, or 200 after setting the status of the rows with that id to the given value, cut to 50 characters when it is longer and the rest is spaces (VARCHAR(50)); a status of more than 50 characters with a non-space past the 50th on an existing sale always answers 500. *)
Theorem actualizar_venta_effect : forall rt id b s,
  let '(r, s') := run (actualizar_venta rt id b) s in
  ((truthy (prop b "estado") = false /\ r = fail_msg es 400 "Estado requerido" /\ s' = s) \/
   (status r = 500 /\ s' = s) \/
   (select_venta s id = [] /\ r = fail_msg es 404 "Venta no encontrada" /\ s' = s) \/
   (status r = 200 /\ exists e,
      (forall x, prop b "estado" = JStr x ->
         e = SStr (if (char_length x <=? 50)%nat then x else fst (split_chars 50 x))) /\
      s' = set_ventas s (map (fun v => if Z.eqb (v_id v) id then set_estado v e else v)
                             (ventas s)) (seq_ventas s))) /\
  (forall x, prop b "estado" = JStr x -> (50 < char_length x)%nat ->
     all_spaces (snd (split_chars 50 x)) = false ->
     select_venta s id <> [] -> status r = 500 /\ s' = s).
Proof.
  intros rt id b s. rewrite run_actualizar_venta.
  destruct (truthy (prop b "estado")) eqn:Ht; simpl negb; cbv iota.
  2:{ split; [left; auto |]. intros x Hx Hlen _ _. rewrite Hx in Ht.
      destruct x as [| c x]; [simpl in Hlen; lia | simpl in Ht; discriminate]. }
  pose proof (update_ventas_cases rt id (to_param (prop b "estado")) s) as Hc.
  destruct (update_ventas _ _ _ s) as [[ex | hit] s'].
  - split; [right; left; auto |]. intros; auto.
  - destruct Hc as [_ [(Hsel & -> & ->) | (e & He & Hhit & Hne & Hs')]].
    + split; [right; right; left; auto |]. intros x _ _ _ H. contradiction.
    + destruct hit as [| r t]; [contradiction |].
      split.
      * right; right; right. split; [reflexivity |]. exists e. split; [| exact Hs'].
        intros x Hx. rewrite Hx in He. simpl in He. unfold varchar_fit in He.
        destruct (char_length x <=? 50)%nat; [simpl in He; congruence |].
        destruct (split_chars 50 x) as [y pad]. destruct (all_spaces pad); simpl in He |- *;
          congruence.
      * intros x Hx Hlen Hsp _. exfalso. rewrite Hx in He. simpl in He. unfold varchar_fit in He.
        replace (char_length x <=? 50)%nat with false in He
          by (symmetry; apply Nat.leb_gt; exact Hlen).
        destruct (split_chars 50 x) as [y pad]. simpl in Hsp. rewrite Hsp in He. discriminate.
Qed.

Lemma filter_map_estado : forall l id e,
  filter (fun r => Z.eqb (v_id r) id)
         (map (fun v => if Z.eqb (v_id v) id then set_estado v e else v) l)
  = map (fun r => set_estado r e) (filter (fun r => Z.eqb (v_id r) id) l).
Proof.
  intros l id e. induction l as [| x t IH]; simpl; [reflexivity |].
  destruct (Z.eqb (v_id x) id) eqn:E; simpl; rewrite ?E, IH; reflexivity.
Qed.

(** X9: After a part_000 sale status update that answers 200, the sale lookup of that id gives the same response. *)
Theorem actualizar_obtener_venta : forall rt id b s r s',
  run (actualizar_venta rt id b) s = (r, s') -> status r = 200 ->
  run (obtener_venta rt id) s' = (r, s').
Proof.
  intros rt id b s r s' H Hs. rewrite run_actualizar_venta in H.
  destruct (negb (truthy (prop b "estado"))); [injection H as <- _; discriminate |].
  pose proof (update_ventas_cases rt id (to_param (prop b "estado")) s) as Hc.
  destruct (update_ventas _ _ _ s) as [[ex | hit] s1].
  - injection H as <- _. discriminate.
  - destruct Hc as [Hi [(Hsel & -> & ->) | (e & He & Hhit & Hne & Hs1)]].
    + injection H as <- _. discriminate.
    + destruct hit as [| r0 t]; [contradiction |]. injection H as <- <-.
      unfold run, obtener_venta, try_catch, bind_id, bind, get_db, ret, select_venta.
      rewrite Hi, Hs1. cbn [ventas set_ventas]. rewrite filter_map_estado.
      unfold select_venta in Hhit. rewrite <- Hhit. reflexivity.
Qed.

Lemma actualizar_venta_effect_witness :
  status (fst (run (actualizar_venta Demo.rt_demo 1 Demo2.estado_paid) Demo.db_demo)) = 200 /\
  map v_estado (ventas (snd (run (actualizar_venta Demo.rt_demo 1 Demo2.estado_paid) Demo.db_demo)))
    = [SStr "paid"; SStr "paid"].
Proof.
  pose proof (actualizar_venta_effect Demo.rt_demo 1 Demo2.estado_paid Demo.db_demo) as H.
  assert (E : status (fst (run (actualizar_venta Demo.rt_demo 1 Demo2.estado_paid) Demo.db_demo)) = 200)
    by (vm_compute; reflexivity).
  split; [exact E |].
  destruct (run (actualizar_venta Demo.rt_demo 1 Demo2.estado_paid) Demo.db_demo) as [r s'].
  simpl in E |- *.
  destruct H as [[(_ & H & _) | [(H & _) | [(_ & H & _) | (_ & e & He & Hs)]]] _].
  - rewrite H in E. discriminate.
  - rewrite E in H. discriminate.
  - rewrite H in E. discriminate.
  - rewrite (He "paid" eq_refl) in Hs. rewrite Hs. reflexivity.
Defined.

Lemma actualizar_obtener_venta_witness :
  run (obtener_venta Demo.rt_demo 1) (snd (run (actualizar_venta Demo.rt_demo 1 Demo2.estado_paid) Demo.db_demo))
    = run (actualizar_venta Demo.rt_demo 1 Demo2.estado_paid) Demo.db_demo.
Proof.
  rewrite (surjective_pairing (run (actualizar_venta Demo.rt_demo 1 Demo2.estado_paid) Demo.db_demo)) at 2.
  apply (actualizar_obtener_venta Demo.rt_demo 1 Demo2.estado_paid Demo.db_demo _ _
           (surjective_pairing _)).
  vm_compute. reflexivity.
Defined.

End VentaAdminProofs.

Module QueryProofs2.
Import Productos ProductUpdate Admin AdminSpec.

(** X12: Server.js's admin product list answers 500 with the TypeError message when the estado parameter is truthy but not a string (a repeated query parameter arrives as an array), and changes nothing. *)
Theorem listar_productos_admin_estado_no_texto : forall rt exec q s,
  truthy (prop q "estado") = true -> (forall x, prop q "estado" <> JStr x) ->
  run (listar_productos_admin rt exec q) s
    = (fail_500 es "Error obteniendo productos" "estado.toLowerCase is not a function", s).
Proof.
  intros rt exec q s Ht Hs.
  assert (Hc : consulta_productos_admin rt q = inl (JsErr "estado.toLowerCase is not a function")).
  { unfold consulta_productos_admin. cbv zeta.
    destruct (truthy (prop q "categoria_id") && negb (is_str (prop q "categoria_id") "all"));
    rewrite Ht; destruct (prop q "estado") as [| | | | x | |]; try reflexivity;
      try discriminate; exfalso; apply (Hs x); reflexivity. }
  unfold run, listar_productos_admin, try_catch, bind, ret, raise. rewrite Hc. reflexivity.
Qed.

Lemma no_dollar_app : forall a b, no_dollar (a ++ b) = no_dollar a && no_dollar b.
Proof. induction a as [| c a IH]; intros b; simpl; [reflexivity |]. rewrite IH, andb_assoc. reflexivity. Qed.

Lemma scan_no_dollar : forall t, no_dollar t = true -> scan t None = [].
Proof.
  induction t as [| c t IH]; intros H; simpl in *; [reflexivity |].
  apply andb_true_iff in H as [Hc Ht]. unfold scan_start.
  apply negb_true_iff in Hc. rewrite Hc. apply IH, Ht.
Qed.

Lemma digit_char_no_dollar : forall n,
  Ascii.eqb (ascii_of_nat (48 + n mod 10)%nat) "$"%char = false.
Proof.
  intros n. assert (H : (n mod 10 < 10)%nat) by (apply Nat.mod_upper_bound; lia). revert H.
  generalize (n mod 10)%nat. intros m Hm.
  do 10 (destruct m as [| m]; [reflexivity |]). lia.
Qed.

Lemma no_dollar_dec_aux : forall f n acc,
  no_dollar acc = true -> no_dollar (dec_aux f n acc) = true.
Proof.
  induction f as [| f IH]; intros n acc H; cbn [dec_aux]; [exact H |].
  assert (H' : no_dollar (String (ascii_of_nat (48 + n mod 10)%nat) acc) = true)
    by (cbn [no_dollar]; rewrite digit_char_no_dollar, H; reflexivity).
  destruct (n <? 10)%nat; [exact H' | apply IH, H'].
Qed.

Lemma no_dollar_nat_to_dec : forall n, no_dollar (nat_to_dec n) = true.
Proof. intros n. apply no_dollar_dec_aux. reflexivity. Qed.

Lemma no_dollar_join : forall sep l,
  no_dollar sep = true -> forallb no_dollar l = true -> no_dollar (join sep l) = true.
Proof.
  intros sep l Hs. induction l as [| x [| y t] IH]; intros Hl; simpl in *; [reflexivity | |].
  - rewrite andb_true_r in Hl. exact Hl.
  - apply andb_true_iff in Hl as [Hx Hl].
    rewrite !no_dollar_app, Hx, Hs. simpl. apply IH. simpl. exact Hl.
Qed.

Lemma set_items_no_dollar : forall l k,
  forallb (fun '(f, _) => no_dollar f) l = true ->
  forallb no_dollar (set_items (number_fields l k)) = true.
Proof.
  induction l as [| [f v] t IH]; intros k H; [reflexivity |].
  cbn [forallb] in H. apply andb_true_iff in H as [Hf Ht].
  cbn [number_fields]. destruct (is_undef v); [apply IH, Ht |].
  unfold set_items. cbn [map forallb]. fold (set_items (number_fields t (S k))).
  rewrite !no_dollar_app, Hf, no_dollar_nat_to_dec. apply IH, Ht.
Qed.

Lemma update_text_no_dollar : forall b st,
  no_dollar (update_text (number_fields (allowed_fields b st) 1)) = true.
Proof.
  intros b st. unfold update_text. rewrite !no_dollar_app, no_dollar_nat_to_dec.
  rewrite no_dollar_join; [reflexivity | reflexivity |].
  rewrite forallb_app, set_items_no_dollar; reflexivity.
Qed.

Lemma number_fields_nil : forall l k,
  number_fields l k = [] -> forall f v, In (f, v) l -> is_undef v = true.
Proof.
  induction l as [| [f v] t IH]; intros k H f' v' Hin; simpl in *; [contradiction |].
  destruct (is_undef v) eqn:E; [| discriminate].
  destruct Hin as [Heq | Hin]; [injection Heq as <- <-; exact E | apply (IH k H f' v' Hin)].
Qed.

Lemma update_product_run : forall rt now id b s,
  run (update_product rt now id b) s =
    (fail_500 en "Error actualizando producto"
       (match status_norm (prop b "status") with
        | inl ex => exn_message rt ex
        | inr _ => rt_pg_message rt EBind
        end), s).
Proof.
  intros rt now id b s. unfold run, update_product, try_catch, bind, ret, raise.
  destruct (status_norm (prop b "status")) as [ex | st] eqn:Hst; [reflexivity |].
  destruct (number_fields (allowed_fields b st) 1) as [| x t] eqn:Hnf.
  - exfalso. pose proof (UpdateProofs.status_norm_values _ _ Hst) as Hv.
    assert (Hin : In ("status", st) (allowed_fields b st))
      by (unfold allowed_fields; simpl; tauto).
    pose proof (number_fields_nil _ _ Hnf _ _ Hin) as Hu.
    destruct Hv as [-> | ->]; discriminate.
  - rewrite <- Hnf.
    assert (Hb : bind_ok (update_text (number_fields (allowed_fields b st) 1))
                   (length (map (fun '(_, _, v) => to_param v) (number_fields (allowed_fields b st) 1)
                            ++ [SNum (Num (inject_Z id))])%list) = false).
    { unfold bind_ok, placeholders. rewrite scan_no_dollar by apply update_text_no_dollar.
      rewrite length_app. simpl. rewrite Nat.add_1_r. reflexivity. }
    rewrite Hb. reflexivity.
Qed.
(** X13: Part_001's product update answers 500 for every body and never changes the database: a non-string status throws, and otherwise the SET list always contains status and is written without $, so PostgreSQL refuses the bound values; its 400 branch is unreachable. *)
Theorem update_product_always_500 : forall rt now id b s,
  run (update_product rt now id b) s =
    (fail_500 en "Error actualizando producto"
       (match status_norm (prop b "status") with
        | inl ex => exn_message rt ex
        | inr _ => rt_pg_message rt EBind
        end), s).
Proof. exact update_product_run. Qed.


Lemma listar_productos_admin_estado_no_texto_witness :
  run (listar_productos_admin Demo.rt_demo Demo2.sin_filas
         [("estado", JArr [JStr "active"; JStr "inactive"])]) Demo.db_demo
    = (fail_500 es "Error obteniendo productos" "estado.toLowerCase is not a function", Demo.db_demo).
Proof.
  apply listar_productos_admin_estado_no_texto.
  - reflexivity.
  - intros x H. discriminate.
Defined.

End QueryProofs2.

Module PartialUpdateProofs.
Import Productos ProductUpdate Spec UpdateProofs.

(** C2 (code bug): the partial update does not hold in part_001. Its
    product update (PUT /api/admin/products/:id) answers 500 for every id
    and body and leaves the database as it was, so no field is updated and
    the modification time is not refreshed: for [{stock: 5}] on product 1,
    whose stock is 0 and whose modification time is 5, the SET list is
    written [stock = 1, status = 2] without [$] and PostgreSQL refuses the
    bound values. In server.js (PUT /api/admin/productos/:id) the property
    holds whenever the database accepts the statement: every row of that id
    keeps its omitted fields and gets the modification time [now]; otherwise
    the answer is 500 and nothing changes; [{stock: 5}] on an existing
    product with an INTEGER id answers 200 and changes only its stock and
    its modification time. *)
Theorem product_update_partial :
  (forall rt now id b s,
     status (fst (run (update_product rt now id b) s)) = 500 /\
     snd (run (update_product rt now id b) s) = s) /\
  (status (fst (run (update_product Demo.rt_demo 9 1 [("stock", JNum (Num 5))])
                    Demo.db_demo)) = 500 /\
   snd (run (update_product Demo.rt_demo 9 1 [("stock", JNum (Num 5))]) Demo.db_demo)
     = Demo.db_demo /\
   map p_stock (productos Demo.db_demo) = [SNum (Num 0)] /\
   map p_fecha_actualizacion (productos Demo.db_demo) = [5] /\
   update_text (number_fields (allowed_fields [("stock", JNum (Num 5))] (JStr "ACTIVO")) 1)
     = "UPDATE products SET stock = 1, status = 2, updated_at = CURRENT_TIMESTAMP WHERE id = 3 RETURNING *") /\
  (forall rt now id b s p,
     In p (productos s) -> p_id p = id ->
     let '(r, s') := run (actualizar_producto rt now id b) s in
     (status r = 500 /\ s' = s) \/
     (status r = 200 /\
      exists f, productos s' = map (fun q => if Z.eqb (p_id q) id then f q else q) (productos s)
                /\ (forall q, frame_es b now q (f q)))) /\
  (forall rt now id s p,
     In p (productos s) -> p_id p = id -> int4_ok id = true ->
     let '(r, s') := run (actualizar_producto rt now id [("stock", JNum (Num 5))]) s in
     status r = 200 /\
     s' = set_productos s
            (map (fun q => if Z.eqb (p_id q) id then with_stock (SNum (Num 5)) now q else q)
                 (productos s)) (seq_productos s)).
Proof.
  split.
  { intros rt now id b s. rewrite QueryProofs2.update_product_run. split; reflexivity. }
  split; [vm_compute; repeat split |].
  split; [exact actualizar_producto_frame | exact actualizar_producto_stock5].
Qed.

Lemma product_update_partial_witness :
  In Demo.producto_inactivo (productos Demo.db_demo) /\
  p_id Demo.producto_inactivo = 1 /\
  status (fst (run (actualizar_producto Demo.rt_demo 9 1 [("stock", JNum (Num 5))])
                   Demo.db_demo)) = 200 /\
  (let '(r, s') := run (actualizar_producto Demo.rt_demo 9 1 [("descripcion", JStr "roja")])
                      Demo.db_demo in
   (status r = 500 /\ s' = Demo.db_demo) \/
   (status r = 200 /\
    exists f, productos s' = map (fun q => if Z.eqb (p_id q) 1 then f q else q)
                                 (productos Demo.db_demo)
              /\ (forall q, frame_es [("descripcion", JStr "roja")] 9 q (f q)))) /\
  status (fst (run (update_product Demo.rt_demo 9 1 [("stock", JNum (Num 5))])
                   Demo.db_demo)) = 500.
Proof.
  split; [left; reflexivity |]. split; [reflexivity |]. split.
  - pose proof (proj2 (proj2 (proj2 product_update_partial)) Demo.rt_demo 9 1 Demo.db_demo
                  Demo.producto_inactivo (or_introl eq_refl) eq_refl eq_refl) as H.
    destruct (run _ _) as [r s']. destruct H as [H _]. exact H.
  - split.
    + apply (proj1 (proj2 (proj2 product_update_partial)) Demo.rt_demo 9 1 _ Demo.db_demo
               Demo.producto_inactivo); [left |]; reflexivity.
    + exact (proj1 (proj1 product_update_partial Demo.rt_demo 9 1
                      [("stock", JNum (Num 5))] Demo.db_demo)).
Defined.

End PartialUpdateProofs.

Module LoginClienteProofs.
Import Clientes Admin AdminSpec.

Lemma in_filter_true : forall {A} (f : A -> bool) l x,
  filter f l = x :: [] \/ (exists t, filter f l = x :: t) -> In x l /\ f x = true.
Proof.
  intros A f l x H. assert (Hx : In x (filter f l)).
  { destruct H as [-> | [t ->]]; left; reflexivity. }
  apply filter_In in Hx. exact Hx.
Qed.

Lemma sql_eq_str : forall x v, sql_eq (SStr x) v = true -> v = SStr x.
Proof.
  intros x v H. destruct v; try discriminate. simpl in H.
  apply String.eqb_eq in H. subst. reflexivity.
Qed.

(** X14: Server.js's customer login changes nothing unless it answers 200; then it matched a stored active customer with the given username, and its only write sets ultima_sesion of the rows with that customer's id. *)
Theorem login_cliente_effect : forall rt now b s,
  let '(r, s') := run (login_cliente rt now b) s in
  (status r <> 200 -> s' = s) /\
  (status r = 200 ->
   exists q, In q (clientes s) /\ c_activo q = true /\
     (forall x, prop b "usuario" = JStr x -> c_usuario q = SStr x) /\
     s' = set_clientes s
            (map (fun q' => if Z.eqb (c_id q') (c_id q) then with_sesion now q' else q')
                 (clientes s)) (seq_clientes s)).
Proof.
  intros rt now b s.
  unfold run, login_cliente, try_catch, bind, ret, get_db, put_db, lift_opt, raise.
  destruct (_ || _); [split; [reflexivity | discriminate] |].
  destruct (pg_coerce rt TText (to_param (prop b "usuario"))) as [pu |] eqn:Hpu;
    [| split; [reflexivity | discriminate]].
  unfold ret.
  destruct (filter (fun q => sql_eq pu (c_usuario q) && c_activo q) (clientes s))
    as [| c cs] eqn:Hf; [split; [reflexivity | discriminate] |].
  unfold bcrypt_compare, ret, raise.
  destruct (prop b "contrasena"), (c_contrasena_hash c);
    try (split; [reflexivity | discriminate]).
  destruct (rt_bcrypt_compare _ _ _); [| split; [reflexivity | discriminate]].
  split; [intros H; exfalso; apply H; reflexivity |]. intros _.
  destruct (in_filter_true _ _ c (or_intror (ex_intro _ cs Hf))) as [Hin Hc].
  apply andb_true_iff in Hc as [Hu Ha].
  exists c. split; [exact Hin |]. split; [exact Ha |]. split; [| reflexivity].
  intros x Hx. rewrite Hx in Hpu. simpl in Hpu. injection Hpu as <-.
  apply sql_eq_str, Hu.
Qed.

Lemma insert_cliente_activo : forall rt now tys ps rol s row s',
  insert_cliente rt now tys ps rol s = (inr row, s') -> c_activo row = true.
Proof.
  intros rt now tys ps rol s row s'.
  unfold insert_cliente, bind, get_db, put_db, lift_opt, raise.
  intros H.
  destruct (coerce_list rt tys ps) as [[| u [| h [| n [| c rest]]]] |];
    unfold ret in H; cbv beta iota zeta in H; try discriminate.
  destruct (negb (int4_ok (seq_clientes s + 1))); cbv beta iota zeta in H; [discriminate |].
  destruct (is_null u || is_null h || is_null n || is_null c);
    cbv beta iota zeta in H; [discriminate |].
  destruct (existsb _ _); cbv beta iota zeta in H; [discriminate |].
  injection H as <- _. reflexivity.
Qed.

Lemma registro_201 : forall rt now salt b s r s',
  run (registro rt now salt b) s = (r, s') -> status r = 201 ->
  exists row p, prop b "contrasena" = JStr p /\ truthy (prop b "usuario") = true /\
    truthy (prop b "contrasena") = true /\
    clientes s' = (clientes s ++ [row])%list /\ c_activo row = true /\
    ((char_length (rt_bcrypt_hash rt salt p) <= 255)%nat ->
     c_contrasena_hash row = SStr (rt_bcrypt_hash rt salt p)) /\
    (forall x, prop b "usuario" = JStr x ->
       ((char_length x <= 100)%nat -> c_usuario row = SStr x) /\ forall q, In q (clientes s) -> sql_eq (SStr x) (c_usuario q) = false) /\
    r = ok_data es 201 (Some "Cliente registrado exitosamente")
          (JObj [("token", JStr (rt_jwt_sign rt (JObj [("idUsuario", JNum (Num (inject_Z (c_id row))));
                                            ("usuario", of_sql rt TText (c_usuario row));
                                            ("rol", JStr "cliente")])));
                 ("cliente", cliente_publico rt row)]).
Proof.
  intros rt now salt b s r s'.
  unfold run, registro, try_catch, bind, ret, get_db, lift_opt, raise.
  destruct (negb (truthy (prop b "usuario"))) eqn:Htu; [simpl; intros H; injection H as <- _; discriminate |].
  destruct (negb (truthy (prop b "contrasena"))) eqn:Htc;
    [simpl; intros H; injection H as <- _; discriminate |].
  destruct (_ || _); [simpl; intros H; injection H as <- _; discriminate |]. simpl orb.
  destruct (pg_coerce rt TText (to_param (prop b "usuario"))) as [pu |] eqn:Hpu;
    [| intros H; injection H as <- _; discriminate].
  destruct (pg_coerce rt TText (to_param (prop b "correo"))) as [pc |];
    [| intros H; injection H as <- _; discriminate].
  unfold ret.
  destruct (existsb (fun q => sql_eq pu (c_usuario q) || sql_eq pc (c_correo q)) (clientes s))
    eqn:Hex; [intros H; injection H as <- _; discriminate |].
  unfold bcrypt_hash, raise, ret.
  destruct (prop b "contrasena") as [| | | | p | |] eqn:Hp;
    try (intros H; injection H as <- _; discriminate).
  pose proof (RegisterProofs.insert_cliente_cases rt now
    [TVarchar 100; TVarchar 255; TVarchar 255; TVarchar 255; TVarchar 20;
     TText; TVarchar 100; TVarchar 100]
    [to_param (prop b "usuario"); SStr (rt_bcrypt_hash rt salt p); to_param (prop b "nombre");
     to_param (prop b "correo"); to_param (or_else (prop b "telefono") JNull);
     to_param (or_else (prop b "direccion") JNull);
     to_param (or_else (prop b "ciudad") JNull); to_param (or_else (prop b "pais") JNull)]
    (SStr "cliente") s) as Hi.
  destruct (insert_cliente _ _ _ _ _ s) as [[e | row] s1] eqn:Hins;
    [intros H; injection H as <- _; discriminate |].
  intros H _. injection H as <- <-.
  destruct Hi as (Hcl & u & h & n & c & rest & Hc & Hu & Hh & _).
  apply RegisterProofs.coerce_list_cons in Hc as [Hc1 Hc].
  apply RegisterProofs.coerce_list_cons in Hc as [Hc2 _].
  exists row, p. split; [reflexivity |].
  split; [apply negb_false_iff, Htu |]. split; [apply negb_false_iff, Htc |].
  split; [exact Hcl |]. split; [apply (insert_cliente_activo _ _ _ _ _ _ _ _ Hins) |].
  split.
  { intros Hl. rewrite Hh.
    rewrite DriverProofs.pg_coerce_varchar_fits in Hc2 by exact Hl. congruence. }
  split; [| reflexivity].
  intros x Hx. split.
  - intros Hl. rewrite Hx in Hc1. rewrite Hu.
    change (to_param (JStr x)) with (SStr x) in Hc1.
    rewrite DriverProofs.pg_coerce_varchar_fits in Hc1 by exact Hl. congruence.
  - rewrite Hx in Hpu. simpl in Hpu. injection Hpu as <-.
    intros q Hq. apply Bool.not_true_iff_false. intros Hs.
    assert (Ht : existsb (fun q => sql_eq (SStr x) (c_usuario q) || sql_eq pc (c_correo q))
                   (clientes s) = true)
      by (apply existsb_exists; exists q; rewrite Hs; auto).
    congruence.
Qed.

(** X15: After a server.js registration that answers 201, a login with the same username and password answers 200 with the new customer, when bcrypt's compare accepts the hash it produced, the username fits its VARCHAR(100) column and the hash fits its VARCHAR(255) column (so neither was truncated). *)
Theorem registro_login_cliente : forall rt now salt b s r s' now' x p,
  run (registro rt now salt b) s = (r, s') -> status r = 201 ->
  prop b "usuario" = JStr x -> prop b "contrasena" = JStr p ->
  (char_length x <= 100)%nat ->
  (char_length (rt_bcrypt_hash rt salt p) <= 255)%nat ->
  rt_bcrypt_compare rt p (rt_bcrypt_hash rt salt p) = true ->
  exists row tok, clientes s' = (clientes s ++ [row])%list /\
    fst (run (login_cliente rt now' [("usuario", JStr x); ("contrasena", JStr p)]) s')
      = ok_data es 200 (Some "Login exitoso")
          (JObj [("token", JStr tok); ("cliente", datos_cliente rt row)]).
Proof.
  intros rt now salt b s r s' now' x p Hrun H201 Hx Hp Hlx Hlh Hcmp.
  destruct (registro_201 _ _ _ _ _ _ _ Hrun H201)
    as (row & p' & Hp' & Htu & Htc & Hcl & Ha & Hh & Hu & _).
  rewrite Hp in Hp'. injection Hp' as <-.
  rewrite Hx in Htu. rewrite Hp in Htc.
  specialize (Hh Hlh). destruct (Hu x Hx) as [Hru Hfresh]. specialize (Hru Hlx).
  eexists row, _. split; [exact Hcl |].
  unfold run, login_cliente.
  change (prop [("usuario", JStr x); ("contrasena", JStr p)] "usuario") with (JStr x).
  change (prop [("usuario", JStr x); ("contrasena", JStr p)] "contrasena") with (JStr p).
  rewrite Htu, Htc.
  change (pg_coerce rt TText (to_param (JStr x))) with (Some (SStr x)).
  cbv beta iota zeta delta [try_catch bind ret get_db put_db lift_opt raise negb orb].
  rewrite Hcl, filter_app.
  rewrite (proj2 (LookupProofs.filter_nil_iff _ _)) by
    (intros q Hq; rewrite (Hfresh q Hq); reflexivity).
  cbn [filter app]. rewrite Hru, Ha. cbn [sql_eq]. rewrite String.eqb_refl. cbn [andb].
  rewrite Hh. cbv beta iota zeta delta [bcrypt_compare ret]. rewrite Hcmp. reflexivity.
Qed.

Lemma login_cliente_effect_witness :
  status (fst (run (login_cliente Demo.rt_demo 9 [("usuario", JStr "ana"); ("contrasena", JStr "secret")])
                   Demo.db_demo)) = 200 /\
  map c_ultima_sesion (clientes (snd (run (login_cliente Demo.rt_demo 9
                          [("usuario", JStr "ana"); ("contrasena", JStr "secret")]) Demo.db_demo)))
    = [Some 9].
Proof.
  pose proof (login_cliente_effect Demo.rt_demo 9
                [("usuario", JStr "ana"); ("contrasena", JStr "secret")] Demo.db_demo) as H.
  assert (E : status (fst (run (login_cliente Demo.rt_demo 9
                 [("usuario", JStr "ana"); ("contrasena", JStr "secret")]) Demo.db_demo)) = 200)
    by (vm_compute; reflexivity).
  split; [exact E |].
  destruct (run (login_cliente Demo.rt_demo 9 _) Demo.db_demo) as [r s'].
  simpl in E |- *. destruct H as [_ H]. destruct (H E) as (q & Hin & _ & _ & Hs).
  simpl in Hin. destruct Hin as [<- | []]. rewrite Hs. reflexivity.
Defined.

Lemma registro_login_cliente_witness :
  exists row tok,
    clientes (snd (run (registro Demo.rt_demo 9 "salt" Demo2.registro_beto) Demo.db_demo))
      = (clientes Demo.db_demo ++ [row])%list /\
    fst (run (login_cliente Demo.rt_demo 10 [("usuario", JStr "beto"); ("contrasena", JStr "clave")])
             (snd (run (registro Demo.rt_demo 9 "salt" Demo2.registro_beto) Demo.db_demo)))
      = ok_data es 200 (Some "Login exitoso")
          (JObj [("token", JStr tok); ("cliente", datos_cliente Demo.rt_demo row)]).
Proof.
  apply (registro_login_cliente Demo.rt_demo 9 "salt" Demo2.registro_beto Demo.db_demo
           _ _ 10 "beto" "clave" (surjective_pairing _)).
  - vm_compute. reflexivity.
  - reflexivity.
  - reflexivity.
  - apply Nat.leb_le; reflexivity.
  - apply Nat.leb_le; reflexivity.
  - reflexivity.
Defined.

End LoginClienteProofs.

Module AdminLoginProofs.
Import Clientes Admin.

(** X16: Server.js's admin login never writes, every 401 it gives is 'Credenciales inválidas', and a 200 returns a stored administrator with the given username without its password hash. *)
Theorem login_admin_outcomes : forall rt admins b s,
  let '(r, s') := run (login_admin rt admins b) s in
  s' = s /\
  (status r = 401 -> r = fail_msg es 401 "Credenciales inválidas") /\
  (status r = 200 ->
   exists a tok, In a admins /\
     (forall x, prop b "usuario" = JStr x -> a_usuario a = SStr x) /\
     r = ok_data es 200 (Some "Login exitoso")
           (JObj [("token", JStr tok); ("usuario", datos_admin rt a)])).
Proof.
  intros rt admins b s.
  unfold run, login_admin, try_catch, bind, ret, lift_opt, raise.
  destruct (_ || _); [repeat split; intros; try reflexivity; discriminate |].
  destruct (pg_coerce rt TText (to_param (prop b "usuario"))) as [pu |] eqn:Hpu;
    [| repeat split; intros; try reflexivity; discriminate].
  unfold ret.
  destruct (select_admin admins pu) as [| a t] eqn:Hs; [repeat split; intros; try reflexivity; discriminate |].
  unfold Clientes.bcrypt_compare, ret, raise.
  destruct (prop b "contrasena"), (a_contrasena_hash a); try (repeat split; intros; try reflexivity; discriminate).
  destruct (rt_bcrypt_compare _ _ _); [| repeat split; intros; try reflexivity; discriminate].
  split; [reflexivity |]. split; [discriminate |]. intros _.
  assert (Hin : In a (select_admin admins pu)) by (rewrite Hs; left; reflexivity).
  unfold select_admin in Hin. apply filter_In in Hin as [Hin Hu].
  eexists a, _. split; [exact Hin |]. split; [| reflexivity].
  intros x Hx. rewrite Hx in Hpu. simpl in Hpu. injection Hpu as <-.
  apply LoginClienteProofs.sql_eq_str, Hu.
Qed.



Lemma login_admin_outcomes_witness :
  status (fst (run (login_admin Demo.rt_demo [Demo2.admin_root] Demo2.root_clave) Demo.db_demo)) = 200 /\
  exists tok, fst (run (login_admin Demo.rt_demo [Demo2.admin_root] Demo2.root_clave) Demo.db_demo)
    = ok_data es 200 (Some "Login exitoso")
        (JObj [("token", JStr tok); ("usuario", datos_admin Demo.rt_demo Demo2.admin_root)]).
Proof.
  pose proof (login_admin_outcomes Demo.rt_demo [Demo2.admin_root] Demo2.root_clave
                Demo.db_demo) as H.
  assert (E : status (fst (run (login_admin Demo.rt_demo [Demo2.admin_root] Demo2.root_clave) Demo.db_demo)) = 200)
    by (vm_compute; reflexivity).
  split; [exact E |].
  destruct (run (login_admin Demo.rt_demo [Demo2.admin_root] Demo2.root_clave) Demo.db_demo) as [r s'].
  simpl in E |- *. destruct H as (_ & _ & H). destruct (H E) as (a & tok & Hin & _ & Hr).
  simpl in Hin. destruct Hin as [<- | []]. exists tok. exact Hr.
Defined.


End AdminLoginProofs.
